(** * Entity resolution and delivery scheduling: a shallow embedding

    This development embeds three modules of the order-processing
    repository and states their specified properties over the embedding:

    - [lookup.py]: the address normalizers, the general customer matcher
      [find_customer_by_address], the region-restricted matcher
      [find_momax_bg_customer_by_address], the ILN derivation
      [find_kundennummer_by_iln] and the ILN lookup [find_iln_by_address];
    - [delivery_logic.py]: [calculate_delivery_week] and its helpers, and
      [is_tour_valid];
    - [ai_customer_match.py]: the confidence-gated write-back
      [try_ai_customer_match].

    Python values are modelled as follows.  A [str] is the list of its
    Unicode code points ([pystr]).  A pandas data frame is the set of its
    column labels and the list of its rows in index order; the frame that
    [find_customer_by_address] builds from its candidate rows is read
    through [frame_cell_str], which follows the dtype inference of pandas.
    Exceptions are a sum type ([result]).  Everything that belongs to the Python runtime
    or to a third-party package (Unicode tables, [rapidfuzz], [difflib],
    [dateutil], [json], number parsing in pandas) is a field of the class
    [PyRuntime]: the theorems hold for every runtime, and the instance
    [latin_runtime] is used to evaluate the code on concrete inputs. *)

From Stdlib Require Import String Ascii.
From Stdlib Require Import DecimalString.
From Stdlib Require Import List NArith ZArith QArith Bool Lia Sorted.
Import ListNotations.

Set Warnings "-register-all".

Close Scope Q_scope.
Open Scope list_scope.
Open Scope bool_scope.

(** ** Python strings *)

Definition pystr := list N.

(** An ASCII literal of the source. *)
Definition lit (s : string) : pystr := map N_of_ascii (list_ascii_of_string s).

Fixpoint str_eqb (a b : pystr) : bool :=
  match a, b with
  | [], [] => true
  | x :: a', y :: b' => N.eqb x y && str_eqb a' b'
  | _, _ => false
  end.

(** [s.startswith(p)] *)
Fixpoint startswith (p s : pystr) : bool :=
  match p, s with
  | [], _ => true
  | x :: p', y :: s' => N.eqb x y && startswith p' s'
  | _ :: _, [] => false
  end.

(** [s.endswith(p)] *)
Definition endswith (p s : pystr) : bool := startswith (rev p) (rev s).

(** [sub in s] *)
Fixpoint contains (sub s : pystr) : bool :=
  startswith sub s ||
  match s with
  | [] => false
  | _ :: s' => contains sub s'
  end.

(** [s.replace(old, new)] for a non-empty [old]: occurrences are found from
    left to right and do not overlap.  [skip] counts the characters of a
    matched occurrence that are still to be dropped. *)
Fixpoint replace_go (old new : pystr) (skip : nat) (s : pystr) : pystr :=
  match s with
  | [] => []
  | c :: s' =>
      match skip with
      | S k => replace_go old new k s'
      | O =>
          if startswith old s
          then new ++ replace_go old new (length old - 1) s'
          else c :: replace_go old new 0 s'
      end
  end.

Definition replace (old new s : pystr) : pystr := replace_go old new 0 s.

(** [s.lstrip(chars)] and [s.rstrip(chars)] for a set of characters given as
    a predicate. *)
Fixpoint lstrip_by (p : N -> bool) (s : pystr) : pystr :=
  match s with
  | [] => []
  | c :: s' => if p c then lstrip_by p s' else s
  end.

Definition rstrip_by (p : N -> bool) (s : pystr) : pystr :=
  rev (lstrip_by p (rev s)).

Definition strip_by (p : N -> bool) (s : pystr) : pystr :=
  rstrip_by p (lstrip_by p s).

(** [s[n:]] and [s[-n:]] *)
Definition slice_from (n : nat) (s : pystr) : pystr := skipn n s.
Definition slice_last (n : nat) (s : pystr) : pystr := skipn (length s - n) s.

(** [sep.join(parts)] *)
Fixpoint join (sep : pystr) (parts : list pystr) : pystr :=
  match parts with
  | [] => []
  | [p] => p
  | p :: ps => p ++ sep ++ join sep ps
  end.

(** [str(n)] for an integer. *)
Definition str_of_N (n : N) : pystr := lit (NilEmpty.string_of_uint (N.to_uint n)).

Definition str_of_Z (z : Z) : pystr :=
  match z with
  | Zneg p => lit "-" ++ str_of_N (Npos p)
  | _ => str_of_N (Z.to_N z)
  end.

(** Membership and de-duplication for the Python sets of strings. *)
Definition str_in (x : pystr) (l : list pystr) : bool := existsb (str_eqb x) l.

Fixpoint dedup (l : list pystr) : list pystr :=
  match l with
  | [] => []
  | x :: l' => if str_in x l' then dedup l' else x :: dedup l'
  end.

(** ** Regular expressions

    The fragment of [re] the source uses: character classes, greedy bounded
    repetition of a class, sequence, alternation, capture groups, [^], [$]
    and [\b].  Matching is by backtracking, as in CPython: alternatives in
    order, repetitions longest first. *)

Inductive regex :=
| RChar (p : N -> bool)
| RRep (p : N -> bool) (lo : nat) (hi : option nat)
| RSeq (a b : regex)
| RAlt (a b : regex)
| REps
| RGroup (i : nat) (r : regex)
| RBol
| REol
| RWordB (w : N -> bool).

Definition captures := list (nat * pystr).

(** [m.group(i)]; a group that did not take part in the match is [None]. *)
Fixpoint group (i : nat) (caps : captures) : option pystr :=
  match caps with
  | [] => None
  | (j, t) :: caps' => if Nat.eqb i j then Some t else group i caps'
  end.

Definition hi_allows (hi : option nat) : bool :=
  match hi with
  | Some O => false
  | _ => true
  end.

Definition hi_pred (hi : option nat) : option nat := option_map pred hi.

Definition or_else {A} (x y : option A) : option A :=
  match x with
  | Some _ => x
  | None => y
  end.

(** Greedy [p{lo,hi}] followed by the continuation [k]. *)
Fixpoint rep_go {A} (p : N -> bool) (lo : nat) (hi : option nat)
    (prev : option N) (s : pystr) (k : option N -> pystr -> option A) : option A :=
  let stop := match lo with O => k prev s | S _ => None end in
  match s with
  | c :: s' =>
      if p c && hi_allows hi
      then or_else (rep_go p (pred lo) (hi_pred hi) (Some c) s' k) stop
      else stop
  | [] => stop
  end.

Definition is_word_opt (w : N -> bool) (c : option N) : bool :=
  match c with
  | Some c => w c
  | None => false
  end.

(** [rmatch r prev s caps k]: match [r] at the head of [s], where [prev] is
    the character before it, then continue with [k]. *)
Fixpoint rmatch {A} (r : regex) (prev : option N) (s : pystr) (caps : captures)
    (k : option N -> pystr -> captures -> option A) : option A :=
  match r with
  | RChar p =>
      match s with
      | c :: s' => if p c then k (Some c) s' caps else None
      | [] => None
      end
  | RRep p lo hi => rep_go p lo hi prev s (fun prev' s' => k prev' s' caps)
  | RSeq a b =>
      rmatch a prev s caps (fun prev1 s1 caps1 => rmatch b prev1 s1 caps1 k)
  | RAlt a b => or_else (rmatch a prev s caps k) (rmatch b prev s caps k)
  | REps => k prev s caps
  | RGroup i r' =>
      rmatch r' prev s caps
        (fun prev1 s1 caps1 =>
           k prev1 s1 ((i, firstn (length s - length s1) s) :: caps1))
  | RBol => match prev with None => k prev s caps | Some _ => None end
  | REol =>
      match s with
      | [] => k prev s caps
      | [10%N] => k prev s caps
      | _ => None
      end
  | RWordB w =>
      if xorb (is_word_opt w prev) (is_word_opt w (hd_error s))
      then k prev s caps
      else None
  end.

(** The match of [r] that starts exactly here: the remaining text and the
    groups. *)
Definition match_here (r : regex) (prev : option N) (s : pystr)
    : option (pystr * captures) :=
  rmatch r prev s [] (fun _ s1 caps => Some (s1, caps)).

(** One pass over the text, as [re.finditer] makes it: each character is
    either outside every match ([Gap]) or the first of a match ([Hit]), whose
    remaining characters are skipped.  No pattern of the source matches the
    empty text, and an empty match counts as none. *)
Inductive chunk :=
| Gap (c : N)
| Hit (text : pystr) (caps : captures).

Fixpoint scan (r : regex) (skip : nat) (prev : option N) (s : pystr) : list chunk :=
  match s with
  | [] => []
  | c :: s' =>
      match skip with
      | S k => scan r k (Some c) s'
      | O =>
          match match_here r prev s with
          | Some (s1, caps) =>
              let n := (length s - length s1)%nat in
              match n with
              | O => Gap c :: scan r 0 (Some c) s'
              | S n' => Hit (firstn n s) caps :: scan r n' (Some c) s'
              end
          | None => Gap c :: scan r 0 (Some c) s'
          end
      end
  end.

(** [re.search(r, s)]: the leftmost match. *)
Fixpoint first_hit (l : list chunk) : option (pystr * captures) :=
  match l with
  | [] => None
  | Gap _ :: l' => first_hit l'
  | Hit t caps :: _ => Some (t, caps)
  end.

Definition re_search (r : regex) (s : pystr) : option (pystr * captures) :=
  first_hit (scan r 0 None s).

(** [re.findall(r, s)] for a pattern without a group, and with one group. *)
Fixpoint hits (l : list chunk) : list (pystr * captures) :=
  match l with
  | [] => []
  | Gap _ :: l' => hits l'
  | Hit t caps :: l' => (t, caps) :: hits l'
  end.

Definition re_findall (r : regex) (s : pystr) : list pystr :=
  map fst (hits (scan r 0 None s)).

Definition group_or_empty (i : nat) (caps : captures) : pystr :=
  match group i caps with
  | Some t => t
  | None => []
  end.

Definition re_findall_group (r : regex) (s : pystr) : list pystr :=
  map (fun h => group_or_empty 1 (snd h)) (hits (scan r 0 None s)).

(** [re.sub(r, repl, s)], the replacement computed from the groups. *)
Fixpoint sub_chunks (repl : captures -> pystr) (l : list chunk) : pystr :=
  match l with
  | [] => []
  | Gap c :: l' => c :: sub_chunks repl l'
  | Hit _ caps :: l' => repl caps ++ sub_chunks repl l'
  end.

Definition re_sub (r : regex) (repl : captures -> pystr) (s : pystr) : pystr :=
  sub_chunks repl (scan r 0 None s).

(** [re.split(r, s)] for a pattern without a group. *)
Fixpoint split_chunks (cur : pystr) (l : list chunk) : list pystr :=
  match l with
  | [] => [rev cur]
  | Gap c :: l' => split_chunks (c :: cur) l'
  | Hit _ _ :: l' => rev cur :: split_chunks [] l'
  end.

Definition re_split (r : regex) (s : pystr) : list pystr :=
  split_chunks [] (scan r 0 None s).

(** Pattern builders. *)
Definition in_range (lo hi c : N) : bool := N.leb lo c && N.leb c hi.

Fixpoint rseq (l : list regex) : regex :=
  match l with
  | [] => REps
  | [r] => r
  | r :: l' => RSeq r (rseq l')
  end.

Definition rlit (s : pystr) : regex := rseq (map (fun c => RChar (N.eqb c)) s).
Definition ropt (r : regex) : regex := RAlt r REps.
Definition rplus (p : N -> bool) : regex := RRep p 1 None.
Definition rstar (p : N -> bool) : regex := RRep p 0 None.

(** A dictionary with string keys, as the list of its items in insertion
    order: [d.get(key)] and [d[key] = v]. *)
Fixpoint dict_get {V} (d : list (pystr * V)) (key : pystr) : option V :=
  match d with
  | [] => None
  | (k, v) :: d' => if str_eqb k key then Some v else dict_get d' key
  end.

Fixpoint dict_set {V} (d : list (pystr * V)) (key : pystr) (v : V) : list (pystr * V) :=
  match d with
  | [] => [(key, v)]
  | (k, v') :: d' =>
      if str_eqb k key then (k, v) :: d' else (k, v') :: dict_set d' key v
  end.

(** Code points the source names. *)
Definition cp_a_uml : N := 228.      (* U+00E4 *)
Definition cp_o_uml : N := 246.      (* U+00F6 *)
Definition cp_u_uml : N := 252.      (* U+00FC *)
Definition cp_eszett : N := 223.     (* U+00DF *)
Definition cp_A_tilde : N := 195.    (* U+00C3 *)
Definition cp_replacement : N := 65533. (* U+FFFD *)

(** ** The Python runtime and the third-party packages *)

(** A Python float: a finite one is the rational it denotes. *)
Inductive pyfloat :=
| FNum (q : Q)
| FPosInf
| FNegInf
| FNaN.

(** [x < y] and [x <= y] on floats; every comparison with NaN is false. *)
Definition float_lt (x y : pyfloat) : bool :=
  match x, y with
  | FNaN, _ | _, FNaN => false
  | _, FNegInf | FPosInf, _ => false
  | FNegInf, _ | _, FPosInf => true
  | FNum a, FNum b => negb (Qle_bool b a)
  end.

Definition float_le (x y : pyfloat) : bool :=
  match x, y with
  | FNaN, _ | _, FNaN => false
  | FNegInf, _ | _, FPosInf => true
  | _, FNegInf | FPosInf, _ => false
  | FNum a, FNum b => Qle_bool a b
  end.

(** The values of an order header and of a decoded JSON text. *)
Inductive pyval :=
| VNone
| VBool (b : bool)
| VInt (z : Z)
| VFloat (f : pyfloat)
| VStr (s : pystr)
| VList (l : list pyval)
| VDict (d : list (pystr * pyval)).

Definition pydict := list (pystr * pyval).

Class PyRuntime := {
  (** [str.lower] *)
  str_lower : pystr -> pystr;
  (** [str.isspace], used by [str.strip()] and the class [\s] *)
  is_space : N -> bool;
  (** the class [\d] *)
  is_digit : N -> bool;
  (** the class [\w], which decides [\b] *)
  is_word : N -> bool;
  (** [ci_match p c]: the pattern character [p] matches the text character
      [c] under [re.IGNORECASE] *)
  ci_match : N -> N -> bool;
  (** [int(s)] for a string of [\d] characters; [None] is [ValueError] *)
  int_of_digits : pystr -> option Z;
  (** a cell of a loaded spreadsheet *)
  Cell : Type;
  (** [str(cell)] *)
  cell_str : Cell -> pystr;
  (** [pandas.to_numeric(cell, errors="coerce")]; [None] is NaN *)
  cell_numeric : Cell -> option Q;
  (** [pandas.isna(cell)] *)
  cell_isna : Cell -> bool;
  (** [float(cell)]; [None] is an exception *)
  cell_float : Cell -> option pyfloat;
  (** the cell holds an integer (a bool is none), and it holds a float *)
  cell_is_int : Cell -> bool;
  cell_is_float : Cell -> bool;
  (** [str(float(n))] for an integer [n] of more than 15 digits, given by
      its text *)
  long_float_str : pystr -> pystr;
  (** [difflib.SequenceMatcher(None, a, b).ratio()] *)
  seq_ratio : pystr -> pystr -> Q;
  (** [dateutil.parser.parse(text, dayfirst=True, fuzzy=True).isocalendar()],
      as the pair (ISO year, ISO week); [None] is an exception *)
  parse_isocalendar : pystr -> option (Z * Z);
  (** [json.loads(text)]; [None] is [JSONDecodeError] *)
  json_loads : pystr -> option pyval;
  (** [str(v)] for a float, a list or a dictionary *)
  str_other : pyval -> pystr;
  (** [float(n)] for an integer; [None] is [OverflowError] *)
  float_of_int : Z -> option pyfloat;
  (** [float(s)] for a string; [None] is [ValueError] *)
  float_of_str : pystr -> option pyfloat
}.

(** [rapidfuzz.fuzz.token_set_ratio]; the module is [None] when the import
    fails. *)
Definition fuzz_module := option (pystr -> pystr -> Q).

(** The columns of the customer table the code reads. *)
Inductive column :=
| Kundennummer | Name1 | Name2 | Name3 | Strasse | Ort | Postleitzahl
| Adressnummer | Tour | Verband.

(** The dictionary both matchers return. *)
Record MatchResult := {
  kundennummer : pystr;
  adressnummer : pystr;
  tour : pystr
}.

(** Exceptions, and a computation that returns or raises. *)
Inductive exn :=
| KeyError (c : column)
| ValueError
| OverflowError
| AttributeError
| ExternalError.

Inductive result (A : Type) :=
| Ok (a : A)
| Raise (e : exn).
Arguments Ok {A} a.
Arguments Raise {A} e.

Section Lookup.

Context {rt : PyRuntime}.

Definition strip (s : pystr) : pystr := strip_by is_space s.

(** ** [lookup.py]: normalizers *)

Definition _fix_mojibake (s : pystr) : pystr :=
  let s := replace [cp_A_tilde; 223%N] (lit "ss") s in
  let s := replace [cp_A_tilde; 376%N] (lit "ss") s in
  let s := replace [cp_A_tilde; 188%N] (lit "ue") s in
  let s := replace [cp_A_tilde; 164%N] (lit "ae") s in
  let s := replace [cp_A_tilde; 182%N] (lit "oe") s in
  let s := replace [cp_A_tilde; 8222%N] (lit "ae") s in
  let s := replace [cp_A_tilde; 8211%N] (lit "oe") s in
  let s := replace [cp_A_tilde; 339%N] (lit "ue") s in
  if contains [cp_replacement] s
  then replace [cp_replacement] (lit "ss") s
  else s.

(** The chain [.replace("ä","ae").replace("ö","oe").replace("ü","ue").replace("ß","ss")]. *)
Definition map_umlauts (s : pystr) : pystr :=
  replace [cp_eszett] (lit "ss")
    (replace [cp_u_uml] (lit "ue")
      (replace [cp_o_uml] (lit "oe")
        (replace [cp_a_uml] (lit "ae") s))).

(** "straße", "strasse", "strase", "strabe", "str." *)
Definition w_strasze : pystr := lit "stra" ++ [cp_eszett] ++ lit "e".
Definition w_strasse : pystr := lit "strasse".
Definition w_strase : pystr := lit "strase".
Definition w_strabe : pystr := lit "strabe".
Definition w_str_dot : pystr := lit "str.".

Definition collapse_street_words (s : pystr) : pystr :=
  replace w_str_dot (lit "str")
    (replace w_strabe (lit "str")
      (replace w_strase (lit "str")
        (replace w_strasse (lit "str")
          (replace w_strasze (lit "str") s)))).

Definition remove_separators (s : pystr) : pystr :=
  replace (lit "/") [] (replace (lit "-") [] (replace (lit " ") [] s)).

Definition _normalize_address_token (s : pystr) : pystr :=
  let s := _fix_mojibake s in
  let s := str_lower s in
  let s := map_umlauts s in
  let s := collapse_street_words s in
  remove_separators s.

(** [r"\s*\(\s*(\d+)\s*\)\s*"] *)
Definition re_district_parens : regex :=
  rseq [rstar is_space; RChar (N.eqb 40); rstar is_space;
        RGroup 1 (rplus is_digit);
        rstar is_space; RChar (N.eqb 41); rstar is_space].

Definition _normalize_city (s : pystr) : pystr :=
  let s := _fix_mojibake s in
  let s := strip (str_lower s) in
  let s := map_umlauts s in
  let s := replace (lit "/") (lit " ") (replace (lit " am ") (lit " ") s) in
  let s := re_sub re_district_parens
             (fun caps => lit " " ++ group_or_empty 1 caps ++ lit " ") s in
  replace (lit "-") [] (replace (lit " ") [] s).

Definition _CITY_STOPWORDS : list pystr :=
  [lit "neu"; lit "am"; lit "bei"; lit "der"; lit "die"; lit "das"].

(** [r"[\s/,]+"] *)
Definition re_city_sep : regex :=
  rplus (fun c => is_space c || N.eqb c 47 || N.eqb c 44).

(** [r"^\(|\)$"] *)
Definition re_outer_paren : regex :=
  RAlt (RSeq RBol (RChar (N.eqb 40))) (RSeq (RChar (N.eqb 41)) REol).

(** The result is a Python set: a list without duplicates, whose order is
    not observed by the callers. *)
Definition _city_tokens (s : pystr) : list pystr :=
  match strip s with
  | [] => []
  | _ =>
      let s := _fix_mojibake s in
      let s := strip (str_lower s) in
      let s := map_umlauts s in
      let parts := re_split re_city_sep s in
      let keep (p : pystr) : list pystr :=
        let p := strip (re_sub re_outer_paren (fun _ => []) p) in
        if Nat.leb 2 (length p) && negb (str_in p _CITY_STOPWORDS)
        then [p] else [] in
      dedup (flat_map keep parts)
  end.

(** [r"[A-Z]+-\s*(\d{4,5})\b"] with [re.IGNORECASE] *)
Definition upper_A_Z : pystr := lit "ABCDEFGHIJKLMNOPQRSTUVWXYZ".

Definition re_plz_country : regex :=
  rseq [rplus (fun c => existsb (fun p => ci_match p c) upper_A_Z);
        RChar (N.eqb 45); rstar is_space;
        RGroup 1 (RRep is_digit 4 (Some 5)); RWordB is_word].

(** [r"\b(\d{4,5})\b"] *)
Definition re_plz_bare : regex :=
  rseq [RWordB is_word; RGroup 1 (RRep is_digit 4 (Some 5)); RWordB is_word].

(** [r"\D"] and [r"\d+"] *)
Definition re_non_digit : regex := RChar (fun c => negb (is_digit c)).
Definition re_digits : regex := rplus is_digit.

Definition or_str (a b : pystr) : pystr :=
  match a with
  | [] => b
  | _ => a
  end.

Definition _plz_digits_only (plz_val : pystr) : pystr :=
  match plz_val with
  | [] => []
  | _ =>
      let s := replace (lit ".0") [] (strip plz_val) in
      match re_search re_plz_country s with
      | Some (_, caps) => group_or_empty 1 caps
      | None => or_str (re_sub re_non_digit (fun _ => []) s) s
      end
  end.

Definition _city_matches (ort_db_val addr : pystr) : bool :=
  let tokens := _city_tokens ort_db_val in
  match tokens with
  | [] => false
  | _ =>
      if Nat.ltb (length ort_db_val) 3 then false
      else if forallb (fun t => contains t addr) tokens then true
      else
        let ort_norm := _normalize_city ort_db_val in
        if negb (str_eqb ort_norm []) && contains ort_norm addr then true
        else if contains (lit "wien") ort_norm then
          match re_search re_digits ort_norm with
          | Some (district, _) =>
              contains (lit "wien") addr && contains district addr
          | None => false
          end
        else false
  end.

(** [max(all_matches, key=lambda x: (len(x) == 5, len(x)))]: the first
    element whose key is largest. *)
Definition plz_key_lt (a b : pystr) : bool :=
  let ka := Nat.eqb (length a) 5 in
  let kb := Nat.eqb (length b) 5 in
  (negb ka && kb) || (Bool.eqb ka kb && Nat.ltb (length a) (length b)).

Fixpoint max_first {A} (lt : A -> A -> bool) (best : A) (l : list A) : A :=
  match l with
  | [] => best
  | x :: l' => max_first lt (if lt best x then x else best) l'
  end.

(** The postal code of an address text, as [_extract_plz_from_address] and
    the head of [find_customer_by_address] both compute it; [None] when no
    pattern matches. *)
Definition plz_of_address (address_str : pystr) : option pystr :=
  match re_search re_plz_country address_str with
  | Some (_, caps) => Some (group_or_empty 1 caps)
  | None =>
      match re_findall_group re_plz_bare address_str with
      | [] => None
      | m :: ms => Some (max_first plz_key_lt m ms)
      end
  end.

Definition _extract_plz_from_address (address_str : pystr) : pystr :=
  match address_str with
  | [] => []
  | _ =>
      match plz_of_address address_str with
      | Some p => p
      | None => []
      end
  end.

(** [r"[a-z0-9]+"] *)
Definition is_az09 (c : N) : bool := in_range 97 122 c || in_range 48 57 c.
Definition re_alnum : regex := rplus is_az09.

Definition _normalize_loose_alnum (text : pystr) : pystr :=
  let text := str_lower (_fix_mojibake text) in
  let text := map_umlauts text in
  join (lit " ") (re_findall re_alnum text).

(** [r"\b\d{1,4}[a-z]?\b"] *)
Definition re_house_number : regex :=
  rseq [RWordB is_word; RRep is_digit 1 (Some 4);
        RRep (in_range 97 122) 0 (Some 1); RWordB is_word].

Definition _extract_house_number_tokens (text : pystr) : list pystr :=
  let text := str_lower (_fix_mojibake text) in
  let text := map_umlauts text in
  dedup (re_findall re_house_number text).

Definition street_stop : list pystr :=
  [lit "blvd"; lit "str"; lit "strasse"; lit "street"; lit "ul"; lit "ulitsa";
   lit "evropa"].

Definition _street_tokens (text : pystr) : list pystr :=
  let s := str_lower (_fix_mojibake text) in
  let s := map_umlauts s in
  let toks := re_findall re_alnum s in
  filter (fun t => Nat.leb 3 (length t) && negb (str_in t street_stop)) toks.

(** [best] after the inner loop of [_token_coverage_score]. *)
Fixpoint best_similarity (rtok : pystr) (input_tokens : list pystr) (best : Q) : Q :=
  match input_tokens with
  | [] => best
  | it :: its =>
      if str_eqb rtok it then 1%Q
      else
        let sim := seq_ratio rtok it in
        best_similarity rtok its (if Qle_bool sim best then best else sim)
  end.

Definition _token_coverage_score (row_tokens input_tokens : list pystr) : Q :=
  match row_tokens, input_tokens with
  | [], _ => 0%Q
  | _, [] => 0%Q
  | _, _ =>
      let matched :=
        length (filter (fun rtok =>
                          Qle_bool (84 # 100) (best_similarity rtok input_tokens 0%Q))
                       row_tokens) in
      (Z.of_nat matched # Pos.of_nat (length row_tokens))%Q
  end.

(** [_clean_kdnr], and the local [_clean_num] of the two matchers, which has
    the same body. *)
Definition _clean_kdnr (value : pystr) : pystr :=
  let s := strip (replace (lit ".0") [] value) in
  or_str (lstrip_by (N.eqb 48) s) s.

Definition _clean_num : pystr -> pystr := _clean_kdnr.

Definition _kdnr_sort_value (value : pystr) : Z :=
  let cleaned := _clean_kdnr value in
  let digits := re_sub re_non_digit (fun _ => []) cleaned in
  match digits with
  | [] => (10 ^ 9)%Z
  | _ =>
      match int_of_digits digits with
      | Some n => n
      | None => (10 ^ 9)%Z
      end
  end.

(** ** The customer table *)

Definition row := column -> Cell.

(** A data frame: which of the columns it has, and its rows in order.  The
    cell of a row under a column the frame lacks is never read. *)
Record DataFrame := {
  has_column : column -> bool;
  rows : list row
}.

Definition with_rows (df : DataFrame) (rs : list row) : DataFrame :=
  {| has_column := has_column df; rows := rs |}.

(** [str(row.get(c, ""))] *)
Definition get_str (df : DataFrame) (r : row) (c : column) : pystr :=
  if has_column df c then cell_str (r c) else [].

(** [df[c].astype(str).str.replace(".0", "", regex=False).str.strip()], per
    row. *)
Definition clean_cell (r : row) (c : column) : pystr :=
  strip (replace (lit ".0") [] (cell_str (r c))).

Definition VERBAND_FILTER : list Q := [27750%Q; 29000%Q; 30000%Q].

Definition verband_ok (r : row) : bool :=
  match cell_numeric (r Verband) with
  | Some v => existsb (Qeq_bool v) VERBAND_FILTER
  | None => false
  end.

Definition _filter_by_verband (df : option DataFrame) : option DataFrame :=
  match df with
  | None => None
  | Some df =>
      if has_column df Verband
      then Some (with_rows df (filter verband_ok (rows df)))
      else None
  end.

Definition MOMAX_BG_ALLOWED_KUNDENNUMMERN : list pystr :=
  [lit "68935"; lit "68936"; lit "68937"; lit "68938"; lit "68939"; lit "68941"].

Definition adressnummer_is_zero (r : row) : bool :=
  str_eqb (clean_cell r Adressnummer) (lit "0").

(** Street containment of both matchers: the table's street is in the
    address, or it starts with "am" and the rest is. *)
Definition street_contained (strasse_clean addr_clean : pystr) : bool :=
  contains strasse_clean addr_clean
  || (startswith (lit "am") strasse_clean
      && Nat.ltb 2 (length strasse_clean)
      && contains (slice_from 2 strasse_clean) addr_clean).

Definition sets_meet (a b : list pystr) : bool :=
  existsb (fun x => str_in x b) a.

(** ** [find_momax_bg_customer_by_address] *)

Record candidate := {
  cand_row : row;
  cand_strict : bool;
  cand_plz_exact : bool;
  cand_house_match : bool;
  cand_fuzzy_score : Q;
  cand_kdnr_sort : Z
}.

(** The sort key [(0 if strict else 1, 0 if plz_exact else 1,
    0 if house_match else 1, -fuzzy_score, kdnr_sort)], compared as Python
    compares tuples. *)
Definition flag_rank (b : bool) : Z := if b then 0%Z else 1%Z.

Definition lex (c1 c2 : comparison) : comparison :=
  match c1 with
  | Eq => c2
  | _ => c1
  end.

Definition key_compare (a b : candidate) : comparison :=
  lex (Z.compare (flag_rank (cand_strict a)) (flag_rank (cand_strict b)))
   (lex (Z.compare (flag_rank (cand_plz_exact a)) (flag_rank (cand_plz_exact b)))
    (lex (Z.compare (flag_rank (cand_house_match a)) (flag_rank (cand_house_match b)))
     (lex (Qcompare (- cand_fuzzy_score a) (- cand_fuzzy_score b))
          (Z.compare (cand_kdnr_sort a) (cand_kdnr_sort b))))).

Definition key_le (a b : candidate) : bool :=
  match key_compare a b with
  | Gt => false
  | _ => true
  end.

(** [list.sort(key=...)] is stable: an element stays before the later
    elements of equal key. *)
Fixpoint insert_sorted (x : candidate) (l : list candidate) : list candidate :=
  match l with
  | [] => [x]
  | y :: l' => if key_le x y then x :: l else y :: insert_sorted x l'
  end.

Definition sort_candidates (l : list candidate) : list candidate :=
  fold_right insert_sorted [] l.

Section MomaxRow.

Variable fuzz : fuzz_module.
Variable df : DataFrame.
(** The stripped address. *)
Variable address_str : pystr.

Definition momax_addr_clean := _normalize_address_token address_str.
Definition momax_input_plz := _extract_plz_from_address address_str.
Definition momax_input_street_loose := _normalize_loose_alnum address_str.
Definition momax_input_house_tokens := _extract_house_number_tokens address_str.

Definition momax_street_matches (r : row) : bool :=
  street_contained (_normalize_address_token (get_str df r Strasse)) momax_addr_clean.

Definition momax_fuzzy_score (r : row) : Q :=
  let row_street_loose := _normalize_loose_alnum (get_str df r Strasse) in
  match fuzz, momax_input_street_loose, row_street_loose with
  | Some token_set_ratio, _ :: _, _ :: _ =>
      token_set_ratio momax_input_street_loose row_street_loose
  | _, _, _ => 0%Q
  end.

Definition momax_row_house_tokens (r : row) : list pystr :=
  _extract_house_number_tokens (get_str df r Strasse).

Definition momax_house_match (r : row) : bool :=
  match momax_row_house_tokens r, momax_input_house_tokens with
  | _ :: _, _ :: _ => sets_meet (momax_row_house_tokens r) momax_input_house_tokens
  | _, _ => false
  end.

Definition momax_token_coverage (r : row) : Q :=
  _token_coverage_score (_street_tokens (get_str df r Strasse))
                        (_street_tokens address_str).

Definition momax_fuzzy_accept (r : row) : bool :=
  negb (momax_street_matches r)
  && match fuzz with Some _ => true | None => false end
  && (Qle_bool 78 (momax_fuzzy_score r)
      || (momax_house_match r && Qle_bool 70 (momax_fuzzy_score r))).

Definition momax_token_accept (r : row) : bool :=
  negb (momax_street_matches r)
  && Qle_bool (75 # 100) (momax_token_coverage r)
  && (momax_house_match r
      || match momax_row_house_tokens r with [] => true | _ => false end).

(** One turn of the loop over the allowlisted rows: the candidate the row
    contributes, if any. *)
Definition momax_candidate (r : row) : option candidate :=
  let strasse_db := get_str df r Strasse in
  let ort_db := get_str df r Ort in
  if Nat.ltb (length strasse_db) 3 || Nat.ltb (length ort_db) 3 then None
  else
    let ort_clean := _normalize_city ort_db in
    let city_match :=
      negb (str_eqb ort_clean [])
      && (contains ort_clean momax_addr_clean || _city_matches ort_db momax_addr_clean) in
    if negb city_match then None
    else if negb (momax_street_matches r) && negb (momax_fuzzy_accept r)
            && negb (momax_token_accept r) then None
    else
      let plz_db :=
        _plz_digits_only (strip (replace (lit ".0") [] (get_str df r Postleitzahl))) in
      let plz_exact :=
        negb (str_eqb momax_input_plz []) && str_eqb plz_db momax_input_plz in
      let rank_score :=
        match fuzz with
        | Some _ => momax_fuzzy_score r
        | None => (momax_token_coverage r * 100)%Q
        end in
      Some {| cand_row := r;
              cand_strict := momax_street_matches r;
              cand_plz_exact := plz_exact;
              cand_house_match := momax_house_match r;
              cand_fuzzy_score := rank_score;
              cand_kdnr_sort := _kdnr_sort_value (get_str df r Kundennummer) |}.

Definition momax_candidates (rs : list row) : list candidate :=
  flat_map (fun r => match momax_candidate r with
                     | Some c => [c]
                     | None => []
                     end) rs.

End MomaxRow.

Definition momax_allowed (r : row) : bool :=
  str_in (_clean_kdnr (clean_cell r Kundennummer))
         (map _clean_kdnr MOMAX_BG_ALLOWED_KUNDENNUMMERN).

(** The rows the matcher chooses among: [Adressnummer] 0, an eligible
    [Verband], a customer number of the allowlist.  [None] stands for the
    early [return None] of the column checks. *)
Definition momax_subset (df : DataFrame) : option (list row) :=
  if negb (has_column df Adressnummer) || negb (has_column df Kundennummer) then None
  else
    match _filter_by_verband (Some (with_rows df (filter adressnummer_is_zero (rows df)))) with
    | None => None
    | Some subset => Some (filter momax_allowed (rows subset))
    end.

Definition find_momax_bg_customer_by_address (fuzz : fuzz_module)
    (df : option DataFrame) (address_str : pystr) : option MatchResult :=
  match df with
  | None => None
  | Some df =>
      match strip address_str with
      | [] => None
      | _ =>
          match momax_subset df with
          | None => None
          | Some subset =>
              let address_str := strip address_str in
              match sort_candidates (momax_candidates fuzz df address_str subset) with
              | [] => None
              | best :: _ =>
                  let best_match := cand_row best in
                  Some {| kundennummer := strip (replace (lit ".0") [] (get_str df best_match Kundennummer));
                          adressnummer := strip (replace (lit ".0") [] (get_str df best_match Adressnummer));
                          tour := strip (get_str df best_match Tour) |}
              end
          end
      end
  end.

(** ** [find_customer_by_address] *)

(** Truth value of an [Optional[str]] argument, and [x or ""]. *)
Definition truthy (o : option pystr) : bool :=
  match o with
  | Some (_ :: _) => true
  | _ => false
  end.

Definition or_empty (o : option pystr) : pystr :=
  match o with
  | Some s => s
  | None => []
  end.

Definition _match_by_kundennummer_fallback (df : DataFrame) (kdnr : pystr)
    : option MatchResult :=
  match kdnr with
  | [] => None
  | _ =>
      let kdnr_clean := _clean_num kdnr in
      if negb (has_column df Kundennummer) then None
      else
        let mask (r : row) :=
          str_eqb (_clean_num (clean_cell r Kundennummer)) kdnr_clean in
        match _filter_by_verband (Some (with_rows df (filter mask (rows df)))) with
        | None => None
        | Some kdn_subset =>
            match rows kdn_subset with
            | [] => None
            | first :: _ =>
                let best :=
                  if has_column kdn_subset Adressnummer then
                    match filter adressnummer_is_zero (rows kdn_subset) with
                    | zero :: _ => zero
                    | [] => first
                    end
                  else first in
                Some {| kundennummer := replace (lit ".0") [] (get_str df best Kundennummer);
                        adressnummer := replace (lit ".0") [] (get_str df best Adressnummer);
                        tour := get_str df best Tour |}
            end
        end
  end.

(** [_match_by_kundennummer_fallback(kundennummer) if kundennummer else None] *)
Definition hint_fallback (df : DataFrame) (kundennummer : option pystr)
    : option MatchResult :=
  match kundennummer with
  | Some (c :: k) => _match_by_kundennummer_fallback df (c :: k)
  | _ => None
  end.

Definition row_plz (df : DataFrame) (r : row) : pystr :=
  _plz_digits_only (strip (replace (lit ".0") [] (get_str df r Postleitzahl))).

Definition plz_equal (plz : option pystr) (r : row) : bool :=
  str_eqb (_plz_digits_only (strip (replace (lit ".0") [] (cell_str (r Postleitzahl)))))
          (or_empty plz).

(** The optional postal-code pre-filter of the subset. *)
Definition plz_prefilter (df : DataFrame) (plz : option pystr) (subset : list row)
    : list row :=
  if truthy plz && has_column df Postleitzahl then
    match filter (plz_equal plz) subset with
    | [] => subset
    | subset_plz => subset_plz
    end
  else subset.

Definition long_enough (df : DataFrame) (r : row) : bool :=
  negb (Nat.ltb (length (get_str df r Strasse)) 3
        || Nat.ltb (length (get_str df r Ort)) 3).

(** The strict pass: street and city both contained in the address. *)
Definition strict_match (df : DataFrame) (addr_clean : pystr) (r : row) : bool :=
  let strasse_db := get_str df r Strasse in
  let ort_db := get_str df r Ort in
  long_enough df r
  && street_contained (_normalize_address_token strasse_db) addr_clean
  && (contains (_normalize_city ort_db) addr_clean || _city_matches ort_db addr_clean).

Definition strict_candidates (df : DataFrame) (addr_clean : pystr)
    (subset : list row) : list row :=
  filter (strict_match df addr_clean) subset.

(** The fuzzy fallback: token-set score, plus 20 for an equal postal code,
    against the threshold 70 (postal code in the input) or 85. *)
Definition fuzzy_match (token_set_ratio : pystr -> pystr -> Q) (df : DataFrame)
    (addr_clean : pystr) (plz : option pystr) (r : row) : bool :=
  let input_str := addr_clean ++ (if truthy plz then lit " " ++ or_empty plz else []) in
  let threshold := if truthy plz then 70%Q else 85%Q in
  let plz_db := row_plz df r in
  let row_str :=
    _normalize_address_token (get_str df r Strasse) ++ lit " "
    ++ _normalize_city (get_str df r Ort)
    ++ (match plz_db with [] => [] | _ => lit " " ++ plz_db end) in
  let score := token_set_ratio input_str row_str in
  let score :=
    if truthy plz && str_eqb plz_db (or_empty plz) then (score + 20)%Q else score in
  long_enough df r && Qle_bool threshold score.

Definition fuzzy_candidates (token_set_ratio : pystr -> pystr -> Q) (df : DataFrame)
    (addr_clean : pystr) (plz : option pystr) (subset : list row) : list row :=
  filter (fuzzy_match token_set_ratio df addr_clean plz) subset.

(** [candidates] when the two loops are done. *)
Definition address_candidates (fuzz : fuzz_module) (df : DataFrame)
    (addr_clean : pystr) (plz : option pystr) (subset : list row) : list row :=
  match strict_candidates df addr_clean subset, fuzz with
  | [], Some token_set_ratio => fuzzy_candidates token_set_ratio df addr_clean plz subset
  | strict, _ => strict
  end.

(** [cand_df = pd.DataFrame(candidates)] builds a new frame from the
    candidate rows, and pandas infers the dtype of each column again from
    them: a column in which every candidate holds an integer or a float, and
    one of them a float, becomes a float column, in which the integers are
    floats.  Everything after the candidate loops reads [cand_df]; [frame]
    is the list of rows it was built from. *)
Definition float_column (frame : list row) (c : column) : bool :=
  forallb (fun r => cell_is_int (r c) || cell_is_float (r c)) frame
  && existsb (fun r => cell_is_float (r c)) frame.

(** [str(float(n))] for the integer [n] whose text is [s].  A float holds an
    integer written with up to 15 characters exactly and prints it as the
    integer followed by ".0"; the text of a longer one is the runtime's.
    The length is that of the text without ".0" and without white space
    around it, neither of which the text of an integer has. *)
Definition float_text (s : pystr) : pystr :=
  if Nat.leb (length (strip (replace (lit ".0") [] s))) 15
  then s ++ lit ".0"
  else long_float_str s.

(** [str(v)] for the value [v] the row [r] has under [c] in [cand_df] *)
Definition frame_cell_str (frame : list row) (r : row) (c : column) : pystr :=
  if float_column frame c && cell_is_int (r c)
  then float_text (cell_str (r c))
  else cell_str (r c).

(** [str(row.get(c, ""))] for a row of [cand_df] *)
Definition frame_get_str (df : DataFrame) (frame : list row) (r : row) (c : column)
    : pystr :=
  if has_column df c then frame_cell_str frame r c else [].

Definition frame_row_plz (df : DataFrame) (frame : list row) (r : row) : pystr :=
  _plz_digits_only (strip (replace (lit ".0") [] (frame_get_str df frame r Postleitzahl))).

Definition frame_plz_equal (frame : list row) (plz : option pystr) (r : row) : bool :=
  str_eqb (_plz_digits_only
             (strip (replace (lit ".0") [] (frame_cell_str frame r Postleitzahl))))
          (or_empty plz).

(** [cand_df[scores == best]] when the best score is positive, else the
    candidates as they are. *)
Definition narrow_by_score (score : row -> nat) (rs : list row) : list row :=
  let best := list_max (map score rs) in
  if Nat.ltb 0 best then filter (fun r => Nat.eqb (score r) best) rs else rs.

Definition more_than_one {A} (l : list A) : bool := Nat.ltb 1 (length l).

(** Step 2a: the company of the ILN row. *)
Definition _company_tokens (t : pystr) : list pystr :=
  filter (fun x => negb (str_in x [lit "gmbh"; lit "co"; lit "kg"; lit "und"]))
         (dedup (re_findall re_alnum (_normalize_address_token t))).

Definition score_company (df : DataFrame) (frame : list row) (iln_tokens : list pystr)
    (r : row) : nat :=
  let cand_tokens :=
    dedup (_company_tokens (frame_get_str df frame r Name1)
           ++ _company_tokens (frame_get_str df frame r Name2)) in
  let overlap := length (filter (fun t => str_in t cand_tokens) iln_tokens) in
  if Nat.ltb 0 overlap
  then overlap * 10
       + length (filter (fun t => existsb (contains t) cand_tokens) iln_tokens)
  else 0.

Definition company_step (df : DataFrame) (frame : list row) (iln_company : option pystr)
    (cands : list row) : list row :=
  if truthy iln_company && more_than_one cands then
    match _company_tokens (or_empty iln_company) with
    | [] => cands
    | iln_tokens => narrow_by_score (score_company df frame iln_tokens) cands
    end
  else cands.

(** [r"[^a-z0-9äöüß]+"] *)
Definition re_name_sep : regex :=
  rplus (fun c => negb (is_az09 c || N.eqb c cp_a_uml || N.eqb c cp_o_uml
                        || N.eqb c cp_u_uml || N.eqb c cp_eszett)).

(** [_get_tokens] of step 2a-bis and [get_tokens] of step 2b. *)
Definition get_tokens (t : pystr) : list pystr :=
  filter (fun p => Nat.leb 3 (length p)
                   && negb (str_in p [lit "gmbh"; lit "co"; lit "kg"; lit "und";
                                      lit "der"; lit "die"; lit "das"]))
         (re_split re_name_sep (str_lower t)).

(** [score_filiale] and [score_hint]: the summed length of the distinct name
    tokens that are a hint token or, from four characters on, the end of
    one. *)
Definition score_tokens (df : DataFrame) (frame : list row) (hint_tokens : list pystr)
    (r : row) : nat :=
  let tokens := get_tokens (frame_get_str df frame r Name1)
                ++ get_tokens (frame_get_str df frame r Name2) in
  let hit (t : pystr) :=
    negb (str_eqb t [])
    && (str_in t hint_tokens
        || (Nat.leb 4 (length t) && existsb (endswith t) hint_tokens)) in
  list_sum (map (@length N) (dedup (filter hit tokens))).

Definition filiale_step (df : DataFrame) (frame : list row)
    (iln_filiale_hint : option pystr) (cands : list row) : list row :=
  if truthy iln_filiale_hint
     && negb (str_eqb (strip (or_empty iln_filiale_hint)) [])
     && more_than_one cands then
    match dedup (get_tokens (strip (or_empty iln_filiale_hint))) with
    | [] => cands
    | filiale_tokens => narrow_by_score (score_tokens df frame filiale_tokens) cands
    end
  else cands.

Definition hint_step (df : DataFrame) (frame : list row) (client_hint : pystr)
    (kom_name : option pystr) (cands : list row) : list row :=
  let hint_text := strip (join (lit " ") [client_hint; or_empty kom_name]) in
  match hint_text with
  | [] => cands
  | _ =>
      let hint_tokens := dedup (get_tokens (str_lower hint_text)) in
      narrow_by_score (score_tokens df frame hint_tokens) cands
  end.

(** Step 3 *)
Definition has_joop (df : DataFrame) (frame : list row) (r : row) : bool :=
  let n1 := str_lower (frame_get_str df frame r Name1) in
  let n2 := str_lower (frame_get_str df frame r Name2) in
  contains (lit "-jo-") n1 || contains (lit "-jo-") n2
  || endswith (lit "-jo") n1 || endswith (lit "-jo") n2.

Definition prefer (rs preferred : list row) : list row :=
  match preferred with
  | [] => rs
  | _ => preferred
  end.

Definition joop_step (df : DataFrame) (frame : list row) (is_joop : bool)
    (cands : list row) : list row :=
  if is_joop
  then prefer cands (filter (has_joop df frame) cands)
  else prefer cands (filter (fun r => negb (has_joop df frame r)) cands).

(** Step 3.5; [final_candidates["Name2"]] raises when the column is
    missing. *)
Definition einrichtungshaus_step (df : DataFrame) (frame : list row)
    (cands : list row) : result (list row) :=
  if more_than_one cands then
    if has_column df Name2 then
      Ok (prefer cands
            (filter (fun r => contains (lit "einrichtungshaus")
                                       (str_lower (frame_cell_str frame r Name2)))
                    cands))
    else Raise (KeyError Name2)
  else Ok cands.

(** The re-ranking by postal code that precedes the cascade. *)
Definition plz_step (df : DataFrame) (frame : list row) (plz : option pystr)
    (cands : list row) : result (list row) :=
  match cands with
  | [] => Ok cands
  | _ =>
      if truthy plz then
        if has_column df Postleitzahl
        then Ok (prefer cands (filter (frame_plz_equal frame plz) cands))
        else Raise (KeyError Postleitzahl)
      else Ok cands
  end.

(** Steps 2a to 3.5 in order. *)
Definition tie_break_cascade (df : DataFrame) (frame : list row)
    (iln_company iln_filiale_hint : option pystr)
    (client_hint : pystr) (kom_name : option pystr) (is_joop : bool)
    (cands : list row) : result (list row) :=
  einrichtungshaus_step df frame
    (joop_step df frame is_joop
       (hint_step df frame client_hint kom_name
          (filiale_step df frame iln_filiale_hint
             (company_step df frame iln_company cands)))).

Definition plz_warning (plz plz_match : pystr) : pystr :=
  lit "Customer match is not 100% identical: Postleitzahl differs (input: "
  ++ plz ++ lit ", Excel: " ++ plz_match ++ lit "). Please verify.".

(** Step 4: the first remaining candidate, rejected unless its
    [Adressnummer] is 0.  The warning is appended before the result is
    built, so it stays appended when building the result raises.  The
    fields are read from [cand_df], as the checks are. *)
Definition final_selection (df : DataFrame) (frame : list row) (plz : option pystr)
    (warnings : option (list pystr)) (final_candidates : list row)
    : result (option MatchResult) * option (list pystr) :=
  match final_candidates with
  | [] => (Ok None, warnings)
  | best_match :: _ =>
      let adr_match :=
        strip (replace (lit ".0") [] (frame_get_str df frame best_match Adressnummer)) in
      if negb (str_eqb adr_match (lit "0")) then (Ok None, warnings)
      else
        let warnings' :=
          match warnings with
          | Some ws =>
              if truthy plz
                 && negb (str_eqb (frame_row_plz df frame best_match) (or_empty plz))
              then Some (ws ++ [plz_warning (or_empty plz)
                                            (frame_row_plz df frame best_match)])
              else warnings
          | None => None
          end in
        if negb (has_column df Kundennummer) then (Raise (KeyError Kundennummer), warnings')
        else if negb (has_column df Adressnummer) then (Raise (KeyError Adressnummer), warnings')
        else if negb (has_column df Tour) then (Raise (KeyError Tour), warnings')
        else
          (Ok (Some {| kundennummer :=
                         replace (lit ".0") [] (frame_cell_str frame best_match Kundennummer);
                       adressnummer :=
                         replace (lit ".0") [] (frame_cell_str frame best_match Adressnummer);
                       tour := frame_cell_str frame best_match Tour |}),
           warnings')
  end.

(** Everything after the candidate loops, for a non-empty candidate list,
    of which [cand_df] is built. *)
Definition select_match (df : DataFrame) (plz : option pystr)
    (iln_company iln_filiale_hint : option pystr) (client_hint : pystr)
    (kom_name : option pystr) (is_joop : bool) (warnings : option (list pystr))
    (cands : list row) : result (option MatchResult) * option (list pystr) :=
  match plz_step df cands plz cands with
  | Raise e => (Raise e, warnings)
  | Ok cand_df =>
      match tie_break_cascade df cands iln_company iln_filiale_hint client_hint
                              kom_name is_joop cand_df with
      | Raise e => (Raise e, warnings)
      | Ok final_candidates =>
          final_selection df cands plz warnings final_candidates
      end
  end.

(** The subset the candidate loops run over: [Adressnummer] 0, eligible
    [Verband], narrowed by postal code. *)
Definition address_subset (df : DataFrame) (plz : option pystr)
    : result (option (list row)) :=
  if negb (has_column df Adressnummer) then Raise (KeyError Adressnummer)
  else
    match _filter_by_verband (Some (with_rows df (filter adressnummer_is_zero (rows df)))) with
    | None => Ok None
    | Some subset => Ok (Some (plz_prefilter df plz (rows subset)))
    end.

Definition address_clean (address_str : pystr) (iln_company : option pystr) : pystr :=
  _normalize_address_token address_str
  ++ (if truthy iln_company then _normalize_address_token (or_empty iln_company) else []).

Definition find_customer_by_address (fuzz : fuzz_module) (df : option DataFrame)
    (address_str : pystr) (kundennummer kom_name : option pystr) (is_joop : bool)
    (client_hint : pystr) (iln_company iln_filiale_hint : option pystr)
    (warnings : option (list pystr))
    : result (option MatchResult) * option (list pystr) :=
  match df with
  | None => (Ok None, warnings)
  | Some df =>
      match strip address_str with
      | [] => (Ok (hint_fallback df kundennummer), warnings)
      | address_str =>
          let addr_clean := address_clean address_str iln_company in
          let plz := plz_of_address address_str in
          match address_subset df plz with
          | Raise e => (Raise e, warnings)
          | Ok None => (Ok None, warnings)
          | Ok (Some subset) =>
              match address_candidates fuzz df addr_clean plz subset with
              | [] => (Ok (hint_fallback df kundennummer), warnings)
              | candidates =>
                  select_match df plz iln_company iln_filiale_hint client_hint
                               kom_name is_joop warnings candidates
              end
          end
      end
  end.

(** ** [find_kundennummer_by_iln] *)

(** The candidate customer number derived from the identifier: its last five
    digits, or all of them when there are four; [None] when there are fewer
    than four. *)
Definition iln_candidate (iln_value : pystr) : option pystr :=
  match iln_value with
  | [] => None
  | _ =>
      let iln_clean := replace (lit ".0") [] (strip iln_value) in
      match iln_clean with
      | [] => None
      | _ =>
          let digits := re_sub re_non_digit (fun _ => []) iln_clean in
          if Nat.ltb (length digits) 4 then None
          else Some (if Nat.leb 5 (length digits) then slice_last 5 digits else digits)
      end
  end.

Definition find_kundennummer_by_iln (df_primex : option DataFrame) (iln_value : pystr)
    : option pystr :=
  match df_primex with
  | None => None
  | Some df =>
      match iln_candidate iln_value with
      | None => None
      | Some candidate =>
          let candidate_stripped := or_str (lstrip_by (N.eqb 48) candidate) candidate in
          match candidate_stripped with
          | [] => None
          | _ =>
              if negb (has_column df Kundennummer) then None
              else
                let mask (r : row) :=
                  str_eqb (_clean_num (clean_cell r Kundennummer)) (_clean_num candidate) in
                match _filter_by_verband (Some (with_rows df (filter mask (rows df)))) with
                | None => None
                | Some subset =>
                    match rows subset with
                    | [] => None
                    | first :: _ =>
                        match strip (replace (lit ".0") [] (get_str df first Kundennummer)) with
                        | [] => None
                        | kdnr => Some kdnr
                        end
                    end
                end
          end
      end
  end.

End Lookup.

(** ** [delivery_logic.py] *)

Section Delivery.

Context {rt : PyRuntime}.

(** What [_load_schedule] caches: the matrix of earliest weeks (right table),
    the run calendar (left table), both indexed by week, and the two
    dictionaries built from the header block.  Column labels are the header
    texts. *)
Record ScheduleTables := {
  matrix_columns : list pystr;
  matrix_rows : list (Z * (pystr -> Cell));
  run_columns : list pystr;
  run_rows : list (Z * (pystr -> Cell));
  tour_map : list (pystr * pystr);
  tour_code_map : list (pystr * pystr)
}.

(** [schedule.at[week, col]]; [None] when it raises or does not give one
    cell (unknown label, or a week that is absent or repeated). *)
Definition matrix_at (t : ScheduleTables) (week : Z) (col : pystr) : option Cell :=
  if str_in col (matrix_columns t) then
    match filter (fun r => Z.eqb (fst r) week) (matrix_rows t) with
    | [r] => Some (snd r col)
    | _ => None
    end
  else None.

(** The week patterns of [_extract_week_year], all with [re.IGNORECASE]. *)
Definition rlit_ci (s : pystr) : regex := rseq (map (fun p => RChar (ci_match p)) s).
Definition re_kw : regex := RAlt (rlit_ci (lit "KW")) (rlit_ci (lit "Woche")).
Definition re_week_digits : regex :=
  RSeq (RRep (in_range 48 53) 0 (Some 1)) (RChar is_digit).
Definition re_year : regex := RRep is_digit 4 (Some 4).
Definition is_week_sep (c : N) : bool := N.eqb c 47 || N.eqb c 46 || N.eqb c 45.

(** [r"(?:KW|Woche)\s*([0-5]?\d)\s*[/.-]?\s*(\d{4})"] *)
Definition re_week_year_1 : regex :=
  rseq [re_kw; rstar is_space; RGroup 1 re_week_digits; rstar is_space;
        RRep is_week_sep 0 (Some 1); rstar is_space; RGroup 2 re_year].

(** [r"([0-5]?\d)\s*\.?\s*(?:KW|Woche)\s*[/.-]?\s*(\d{4})"] *)
Definition re_week_year_2 : regex :=
  rseq [RGroup 1 re_week_digits; rstar is_space; RRep (N.eqb 46) 0 (Some 1);
        rstar is_space; re_kw; rstar is_space; RRep is_week_sep 0 (Some 1);
        rstar is_space; RGroup 2 re_year].

(** The third pattern: optionally "KW" and white space, then the week
    [([0-5]?\d)], white space, [(?:/|KW)], white space and the year [(\d{4})]. *)
Definition re_week_year_3 : regex :=
  rseq [ropt (RSeq (rlit_ci (lit "KW")) (rstar is_space)); RGroup 1 re_week_digits;
        rstar is_space; RAlt (RChar (N.eqb 47)) (rlit_ci (lit "KW"));
        rstar is_space; RGroup 2 re_year].

(** [r"(?:KW|Woche)\s*([0-5]?\d)\b"] and [r"\b([0-5]?\d)\s*(?:KW|Woche)\b"] *)
Definition re_week_only_1 : regex :=
  rseq [re_kw; rstar is_space; RGroup 1 re_week_digits; RWordB is_word].
Definition re_week_only_2 : regex :=
  rseq [RWordB is_word; RGroup 1 re_week_digits; rstar is_space; re_kw;
        RWordB is_word].

Definition valid_week (week : Z) : bool := Z.leb 1 week && Z.leb week 53.

(** [int(match.group(i))] *)
Definition int_group (i : nat) (caps : captures) : result Z :=
  match int_of_digits (group_or_empty i caps) with
  | Some n => Ok n
  | None => Raise ValueError
  end.

(** The first loop: patterns with a year.  A pattern that matches with a
    week outside 1..53 hands over to the next pattern. *)
Fixpoint week_year_loop (patterns : list regex) (text : pystr)
    : result (option (Z * Z)) :=
  match patterns with
  | [] => Ok None
  | pattern :: rest =>
      match re_search pattern text with
      | Some (_, caps) =>
          match int_group 1 caps with
          | Raise e => Raise e
          | Ok week =>
              match int_group 2 caps with
              | Raise e => Raise e
              | Ok year =>
                  if valid_week week then Ok (Some (week, year))
                  else week_year_loop rest text
              end
          end
      | None => week_year_loop rest text
      end
  end.

(** The second loop: patterns without a year. *)
Fixpoint week_only_loop (patterns : list regex) (text : pystr) (default_year : Z)
    : result (option (Z * Z)) :=
  match patterns with
  | [] => Ok None
  | pattern :: rest =>
      match re_search pattern text with
      | Some (_, caps) =>
          match int_group 1 caps with
          | Raise e => Raise e
          | Ok week =>
              if valid_week week then Ok (Some (week, default_year))
              else week_only_loop rest text default_year
          end
      | None => week_only_loop rest text default_year
      end
  end.

(** The pair is (week, year), as the source returns it. *)
Definition _extract_week_year (text : pystr) (default_year : option Z)
    : result (option (Z * Z)) :=
  match text with
  | [] => Ok None
  | _ =>
      match week_year_loop [re_week_year_1; re_week_year_2; re_week_year_3] text with
      | Raise e => Raise e
      | Ok (Some wy) => Ok (Some wy)
      | Ok None =>
          let by_date :=
            match parse_isocalendar text with
            | Some (y, w) => Ok (Some (w, y))
            | None => Ok None
            end in
          match default_year with
          | Some dy =>
              if Z.eqb dy 0 then by_date
              else
                match week_only_loop [re_week_only_1; re_week_only_2] text dy with
                | Raise e => Raise e
                | Ok (Some wy) => Ok (Some wy)
                | Ok None => by_date
                end
          | None => by_date
          end
      end
  end.

Definition _get_schedule_code_for_tour (t : ScheduleTables) (tour : pystr)
    : option pystr :=
  let tour_clean := strip tour in
  match dict_get (tour_code_map t) tour_clean with
  | Some code => Some code
  | None => if str_in tour_clean (run_columns t) then Some tour_clean else None
  end.

(** [sorted(set(weeks))] *)
Fixpoint insert_week (w : Z) (l : list Z) : list Z :=
  match l with
  | [] => [w]
  | x :: l' =>
      if Z.ltb w x then w :: l
      else if Z.eqb w x then l
      else x :: insert_week w l'
  end.

Definition sorted_set (l : list Z) : list Z := fold_right insert_week [] l.

(** A cell of the run calendar says "runs": it is not missing and its float
    value is not [<= 0]. *)
Definition tour_runs (val : Cell) : bool :=
  if cell_isna val then false
  else
    match cell_float val with
    | Some f => negb (float_le f (FNum 0))
    | None => false
    end.

Definition _get_valid_tour_weeks (t : ScheduleTables) (schedule_col : pystr)
    : list Z :=
  if str_in schedule_col (run_columns t) then
    sorted_set (map fst (filter (fun r => tour_runs (snd r schedule_col)) (run_rows t)))
  else [].

(** [int(x)] of a float truncates; it raises on NaN and the infinities. *)
Definition int_of_float (f : pyfloat) : option Z :=
  match f with
  | FNum q => Some (Z.quot (Qnum q) (Zpos (Qden q)))
  | _ => None
  end.

(** Step 2: the matrix column of the tour. *)
Definition strip_numeric_suffix (col : pystr) : pystr :=
  re_sub (rseq [RChar (N.eqb 46); rplus is_digit; REol]) (fun _ => []) col.

Definition resolve_tour_column (t : ScheduleTables) (tour_clean : pystr)
    : option pystr :=
  let nonempty (o : option pystr) :=
    match o with Some (_ :: _) => o | _ => None end in
  let by_map :=
    match tour_map t with
    | [] => None
    | _ => nonempty (dict_get (tour_map t) tour_clean)
    end in
  let by_label :=
    match by_map with
    | Some _ => by_map
    | None => if str_in tour_clean (matrix_columns t)
              then nonempty (Some tour_clean) else None
    end in
  match by_label with
  | Some _ => by_label
  | None =>
      nonempty (find (fun col => str_eqb (strip_numeric_suffix col) tour_clean)
                     (matrix_columns t))
  end.

(** Step 3: the cell of the order's week. *)
Definition earliest_possible_week (t : ScheduleTables) (w_order : Z)
    (target_col : pystr) : option Z :=
  match matrix_at t w_order target_col with
  | Some val =>
      if cell_isna val then None
      else
        match cell_float val with
        | Some f => int_of_float f
        | None => None
        end
  | None => None
  end.

(** [min(candidate_weeks)] *)
Fixpoint min_week (w : Z) (l : list Z) : Z :=
  match l with
  | [] => w
  | x :: l' => min_week (Z.min w x) l'
  end.

(** The window, the candidate weeks and their minimum. *)
Definition candidate_weeks (valid_weeks : list Z) (min_allowed : Z)
    (max_allowed : option Z) : list Z :=
  match max_allowed with
  | Some max_allowed =>
      match filter (fun w => Z.leb min_allowed w && Z.leb w max_allowed) valid_weeks with
      | [] => filter (fun w => Z.ltb max_allowed w) valid_weeks
      | in_window => in_window
      end
  | None => filter (fun w => Z.leb min_allowed w) valid_weeks
  end.

Definition choose_week (valid_weeks : list Z) (earliest_possible : Z)
    (req : option (Z * Z)) : option Z :=
  let min_allowed :=
    match req with
    | Some (req_w, _) => Z.max earliest_possible (req_w - 5)
    | None => earliest_possible
    end in
  let max_allowed := option_map (fun r => (fst r + 1)%Z) req in
  match candidate_weeks valid_weeks min_allowed max_allowed with
  | [] => None
  | w :: ws => Some (min_week w ws)
  end.

(** [f"{final_y} Week - {final_w:02d}"] *)
Definition format_02d (w : Z) : pystr :=
  if (Z.leb 0 w && Z.ltb w 10)%bool then lit "0" ++ str_of_Z w else str_of_Z w.

Definition format_week (final_y final_w : Z) : pystr :=
  str_of_Z final_y ++ lit " Week - " ++ format_02d final_w.

(** The decision of [calculate_delivery_week] as the pair (year, week);
    [None] is the empty string the function returns when no week can be
    determined.  The debug trail is printed, not returned, and is left
    out. *)
Definition delivery_decision (tables : option ScheduleTables)
    (order_date_str tour : pystr) (requested_week_str : option pystr)
    : result (option (Z * Z)) :=
  match order_date_str, tour with
  | [], _ | _, [] => Ok None
  | _, _ =>
      match tables with
      | None => Ok None
      | Some t =>
          match parse_isocalendar order_date_str with
          | None => Ok None
          | Some (y_order, w_order) =>
              let tour_clean := strip tour in
              match resolve_tour_column t tour_clean with
              | None => Ok None
              | Some target_col =>
                  match earliest_possible_week t w_order target_col with
                  | None => Ok None
                  | Some earliest_possible =>
                      match _get_schedule_code_for_tour t tour_clean with
                      | None | Some [] => Ok None
                      | Some schedule_code =>
                          match _get_valid_tour_weeks t schedule_code with
                          | [] => Ok None
                          | valid_weeks =>
                              let req :=
                                if truthy requested_week_str
                                then _extract_week_year (or_empty requested_week_str)
                                                        (Some y_order)
                                else Ok None in
                              match req with
                              | Raise e => Raise e
                              | Ok req =>
                                  match choose_week valid_weeks earliest_possible req with
                                  | None => Ok None
                                  | Some final_w =>
                                      let final_y :=
                                        match req with
                                        | Some (_, req_y) => req_y
                                        | None => y_order
                                        end in
                                      Ok (Some (final_y, final_w))
                                  end
                              end
                          end
                      end
                  end
              end
          end
      end
  end.

Definition calculate_delivery_week (tables : option ScheduleTables)
    (order_date_str tour : pystr) (requested_week_str : option pystr)
    : result pystr :=
  match delivery_decision tables order_date_str tour requested_week_str with
  | Raise e => Raise e
  | Ok (Some (final_y, final_w)) => Ok (format_week final_y final_w)
  | Ok None => Ok []
  end.

End Delivery.

(** ** [ai_customer_match.py] *)

Section AiMatch.

Context {rt : PyRuntime}.

(** The text sent to the model: the order context and the two shortlists,
    which [_build_order_context], [_build_primex_shortlist] and
    [_build_iln_shortlist] compute from the header before the guarded call.
    It is a function of the header alone; [Raise] is an exception of a
    shortlist builder, which [try_ai_customer_match] does not catch. *)
Variable build_user_text : pydict -> result pystr.

(** [extractor.complete_text(system_prompt, user_text)], the external call. *)
Variable complete_text : pystr -> pystr -> result pystr.

Variable _SYSTEM_PROMPT_AI_MATCH : pystr.

Definition _TRIGGER_WARNING_100 : pystr := lit "not 100% identical".
Definition _TRIGGER_WARNING_ILN : pystr := lit "ILN fallback".

(** The literal [0.7] is the binary64 number nearest to 7/10. *)
Definition _CONFIDENCE_THRESHOLD : pyfloat :=
  FNum (3152519739159347 # 4503599627370496).

(** [bool(v)] and [str(v)] *)
Definition py_truthy (v : pyval) : bool :=
  match v with
  | VNone => false
  | VBool b => b
  | VInt z => negb (Z.eqb z 0)
  | VFloat (FNum q) => negb (Qeq_bool q 0)
  | VFloat _ => true
  | VStr s => negb (str_eqb s [])
  | VList l => match l with [] => false | _ => true end
  | VDict d => match d with [] => false | _ => true end
  end.

Definition py_str (v : pyval) : pystr :=
  match v with
  | VNone => lit "None"
  | VBool true => lit "True"
  | VBool false => lit "False"
  | VInt z => str_of_Z z
  | VStr s => s
  | _ => str_other v
  end.

(** [str(d.get(key, "") or "").strip()] *)
Definition text_or_empty (d : pydict) (key : pystr) : pystr :=
  match dict_get d key with
  | Some v => if py_truthy v then strip (py_str v) else []
  | None => []
  end.

Definition should_try_ai_customer_match (header : pydict) (warnings : list pystr)
    : result bool :=
  let kdn := match dict_get header (lit "kundennummer") with
             | Some v => v
             | None => VDict []
             end in
  let derived_val :=
    match kdn with
    | VDict d =>
        match dict_get d (lit "derived_from") with
        | Some v => if py_truthy v
                    then match v with
                         | VStr s => Ok (strip s)
                         | _ => Raise AttributeError
                         end
                    else Ok []
        | None => Ok []
        end
    | _ => Ok []
    end in
  let val :=
    match kdn with
    | VDict d => text_or_empty d (lit "value")
    | _ => if py_truthy kdn then strip (py_str kdn) else []
    end in
  match derived_val with
  | Raise e => Raise e
  | Ok derived =>
      match val with
      | [] => Ok true
      | _ =>
          if str_eqb derived (lit "iln_fallback") then Ok true
          else Ok (existsb (fun w => contains _TRIGGER_WARNING_100 w
                                     || contains _TRIGGER_WARNING_ILN w) warnings)
      end
  end.

(** [_call_ai_match]: the prompt is sent and the raw answer returned. *)
Definition _call_ai_match (user_text : pystr) : result pystr :=
  complete_text _SYSTEM_PROMPT_AI_MATCH user_text.

Record AiAnswer := {
  ai_kundennummer : pystr;
  ai_adressnummer : pystr;
  ai_tour : pystr;
  ai_iln : pystr;
  ai_confidence : pyfloat
}.

(** [text.find(c)] and [text.rfind(c)] *)
Fixpoint find_char (c : N) (s : pystr) : option nat :=
  match s with
  | [] => None
  | x :: s' => if N.eqb x c then Some 0 else option_map S (find_char c s')
  end.

Definition rfind_char (c : N) (s : pystr) : option nat :=
  option_map (fun i => length s - 1 - i) (find_char c (rev s)).

(** [json.loads] of the whole answer, else of the text from its first "{"
    to its last "}". *)
Definition decode_answer (text : pystr) : option pyval :=
  match json_loads (strip text) with
  | Some data => Some data
  | None =>
      match find_char 123 text, rfind_char 125 text with
      | Some start, Some stop =>
          if Nat.ltb start stop
          then json_loads (firstn (stop + 1 - start) (skipn start text))
          else None
      | _, _ => None
      end
  end.

(** [float(confidence)], where [TypeError] and [ValueError] give 0.0 and an
    [OverflowError] is not caught. *)
Definition confidence_of (v : option pyval) : result pyfloat :=
  match v with
  | None | Some VNone => Ok (FNum 0)
  | Some (VBool b) => Ok (FNum (if b then 1 else 0))
  | Some (VInt z) =>
      match float_of_int z with
      | Some f => Ok f
      | None => Raise OverflowError
      end
  | Some (VFloat f) => Ok f
  | Some (VStr s) =>
      match float_of_str s with
      | Some f => Ok f
      | None => Ok (FNum 0)
      end
  | Some _ => Ok (FNum 0)
  end.

Definition _parse_ai_match_response (text : pystr) : result (option AiAnswer) :=
  match strip text with
  | [] => Ok None
  | _ =>
      match decode_answer text with
      | Some (VDict data) =>
          match confidence_of (dict_get data (lit "confidence")) with
          | Raise e => Raise e
          | Ok confidence =>
              let kdn :=
                match dict_get data (lit "kundennummer") with
                | None | Some VNone => []
                | Some v => strip (py_str v)
                end in
              Ok (Some {| ai_kundennummer := kdn;
                          ai_adressnummer := text_or_empty data (lit "adressnummer");
                          ai_tour := text_or_empty data (lit "tour");
                          ai_iln := text_or_empty data (lit "iln");
                          ai_confidence := confidence |})
          end
      | _ => Ok None
      end
  end.

(** The entry written for an accepted field. *)
Definition derived_entry (value : pystr) (confidence : pyfloat) : pyval :=
  VDict [(lit "value", VStr value);
         (lit "source", VStr (lit "derived"));
         (lit "confidence", VFloat confidence);
         (lit "derived_from", VStr (lit "ai_assisted_match"))].

Definition ai_warning : pystr :=
  lit "Kundennummer/match chosen by AI (rules did not match 100%); please verify.".

Definition write_back (r : AiAnswer) (header : pydict) (warnings : list pystr)
    : pydict * list pystr :=
  let c := ai_confidence r in
  let header := dict_set header (lit "kundennummer") (derived_entry (ai_kundennummer r) c) in
  let header := dict_set header (lit "adressnummer") (derived_entry (ai_adressnummer r) c) in
  let header := dict_set header (lit "tour") (derived_entry (ai_tour r) c) in
  let header :=
    match ai_iln r with
    | [] => header
    | iln => dict_set header (lit "iln") (derived_entry iln c)
    end in
  (header, warnings ++ [ai_warning]).

(** [try_ai_customer_match] mutates the header and the warnings in place:
    the result is how the call ends (returns, or raises) together with the
    header and the warnings as it leaves them. *)
Definition try_ai_customer_match (header : pydict) (warnings : list pystr)
    : result unit * (pydict * list pystr) :=
  let unchanged := (header, warnings) in
  match should_try_ai_customer_match header warnings with
  | Raise e => (Raise e, unchanged)
  | Ok false => (Ok tt, unchanged)
  | Ok true =>
      match build_user_text header with
      | Raise e => (Raise e, unchanged)
      | Ok user_text =>
          match _call_ai_match user_text with
          | Raise _ => (Ok tt, unchanged)
          | Ok response_text =>
              match _parse_ai_match_response response_text with
              | Raise e => (Raise e, unchanged)
              | Ok None => (Ok tt, unchanged)
              | Ok (Some r) =>
                  if float_lt (ai_confidence r) _CONFIDENCE_THRESHOLD
                  then (Ok tt, unchanged)
                  else
                    match ai_kundennummer r with
                    | [] => (Ok tt, unchanged)
                    | _ => (Ok tt, write_back r header warnings)
                    end
              end
          end
      end
  end.

End AiMatch.

(** ** Further functions of [delivery_logic.py] and [lookup.py] *)

Section FurtherFunctions.

Context {rt : PyRuntime}.

(** [is_tour_valid]: the tour is a key of the tour map, a column of the
    matrix, a column of it up to a numeric suffix, or has a schedule code. *)
Definition is_tour_valid (tables : option ScheduleTables) (tour : pystr) : bool :=
  match tables with
  | None => false
  | Some t =>
      let tour_clean := strip tour in
      match dict_get (tour_map t) tour_clean with
      | Some _ => true
      | None =>
          str_in tour_clean (matrix_columns t)
          || existsb (fun col => str_eqb (strip_numeric_suffix col) tour_clean)
                     (matrix_columns t)
          || match _get_schedule_code_for_tour t tour_clean with
             | Some (_ :: _) => true
             | _ => false
             end
      end
  end.

(** The columns of the ILN table that [find_iln_by_address] reads; the
    street is under "Straße" or under "Strasse". *)
Inductive iln_column :=
| IlnNumber | IlnStrasze | IlnStrasse | IlnPLZ | IlnOrt.

Definition iln_row := iln_column -> Cell.

Record IlnFrame := {
  iln_has_column : iln_column -> bool;
  iln_rows : list iln_row
}.

(** [str(row.get(c, ""))] and [str(row.get("Straße", row.get("Strasse", "")))] *)
Definition iln_get_str (t : IlnFrame) (r : iln_row) (c : iln_column) : pystr :=
  if iln_has_column t c then cell_str (r c) else [].

Definition iln_street (t : IlnFrame) (r : iln_row) : pystr :=
  if iln_has_column t IlnStrasze then cell_str (r IlnStrasze)
  else iln_get_str t r IlnStrasse.

(** The postal code of the address: the country pattern, else the first
    free-standing run of four or five digits. *)
Definition first_plz_of_address (address_str : pystr) : option pystr :=
  match re_search re_plz_country address_str with
  | Some (_, caps) => Some (group_or_empty 1 caps)
  | None =>
      match re_search re_plz_bare address_str with
      | Some (_, caps) => Some (group_or_empty 1 caps)
      | None => None
      end
  end.

(** The three parts of the score of a row. *)
Definition iln_street_hit (t : IlnFrame) (addr_clean : pystr) (r : iln_row) : bool :=
  let strasse_clean_db := _normalize_address_token (iln_street t r) in
  negb (str_eqb strasse_clean_db []) && contains strasse_clean_db addr_clean.

Definition iln_city_hit (t : IlnFrame) (addr_clean : pystr) (r : iln_row) : bool :=
  let ort_db := iln_get_str t r IlnOrt in
  let ort_clean_db := _normalize_city ort_db in
  negb (str_eqb ort_clean_db [])
  && (contains ort_clean_db addr_clean || _city_matches ort_db addr_clean).

Definition iln_plz_hit (t : IlnFrame) (plz : option pystr) (r : iln_row) : bool :=
  truthy plz && str_eqb (or_empty plz) (_plz_digits_only (iln_get_str t r IlnPLZ)).

Definition iln_score (t : IlnFrame) (addr_clean : pystr) (plz : option pystr)
    (r : iln_row) : nat :=
  (if iln_street_hit t addr_clean r then 40 else 0)
  + (if iln_city_hit t addr_clean r then 30 else 0)
  + (if iln_plz_hit t plz r then 20 else 0).

(** [list.sort(key=lambda x: x[0], reverse=True)]: descending, and stable. *)
Fixpoint insert_scored {A} (x : nat * A) (l : list (nat * A)) : list (nat * A) :=
  match l with
  | [] => [x]
  | y :: l' => if Nat.leb (fst y) (fst x) then x :: l else y :: insert_scored x l'
  end.

Definition sort_scored_desc {A} (l : list (nat * A)) : list (nat * A) :=
  fold_right insert_scored [] l.

Definition find_iln_by_address (df : option IlnFrame) (address_str : pystr)
    : option pystr :=
  match df, address_str with
  | None, _ | _, [] => None
  | Some t, _ =>
      let address_str := strip address_str in
      let addr_clean := _normalize_address_token address_str in
      let plz := first_plz_of_address address_str in
      let scored_candidates :=
        flat_map (fun r =>
                    let score := iln_score t addr_clean plz r in
                    if Nat.leb 60 score then [(score, r)] else [])
                 (iln_rows t) in
      match sort_scored_desc scored_candidates with
      | [] => None
      | (_, best_match) :: _ =>
          let iln_val := iln_get_str t best_match IlnNumber in
          Some (if endswith (lit ".0") iln_val
                then firstn (length iln_val - 2) iln_val
                else iln_val)
      end
  end.

End FurtherFunctions.

(** ** A runtime for evaluation

    [latin_runtime] follows CPython on the code points below U+0100 and
    leaves the others alone.  Spreadsheet cells are strings, integers,
    floats of integral value and NaN; a float is printed as its integer
    followed by ".0", which holds up to 2^53.  Calls into [dateutil], [json] and
    [difflib] are answered from the tables of an [Oracle]. *)

Record Oracle := {
  known_dates : list (pystr * (Z * Z));
  known_json : list (pystr * pyval);
  known_ratio : pystr -> pystr -> Q
}.

Definition no_oracle : Oracle :=
  {| known_dates := []; known_json := []; known_ratio := fun _ _ => 0%Q |}.

Definition latin_lower_cp (c : N) : N :=
  if in_range 65 90 c || in_range 192 214 c || in_range 216 222 c
  then (c + 32)%N else c.

Definition latin_lower (s : pystr) : pystr := map latin_lower_cp s.

Definition latin_is_space (c : N) : bool :=
  in_range 9 13 c || in_range 28 32 c || N.eqb c 133 || N.eqb c 160.

Definition latin_is_digit (c : N) : bool := in_range 48 57 c.

Definition latin_is_word (c : N) : bool :=
  in_range 48 57 c || in_range 65 90 c || N.eqb c 95 || in_range 97 122 c
  || N.eqb c 170 || in_range 178 179 c || N.eqb c 181 || in_range 185 186 c
  || in_range 188 190 c || in_range 192 214 c || in_range 216 246 c
  || in_range 248 255 c.

Definition latin_ci_match (p c : N) : bool :=
  N.eqb (latin_lower_cp p) (latin_lower_cp c).

Definition latin_int_of_digits (s : pystr) : option Z :=
  match s with
  | [] => None
  | _ =>
      if forallb latin_is_digit s
      then Some (fold_left (fun acc c => (acc * 10 + Z.of_N (c - 48))%Z) s 0%Z)
      else None
  end.

Inductive latin_cell :=
| CStr (s : pystr)
| CInt (z : Z)
| CWhole (z : Z)
| CNaN.

Definition latin_cell_str (c : latin_cell) : pystr :=
  match c with
  | CStr s => s
  | CInt z => str_of_Z z
  | CWhole z => str_of_Z z ++ lit ".0"
  | CNaN => lit "nan"
  end.

Definition latin_cell_int (c : latin_cell) : option Z :=
  match c with
  | CStr s => latin_int_of_digits s
  | CInt z | CWhole z => Some z
  | CNaN => None
  end.

Definition latin_runtime (o : Oracle) : PyRuntime :=
  {| str_lower := latin_lower;
     is_space := latin_is_space;
     is_digit := latin_is_digit;
     is_word := latin_is_word;
     ci_match := latin_ci_match;
     int_of_digits := latin_int_of_digits;
     Cell := latin_cell;
     cell_str := latin_cell_str;
     cell_numeric := fun c => option_map inject_Z (latin_cell_int c);
     cell_isna := fun c => match c with CNaN => true | _ => false end;
     cell_float := fun c =>
       match c with
       | CNaN => Some FNaN
       | _ => option_map (fun z => FNum (inject_Z z)) (latin_cell_int c)
       end;
     cell_is_int := fun c => match c with CInt _ => true | _ => false end;
     cell_is_float := fun c => match c with CWhole _ | CNaN => true | _ => false end;
     long_float_str := fun s => s ++ lit ".0";
     seq_ratio := known_ratio o;
     parse_isocalendar := dict_get (known_dates o);
     json_loads := dict_get (known_json o);
     str_other := fun _ => lit "<object>";
     float_of_int := fun z => Some (FNum (inject_Z z));
     float_of_str := fun s => option_map (fun z => FNum (inject_Z z)) (latin_int_of_digits s) |}.

(** A customer table from its rows, each given by the cells of the columns
    in the order of [column]. *)
Definition mk_row (o : Oracle)
    (kdnr n1 n2 n3 strasse ort plz adr tour verband : latin_cell)
    : @row (latin_runtime o) :=
  fun c =>
    match c with
    | Kundennummer => kdnr | Name1 => n1 | Name2 => n2 | Name3 => n3
    | Strasse => strasse | Ort => ort | Postleitzahl => plz
    | Adressnummer => adr | Tour => tour | Verband => verband
    end.

Definition mk_table (o : Oracle) (rs : list (@row (latin_runtime o)))
    : @DataFrame (latin_runtime o) :=
  {| has_column := fun _ => true; rows := rs |}.

(** ** Predicates of the statements *)

(** The character [c] does not occur in [s]. *)
Definition absent (c : N) (s : pystr) : Prop := Forall (fun x => x <> c) s.

(** The characters a normalized token is made of, given the code points
    [stable] that [str.lower] leaves alone. *)
Definition token_char (stable : N -> Prop) (c : N) : Prop :=
  stable c /\ c <> cp_replacement
  /\ c <> cp_a_uml /\ c <> cp_o_uml /\ c <> cp_u_uml /\ c <> cp_eszett
  /\ c <> 32%N /\ c <> 45%N /\ c <> 47%N.

(** The code points [latin_lower] leaves alone. *)
Definition latin_stable (c : N) : Prop := latin_lower_cp c = c.

(** The dictionary of the cells of a row as they are in the table, which
    [find_customer_by_address] returns when the frame of the candidates
    leaves them as they are. *)
Definition match_of_row {rt : PyRuntime} (r : row) : MatchResult :=
  {| kundennummer := replace (lit ".0") [] (cell_str (r Kundennummer));
     adressnummer := replace (lit ".0") [] (cell_str (r Adressnummer));
     tour := cell_str (r Tour) |}.

(** The dictionary [find_customer_by_address] builds from the row [r] of
    the frame of the candidates [frame]. *)
Definition frame_result {rt : PyRuntime} (frame : list row) (r : row) : MatchResult :=
  {| kundennummer := replace (lit ".0") [] (frame_cell_str frame r Kundennummer);
     adressnummer := replace (lit ".0") [] (frame_cell_str frame r Adressnummer);
     tour := frame_cell_str frame r Tour |}.

(** The dictionary the customer-number fallback builds from a row: a column
    the table lacks gives the empty string. *)
Definition row_result {rt : PyRuntime} (df : DataFrame) (r : row) : MatchResult :=
  {| kundennummer := replace (lit ".0") [] (get_str df r Kundennummer);
     adressnummer := replace (lit ".0") [] (get_str df r Adressnummer);
     tour := get_str df r Tour |}.

(** Four or five decimal digits. *)
Definition digits_4_5 {rt : PyRuntime} (t : pystr) : Prop :=
  Forall (fun c => is_digit c = true) t /\ 4 <= length t <= 5.

(** ** Data of the examples *)

(** The answers of the external packages in the examples: the ISO calendar
    of 14 January 2026 (a Wednesday of week 3), and two decoded model
    answers, with the binary64 numbers 0.69 and 0.7 as confidence. *)
Definition quoted (w : string) : pystr := [34%N] ++ lit w ++ [34%N].

Definition answer_text (confidence : string) : pystr :=
  lit "{" ++ quoted "kundennummer" ++ lit ": " ++ quoted "4711" ++ lit ", "
  ++ quoted "adressnummer" ++ lit ": " ++ quoted "0" ++ lit ", "
  ++ quoted "tour" ++ lit ": " ++ quoted "G2" ++ lit ", "
  ++ quoted "confidence" ++ lit ": " ++ lit confidence ++ lit "}".

Definition answer_value (confidence : Q) : pyval :=
  VDict [(lit "kundennummer", VStr (lit "4711"));
         (lit "adressnummer", VStr (lit "0"));
         (lit "tour", VStr (lit "G2"));
         (lit "confidence", VFloat (FNum confidence))].

Definition float_0_69 : Q := 1553741871442821 # 2251799813685248.
Definition float_0_7 : Q := 3152519739159347 # 4503599627370496.

Definition example_oracle : Oracle :=
  {| known_dates := [(lit "14.01.2026", (2026%Z, 3%Z))];
     known_json := [(answer_text "0.69", answer_value float_0_69);
                    (answer_text "0.7", answer_value float_0_7)];
     known_ratio := fun _ _ => 0%Q |}.

Definition R : PyRuntime := latin_runtime example_oracle.

(** A customer table with two customers of an eligible [Verband]: 4711 with
    its main address, and 4712, of which only the sub-address 5 is listed. *)
Definition row_4711 : @row R :=
  mk_row example_oracle (CInt 4711) (CStr (lit "Moebel Huber")) (CStr (lit "Einrichtungshaus"))
    (CStr []) (CStr (lit "Hauptstr. 5")) (CStr (lit "Muenchen")) (CInt 80331)
    (CInt 0) (CStr (lit "G2")) (CInt 29000).

Definition row_4712 : @row R :=
  mk_row example_oracle (CInt 4712) (CStr (lit "Moebel Meier")) (CStr (lit "Lager"))
    (CStr []) (CStr (lit "Nebenweg 1")) (CStr (lit "Augsburg")) (CInt 86150)
    (CInt 5) (CStr (lit "W1")) (CInt 29000).

Definition customers : @DataFrame R := mk_table example_oracle [row_4711; row_4712].

(** "Hauptstraße 5, 80331 München" and an address no row matches. *)
Definition addr_hauptstrasse : pystr :=
  lit "Hauptstra" ++ [cp_eszett] ++ lit "e 5, 80331 M" ++ [cp_u_uml] ++ lit "nchen".

Definition addr_unknown : pystr := lit "Feldgasse 9, 99999 Nirgendwo".

(** A row of the allowlisted market whose street carries no house number,
    and an address that spells the street differently. *)
Definition row_68935 : @row R :=
  mk_row example_oracle (CInt 68935) (CStr (lit "Momax Sofia")) (CStr []) (CStr [])
    (CStr (lit "Vitosha blvd")) (CStr (lit "Sofia")) (CInt 1000)
    (CInt 0) (CStr (lit "B1")) (CInt 30000).

Definition momax_customers : @DataFrame R :=
  mk_table example_oracle [row_4711; row_68935].

Definition addr_vitosha : pystr := lit "Vitosha bulevard 12, 1000 Sofia".

(** The digits of a location identifier, from which
    [find_kundennummer_by_iln] takes its candidate. *)
Definition iln_digits {rt : PyRuntime} (iln_value : pystr) : pystr :=
  re_sub re_non_digit (fun _ => []) (replace (lit ".0") [] (strip iln_value)).

(** The schedule of the specification's scenario: an order of week 3 for
    tour G2 can be delivered in week 8 at the earliest, and the tour, whose
    schedule code is 2.2, runs in the weeks 5, 8, 10 and 12. *)
Definition one_column (c : latin_cell) : pystr -> @Cell R := fun _ => c.

Definition schedule_g2 : @ScheduleTables R :=
  {| matrix_columns := [lit "G2"];
     matrix_rows := [(3%Z, one_column (CInt 8))];
     run_columns := [lit "2.2"];
     run_rows := [(5%Z, one_column (CInt 1)); (6%Z, one_column CNaN);
                  (7%Z, one_column (CInt 0)); (8%Z, one_column (CInt 1));
                  (9%Z, one_column CNaN); (10%Z, one_column (CInt 1));
                  (12%Z, one_column (CInt 1))];
     tour_map := [(lit "G2", lit "G2"); (lit "2.2", lit "G2")];
     tour_code_map := [(lit "G2", lit "2.2")] |}.

(** An order header without a customer number, and a collaborator that
    answers every prompt with the same text. *)
Definition header_without_customer : pydict :=
  [(lit "store_name", VStr (lit "Moebel Huber"));
   (lit "kundennummer", VDict [(lit "value", VStr []); (lit "source", VStr (lit "extracted"))]);
   (lit "tour", VDict [(lit "value", VStr (lit "W1"))])].

Definition context_only : pydict -> result pystr :=
  fun _ => Ok (lit "Order context: Store name: Moebel Huber").

Definition always_answers (text : pystr) : pystr -> pystr -> result pystr :=
  fun _ _ => Ok text.

(** The outcomes of the external call after which nothing is to be written:
    the call raised, or the parsed answer has a confidence below the
    threshold or an empty customer number. *)
Definition rejected_outcome {rt : PyRuntime} (outcome : result pystr) : Prop :=
  match outcome with
  | Raise _ => True
  | Ok text =>
      exists r, _parse_ai_match_response text = Ok (Some r)
                /\ (float_lt (ai_confidence r) _CONFIDENCE_THRESHOLD = true
                    \/ ai_kundennummer r = [])
  end.

(** The candidate the region-restricted matcher makes of [row_68935] for
    [addr_vitosha] when [rapidfuzz] is missing. *)
Definition cand_68935 : @candidate R :=
  {| cand_row := row_68935;
     cand_strict := false;
     cand_plz_exact := true;
     cand_house_match := false;
     cand_fuzzy_score := (1 * 100)%Q;
     cand_kdnr_sort := 68935%Z |}.

(** A scorer that would accept every row. *)
Definition eager_fuzz : fuzz_module := Some (fun _ _ => 100%Q).

(** Two customers at one address, in a table whose [Tour] column holds
    strings elsewhere: the tour of the first is the integer 5, that of the
    second the float 7.0. *)
Definition row_4713 : @row R :=
  mk_row example_oracle (CInt 4713) (CStr (lit "Moebel Huber")) (CStr (lit "Einrichtungshaus"))
    (CStr []) (CStr (lit "Hauptstr. 5")) (CStr (lit "Muenchen")) (CInt 80331)
    (CInt 0) (CInt 5) (CInt 29000).

Definition row_4714 : @row R :=
  mk_row example_oracle (CInt 4714) (CStr (lit "Moebel Huber")) (CStr (lit "Lager"))
    (CStr []) (CStr (lit "Hauptstr. 5")) (CStr (lit "Muenchen")) (CInt 80331)
    (CInt 0) (CWhole 7) (CInt 29000).

Definition tour_customers : @DataFrame R :=
  mk_table example_oracle [row_4713; row_4714; row_4712].

(** An address that names the street as the table does, and the candidate
    made of [row_68935] for it. *)
Definition addr_vitosha_blvd : pystr := lit "Vitosha blvd 12, 1000 Sofia".

Definition cand_68935_strict : @candidate R :=
  {| cand_row := row_68935;
     cand_strict := true;
     cand_plz_exact := true;
     cand_house_match := false;
     cand_fuzzy_score := 100%Q;
     cand_kdnr_sort := 68935%Z |}.

(** An ILN table with the street under "Strasse"; the identifier of the
    second row was read as a float. *)
Definition mk_iln_row (iln strasse plz ort : latin_cell) : @iln_row R :=
  fun c =>
    match c with
    | IlnNumber => iln
    | IlnStrasze | IlnStrasse => strasse
    | IlnPLZ => plz
    | IlnOrt => ort
    end.

Definition iln_row_huber : @iln_row R :=
  mk_iln_row (CWhole 4006592004711) (CStr (lit "Hauptstr. 5")) (CInt 80331)
    (CStr (lit "Muenchen")).

Definition iln_row_meier : @iln_row R :=
  mk_iln_row (CInt 4006592004712) (CStr (lit "Nebenweg 1")) (CInt 86150)
    (CStr (lit "Augsburg")).

Definition iln_table : @IlnFrame R :=
  {| iln_has_column := fun c => match c with IlnStrasze => false | _ => true end;
     iln_rows := [iln_row_meier; iln_row_huber] |}.

(** A model answer wrapped in other text: what stands between the braces,
    and the text before and after them. *)
Definition answer_fields (confidence : string) : pystr :=
  quoted "kundennummer" ++ lit ": " ++ quoted "4711" ++ lit ", "
  ++ quoted "adressnummer" ++ lit ": " ++ quoted "0" ++ lit ", "
  ++ quoted "tour" ++ lit ": " ++ quoted "G2" ++ lit ", "
  ++ quoted "confidence" ++ lit ": " ++ lit confidence.

Definition prose_before : pystr := lit "Here is the match: ".
Definition prose_after : pystr := lit " Please verify.".

(** * Properties *)

(** ** Strings *)

Lemma str_eqb_eq (a b : pystr) : str_eqb a b = true <-> a = b.
Proof.
  revert b; induction a as [|x a IH]; intros [|y b]; simpl; split;
    try congruence; try reflexivity.
  - intros H. apply andb_true_iff in H as [Hx Hab].
    apply N.eqb_eq in Hx. apply IH in Hab. congruence.
  - intros H. injection H as -> ->. rewrite N.eqb_refl. simpl. now apply IH.
Qed.

Lemma str_eqb_refl (a : pystr) : str_eqb a a = true.
Proof. now apply str_eqb_eq. Qed.

Lemma str_in_In (x : pystr) (l : list pystr) : str_in x l = true <-> In x l.
Proof.
  unfold str_in. rewrite existsb_exists. split.
  - intros (y & Hy & He). apply str_eqb_eq in He. now subst.
  - intros H. exists x. split; [assumption | apply str_eqb_refl].
Qed.

Lemma absent_not_In (c : N) (s : pystr) : absent c s <-> ~ In c s.
Proof.
  unfold absent. rewrite Forall_forall. split.
  - intros H Hin. now apply (H c Hin).
  - intros H x Hx ->. now apply H.
Qed.

Lemma startswith_absent (c : N) (p s : pystr) :
  absent c s -> startswith (c :: p) s = false.
Proof.
  intros H. destruct s as [|y s]; simpl; [reflexivity|].
  inversion H as [|? ? Hy _]; subst.
  destruct (N.eqb_spec c y); [congruence | reflexivity].
Qed.

Lemma contains_absent (c : N) (p s : pystr) :
  absent c s -> contains (c :: p) s = false.
Proof.
  induction s as [|y s IH]; intros H.
  - reflexivity.
  - change (contains (c :: p) (y :: s))
      with (startswith (c :: p) (y :: s) || contains (c :: p) s).
    rewrite (startswith_absent c p (y :: s) H).
    inversion H; subst. now apply IH.
Qed.

Lemma contains_single_false (c : N) (s : pystr) :
  contains [c] s = false -> absent c s.
Proof.
  induction s as [|y s IH]; intros H.
  - constructor.
  - change (contains [c] (y :: s)) with (startswith [c] (y :: s) || contains [c] s) in H.
    apply orb_false_iff in H as [Hs Hc]. simpl in Hs.
    constructor; [| now apply IH].
    destruct (N.eqb_spec c y); [discriminate | congruence].
Qed.

Lemma replace_go_Forall (P : N -> Prop) (old new : pystr) :
  Forall P new ->
  forall s skip, Forall P s -> Forall P (replace_go old new skip s).
Proof.
  intros Hnew. induction s as [|c s IH]; intros skip Hs; simpl.
  - constructor.
  - inversion Hs as [|? ? Hc Hs']; subst.
    destruct skip as [|k]; [| now apply IH].
    destruct (startswith old (c :: s)).
    + apply Forall_app. split; [assumption | now apply IH].
    + constructor; [assumption | now apply IH].
Qed.

Lemma replace_Forall (P : N -> Prop) (old new s : pystr) :
  Forall P new -> Forall P s -> Forall P (replace old new s).
Proof. intros Hn Hs. now apply replace_go_Forall. Qed.

(** Replacing a character by a text without it removes it. *)
Lemma replace_single_absent (c : N) (new s : pystr) :
  absent c new -> absent c (replace [c] new s).
Proof.
  intros Hnew. unfold replace. induction s as [|y s IH]; simpl.
  - constructor.
  - destruct (N.eqb_spec c y) as [->|Hne]; simpl.
    + apply Forall_app. split; assumption.
    + constructor; [congruence | assumption].
Qed.

(** A text that does not occur is not replaced. *)
Lemma replace_absent (old new s : pystr) :
  contains old s = false -> replace old new s = s.
Proof.
  unfold replace. induction s as [|c s IH]; intros H.
  - reflexivity.
  - change (contains old (c :: s)) with (startswith old (c :: s) || contains old s) in H.
    apply orb_false_iff in H as [Hs Hc].
    simpl. rewrite Hs. f_equal. now apply IH.
Qed.

Lemma startswith_In (p s : pystr) (c : N) :
  startswith p s = true -> In c p -> In c s.
Proof.
  revert s; induction p as [|x p IH]; intros s H Hc; [destruct Hc|].
  destruct s as [|y s]; simpl in H; [discriminate|].
  apply andb_true_iff in H as [Hx Hp]. apply N.eqb_eq in Hx. subst y.
  destruct Hc as [->|Hc]; [now left | right; now apply IH].
Qed.

Lemma contains_In (p s : pystr) (c : N) :
  contains p s = true -> In c p -> In c s.
Proof.
  induction s as [|y s IH]; intros H Hc.
  - simpl in H. rewrite orb_false_r in H. now apply (startswith_In p []).
  - change (contains p (y :: s)) with (startswith p (y :: s) || contains p s) in H.
    apply orb_true_iff in H as [H|H].
    + now apply (startswith_In p).
    + right. now apply IH.
Qed.

(** A text with a character the other text lacks does not occur in it. *)
Lemma contains_absent_char (p s : pystr) (c : N) :
  In c p -> absent c s -> contains p s = false.
Proof.
  intros Hc Ha. destruct (contains p s) eqn:E; [|reflexivity].
  apply absent_not_In in Ha. exfalso. apply Ha. now apply (contains_In p).
Qed.

(** ** Street-token normalization *)

Section NormalizeTwice.

Context {rt : PyRuntime}.

(** What the proof uses of [str.lower]: there is a set of code points that
    lowering leaves alone; a lowered text is made of them, and a text made
    of them is not changed; the ASCII lower-case letters are among them and
    U+00C3 is not; lowering does not produce U+FFFD. *)
Variable stable : N -> Prop.
Hypothesis lower_gives_stable : forall s, Forall stable (str_lower s).
Hypothesis lower_fixes_stable : forall s, Forall stable s -> str_lower s = s.
Hypothesis ascii_lower_stable : forall c, in_range 97 122 c = true -> stable c.
Hypothesis A_tilde_not_stable : ~ stable cp_A_tilde.
Hypothesis lower_keeps_replacement_out :
  forall s, absent cp_replacement s -> absent cp_replacement (str_lower s).

Lemma Forall_lit_stable (w : string) :
  forallb (in_range 97 122) (lit w) = true -> Forall stable (lit w).
Proof.
  intros H. apply Forall_forall. intros c Hc.
  apply ascii_lower_stable. rewrite forallb_forall in H. now apply H.
Qed.

Lemma Forall_lit_neq (w : string) (c : N) :
  forallb (fun x => negb (N.eqb x c)) (lit w) = true -> absent c (lit w).
Proof.
  intros H. apply Forall_forall. intros x Hx.
  rewrite forallb_forall in H. specialize (H x Hx).
  destruct (N.eqb_spec x c); [discriminate | assumption].
Qed.

Ltac lit_side :=
  first [ apply Forall_lit_stable; reflexivity
        | apply Forall_lit_neq; reflexivity
        | constructor ].

Lemma fix_mojibake_no_replacement (s : pystr) :
  absent cp_replacement (_fix_mojibake s).
Proof.
  unfold _fix_mojibake.
  match goal with |- context [contains [cp_replacement] ?x] => set (t := x) end.
  destruct (contains [cp_replacement] t) eqn:E.
  - apply replace_single_absent. lit_side.
  - now apply contains_single_false.
Qed.

Lemma map_umlauts_Forall (P : N -> Prop) (s : pystr) :
  Forall P (lit "ae") -> Forall P (lit "oe") -> Forall P (lit "ue") ->
  Forall P (lit "ss") -> Forall P s -> Forall P (map_umlauts s).
Proof.
  intros Ha Ho Hu Hs H. unfold map_umlauts.
  do 4 (apply replace_Forall; [assumption|]). assumption.
Qed.

Lemma map_umlauts_absent (s : pystr) :
  absent cp_a_uml (map_umlauts s) /\ absent cp_o_uml (map_umlauts s)
  /\ absent cp_u_uml (map_umlauts s) /\ absent cp_eszett (map_umlauts s).
Proof.
  unfold map_umlauts.
  set (s1 := replace [cp_a_uml] (lit "ae") s).
  set (s2 := replace [cp_o_uml] (lit "oe") s1).
  set (s3 := replace [cp_u_uml] (lit "ue") s2).
  assert (H1 : absent cp_a_uml s1) by (apply replace_single_absent; lit_side).
  assert (H2 : absent cp_o_uml s2) by (apply replace_single_absent; lit_side).
  assert (H3 : absent cp_u_uml s3) by (apply replace_single_absent; lit_side).
  repeat split.
  - do 3 (apply replace_Forall; [lit_side|]). exact H1.
  - do 2 (apply replace_Forall; [lit_side|]). exact H2.
  - apply replace_Forall; [lit_side|]. exact H3.
  - apply replace_single_absent. lit_side.
Qed.

Lemma collapse_Forall (P : N -> Prop) (s : pystr) :
  Forall P (lit "str") -> Forall P s -> Forall P (collapse_street_words s).
Proof.
  intros Hn H. unfold collapse_street_words.
  do 5 (apply replace_Forall; [assumption|]). assumption.
Qed.

Lemma remove_separators_Forall (P : N -> Prop) (s : pystr) :
  Forall P s -> Forall P (remove_separators s).
Proof.
  intros H. unfold remove_separators.
  do 3 (apply replace_Forall; [constructor|]). assumption.
Qed.

Lemma remove_separators_absent (s : pystr) :
  absent 32%N (remove_separators s) /\ absent 45%N (remove_separators s)
  /\ absent 47%N (remove_separators s).
Proof.
  unfold remove_separators.
  set (s1 := replace (lit " ") [] s).
  set (s2 := replace (lit "-") [] s1).
  assert (H1 : absent 32%N s1) by (apply (replace_single_absent 32%N); constructor).
  assert (H2 : absent 45%N s2) by (apply (replace_single_absent 45%N); constructor).
  repeat split.
  - do 2 (apply replace_Forall; [constructor|]). exact H1.
  - apply replace_Forall; [constructor|]. exact H2.
  - apply (replace_single_absent 47%N). constructor.
Qed.

Lemma Forall_and_intro (P Q : N -> Prop) (s : pystr) :
  Forall P s -> Forall Q s -> Forall (fun c => P c /\ Q c) s.
Proof.
  intros HP HQ. rewrite Forall_forall in *. intros c Hc. split; auto.
Qed.

(** A normalized token is made of token characters. *)
Lemma normalize_token_chars (s : pystr) :
  Forall (token_char stable) (_normalize_address_token s).
Proof.
  unfold _normalize_address_token.
  set (x1 := str_lower (_fix_mojibake s)).
  assert (S1 : Forall stable x1) by apply lower_gives_stable.
  assert (R1 : absent cp_replacement x1)
    by (apply lower_keeps_replacement_out, fix_mojibake_no_replacement).
  set (x2 := map_umlauts x1).
  assert (S2 : Forall stable x2) by (apply map_umlauts_Forall; try lit_side; exact S1).
  assert (R2 : absent cp_replacement x2) by (apply map_umlauts_Forall; try lit_side; exact R1).
  destruct (map_umlauts_absent x1) as (A2 & O2 & U2 & E2). fold x2 in A2, O2, U2, E2.
  set (x3 := collapse_street_words x2).
  destruct (remove_separators_absent x3) as (B4 & H4 & L4).
  unfold token_char.
  repeat apply Forall_and_intro;
    try assumption;
    apply remove_separators_Forall, collapse_Forall; try lit_side; assumption.
Qed.

Lemma token_chars_absent (c : N) (t : pystr) :
  (forall x, token_char stable x -> x <> c) -> Forall (token_char stable) t -> absent c t.
Proof.
  intros Hc H. unfold absent. rewrite Forall_forall in *. auto.
Qed.

Lemma fix_mojibake_fixed (t : pystr) :
  absent cp_A_tilde t -> absent cp_replacement t -> _fix_mojibake t = t.
Proof.
  intros HA HR. unfold _fix_mojibake. cbv zeta.
  rewrite !(replace_absent _ _ t) by (now apply contains_absent).
  now rewrite (contains_absent cp_replacement [] t HR).
Qed.

Lemma map_umlauts_fixed (t : pystr) :
  absent cp_a_uml t -> absent cp_o_uml t -> absent cp_u_uml t ->
  absent cp_eszett t -> map_umlauts t = t.
Proof.
  intros Ha Ho Hu He. unfold map_umlauts.
  rewrite !(replace_absent _ _ t) by (now apply contains_absent).
  reflexivity.
Qed.

Lemma remove_separators_fixed (t : pystr) :
  absent 32%N t -> absent 45%N t -> absent 47%N t -> remove_separators t = t.
Proof.
  intros Hb Hh Hs. unfold remove_separators.
  rewrite !(replace_absent _ _ t) by (now apply contains_absent).
  reflexivity.
Qed.

Lemma collapse_fixed (t : pystr) :
  absent cp_eszett t ->
  contains w_strasse t = false -> contains w_strase t = false ->
  contains w_strabe t = false -> contains w_str_dot t = false ->
  collapse_street_words t = t.
Proof.
  intros He H1 H2 H3 H4. unfold collapse_street_words.
  rewrite (replace_absent w_strasze _ t)
    by (apply (contains_absent_char _ _ cp_eszett); [simpl; tauto | assumption]).
  now rewrite (replace_absent _ _ t H1), (replace_absent _ _ t H2),
    (replace_absent _ _ t H3), (replace_absent _ _ t H4).
Qed.

(** C7 (amended).  Normalizing a street string twice gives the same result
    as normalizing it once whenever the normalized string contains none of
    the street words "strasse", "strase", "strabe" and "str.". *)
Theorem normalize_idempotent_without_street_word (s : pystr) :
  contains w_strasse (_normalize_address_token s) = false ->
  contains w_strase (_normalize_address_token s) = false ->
  contains w_strabe (_normalize_address_token s) = false ->
  contains w_str_dot (_normalize_address_token s) = false ->
  _normalize_address_token (_normalize_address_token s) = _normalize_address_token s.
Proof.
  intros H1 H2 H3 H4.
  pose proof (normalize_token_chars s) as Ht.
  set (t := _normalize_address_token s) in *.
  assert (HS : Forall stable t).
  { rewrite Forall_forall in *. intros c Hc. now apply Ht. }
  assert (HA : absent cp_A_tilde t).
  { unfold absent. rewrite Forall_forall in *. intros c Hc ->.
    now apply A_tilde_not_stable, HS. }
  assert (Hne : forall c, (forall x, token_char stable x -> x <> c) -> absent c t)
    by (intros c Hc; now apply token_chars_absent).
  unfold _normalize_address_token at 1. cbv zeta.
  rewrite (fix_mojibake_fixed t)
    by (try assumption; apply Hne; unfold token_char; tauto).
  rewrite (lower_fixes_stable t HS).
  rewrite (map_umlauts_fixed t) by (apply Hne; unfold token_char; tauto).
  rewrite (collapse_fixed t)
    by (try assumption; apply Hne; unfold token_char; tauto).
  apply remove_separators_fixed; apply Hne; unfold token_char; tauto.
Qed.

End NormalizeTwice.

(** [latin_runtime] meets the assumptions on [str.lower]. *)

Ltac range_cases :=
  unfold in_range in *;
  repeat match goal with
         | H : _ || _ = true |- _ => apply orb_true_iff in H; destruct H as [H|H]
         | H : _ && _ = true |- _ => apply andb_true_iff in H; destruct H as [? ?]
         | H : _ || _ = false |- _ => apply orb_false_iff in H; destruct H as [? ?]
         | H : _ && _ = false |- _ => apply andb_false_iff in H; destruct H as [H|H]
         | H : N.leb _ _ = true |- _ => apply N.leb_le in H
         | H : N.leb _ _ = false |- _ => apply N.leb_gt in H
         end.

Lemma latin_lower_cp_idem (c : N) : latin_lower_cp (latin_lower_cp c) = latin_lower_cp c.
Proof.
  unfold latin_lower_cp.
  destruct (in_range 65 90 c || in_range 192 214 c || in_range 216 222 c) eqn:E;
    [|now rewrite E].
  destruct (in_range 65 90 (c + 32) || in_range 192 214 (c + 32)
            || in_range 216 222 (c + 32)) eqn:E'; [|reflexivity].
  exfalso. range_cases; lia.
Qed.

Lemma latin_lower_gives_stable (s : pystr) : Forall latin_stable (latin_lower s).
Proof.
  unfold latin_lower. apply Forall_forall. intros c Hc.
  apply in_map_iff in Hc as (x & <- & _). apply latin_lower_cp_idem.
Qed.

Lemma latin_lower_fixes_stable (s : pystr) :
  Forall latin_stable s -> latin_lower s = s.
Proof.
  induction 1 as [|c s Hc _ IH]; simpl; [reflexivity|]. now rewrite Hc, IH.
Qed.

Lemma latin_ascii_lower_stable (c : N) : in_range 97 122 c = true -> latin_stable c.
Proof.
  unfold latin_stable, latin_lower_cp. intros H.
  destruct (in_range 65 90 c || in_range 192 214 c || in_range 216 222 c) eqn:E;
    [|reflexivity].
  exfalso. range_cases; lia.
Qed.

Lemma latin_A_tilde_not_stable : ~ latin_stable cp_A_tilde.
Proof. unfold latin_stable. vm_compute. discriminate. Qed.

Lemma latin_lower_keeps_replacement_out (s : pystr) :
  absent cp_replacement s -> absent cp_replacement (latin_lower s).
Proof.
  unfold absent, latin_lower. induction 1 as [|c s Hc _ IH]; simpl; constructor;
    [|assumption].
  unfold latin_lower_cp, cp_replacement in *.
  destruct (in_range 65 90 c || in_range 192 214 c || in_range 216 222 c) eqn:E;
    [|assumption].
  range_cases; lia.
Qed.

(** C7, an instance of the amended statement: "Hauptstr. 5" normalizes to
    "hauptstr5", which contains no street word and is normalized to
    itself. *)
Lemma normalize_idempotent_witness :
  (contains w_strasse (@_normalize_address_token R (lit "Hauptstr. 5")) = false
   /\ contains w_strase (@_normalize_address_token R (lit "Hauptstr. 5")) = false
   /\ contains w_strabe (@_normalize_address_token R (lit "Hauptstr. 5")) = false
   /\ contains w_str_dot (@_normalize_address_token R (lit "Hauptstr. 5")) = false)
  /\ @_normalize_address_token R (@_normalize_address_token R (lit "Hauptstr. 5"))
     = @_normalize_address_token R (lit "Hauptstr. 5").
Proof.
  split.
  - repeat split; reflexivity.
  - apply (@normalize_idempotent_without_street_word R latin_stable
             latin_lower_gives_stable latin_lower_fixes_stable
             latin_ascii_lower_stable latin_A_tilde_not_stable
             latin_lower_keeps_replacement_out); reflexivity.
Defined.

(** C7 as stated fails: "Hauptstr . 5" normalizes to "hauptstr.5", where
    removing the space has put the street word "str." together, and
    normalizing again gives "hauptstr5". *)
Lemma normalize_twice_differs :
  @_normalize_address_token R (@_normalize_address_token R (lit "Hauptstr . 5"))
  <> @_normalize_address_token R (lit "Hauptstr . 5").
Proof. vm_compute. discriminate. Qed.

(** ** The general matcher *)

Section GeneralMatcher.

Context {rt : PyRuntime}.

Lemma prefer_incl (rs preferred : list row) :
  incl preferred rs -> incl (prefer rs preferred) rs.
Proof. intros H. destruct preferred; simpl; [apply incl_refl | exact H]. Qed.

Lemma filter_incl' {A} (f : A -> bool) (l : list A) : incl (filter f l) l.
Proof. intros x Hx. now apply filter_In in Hx. Qed.

Lemma narrow_by_score_incl (score : row -> nat) (rs : list row) :
  incl (narrow_by_score score rs) rs.
Proof.
  unfold narrow_by_score.
  destruct (Nat.ltb 0 (list_max (map score rs))); [apply filter_incl' | apply incl_refl].
Qed.

Lemma company_step_incl df frame iln_company cands :
  incl (company_step df frame iln_company cands) cands.
Proof.
  unfold company_step.
  destruct (truthy iln_company && more_than_one cands); [|apply incl_refl].
  destruct (_company_tokens (or_empty iln_company));
    [apply incl_refl | apply narrow_by_score_incl].
Qed.

Lemma filiale_step_incl df frame hint cands :
  incl (filiale_step df frame hint cands) cands.
Proof.
  unfold filiale_step.
  destruct (truthy hint && negb (str_eqb (strip (or_empty hint)) [])
            && more_than_one cands); [|apply incl_refl].
  destruct (dedup (get_tokens (strip (or_empty hint))));
    [apply incl_refl | apply narrow_by_score_incl].
Qed.

Lemma hint_step_incl df frame client_hint kom_name cands :
  incl (hint_step df frame client_hint kom_name cands) cands.
Proof.
  unfold hint_step.
  destruct (strip (join (lit " ") [client_hint; or_empty kom_name]));
    [apply incl_refl | apply narrow_by_score_incl].
Qed.

Lemma joop_step_incl df frame is_joop cands :
  incl (joop_step df frame is_joop cands) cands.
Proof.
  unfold joop_step. destruct is_joop; apply prefer_incl, filter_incl'.
Qed.

Lemma einrichtungshaus_step_incl df frame cands l :
  einrichtungshaus_step df frame cands = Ok l -> incl l cands.
Proof.
  unfold einrichtungshaus_step.
  destruct (more_than_one cands).
  - destruct (has_column df Name2); [|discriminate].
    intros H. injection H as <-. apply prefer_incl, filter_incl'.
  - intros H. injection H as <-. apply incl_refl.
Qed.

Lemma plz_step_incl df frame plz cands l :
  plz_step df frame plz cands = Ok l -> incl l cands.
Proof.
  unfold plz_step. destruct cands as [|c cands].
  - intros H. injection H as <-. apply incl_refl.
  - destruct (truthy plz).
    + destruct (has_column df Postleitzahl); [|discriminate].
      intros H. injection H as <-.
      exact (prefer_incl (c :: cands) (filter (frame_plz_equal frame plz) (c :: cands))
               (filter_incl' _ _)).
    + intros H. injection H as <-. apply incl_refl.
Qed.

(** The cascade only narrows: what it keeps was a candidate. *)
Lemma tie_break_cascade_incl df frame ic ifh hint kom joop cands l :
  tie_break_cascade df frame ic ifh hint kom joop cands = Ok l -> incl l cands.
Proof.
  unfold tie_break_cascade. intros H.
  apply einrichtungshaus_step_incl in H.
  eapply incl_tran; [exact H|].
  eapply incl_tran; [apply joop_step_incl|].
  eapply incl_tran; [apply hint_step_incl|].
  eapply incl_tran; [apply filiale_step_incl|].
  apply company_step_incl.
Qed.

Lemma final_selection_Some df frame plz warnings final r :
  fst (final_selection df frame plz warnings final) = Ok (Some r) ->
  exists best, In best final /\ r = frame_result frame best
               /\ strip (adressnummer r) = lit "0".
Proof.
  unfold final_selection. destruct final as [|best rest]; [discriminate|].
  destruct (str_eqb (strip (replace (lit ".0") []
                              (frame_get_str df frame best Adressnummer)))
                    (lit "0")) eqn:E; simpl; [|discriminate].
  destruct (has_column df Kundennummer); simpl; [|discriminate].
  destruct (has_column df Adressnummer) eqn:HA; simpl; [|discriminate].
  destruct (has_column df Tour); simpl; [|discriminate].
  intros H. injection H as <-.
  exists best. split; [now left|]. split; [reflexivity|].
  simpl. apply str_eqb_eq in E. unfold frame_get_str in E. now rewrite HA in E.
Qed.

(** A match selected from candidates is built from one of them, and its
    stripped [Adressnummer] is "0". *)
Lemma select_match_Some df plz ic ifh hint kom joop warnings cands r :
  fst (select_match df plz ic ifh hint kom joop warnings cands) = Ok (Some r) ->
  exists best, In best cands /\ r = frame_result cands best
               /\ strip (adressnummer r) = lit "0".
Proof.
  unfold select_match.
  destruct (plz_step df cands plz cands) as [cand_df|e] eqn:E1; [|discriminate].
  destruct (tie_break_cascade df cands ic ifh hint kom joop cand_df) as [final|e] eqn:E2;
    [|discriminate].
  intros H. apply final_selection_Some in H as (best & Hin & Hr & H0).
  exists best. split; [|now split].
  apply (plz_step_incl _ _ _ _ _ E1), (tie_break_cascade_incl _ _ _ _ _ _ _ _ _ E2), Hin.
Qed.

Lemma filter_nil_false {A} (f : A -> bool) (l : list A) (x : A) :
  filter f l = [] -> In x l -> f x = false.
Proof.
  intros H Hx. destruct (f x) eqn:E; [|reflexivity].
  assert (Hin : In x (filter f l)) by (apply filter_In; now split).
  rewrite H in Hin. destruct Hin.
Qed.

Lemma filter_head_true {A} (f : A -> bool) (l : list A) (x : A) (rest : list A) :
  filter f l = x :: rest -> In x l /\ f x = true.
Proof.
  intros H. apply filter_In. rewrite H. now left.
Qed.

(** The customer-number-hint fallback answers with an [Adressnummer] 0 row
    of the hinted customer when an eligible one exists. *)
Lemma hint_fallback_address_number df k r :
  hint_fallback df k = Some r ->
  strip (adressnummer r) = lit "0"
  \/ (has_column df Adressnummer = true ->
      forall x, In x (rows df) -> verband_ok x = true ->
        str_eqb (_clean_num (clean_cell x Kundennummer)) (_clean_num (or_empty k)) = true ->
        adressnummer_is_zero x = false).
Proof.
  unfold hint_fallback. destruct k as [[|c k]|]; try discriminate.
  unfold _match_by_kundennummer_fallback, or_empty.
  destruct (has_column df Kundennummer); simpl; [|discriminate].
  destruct (has_column df Verband); simpl; [|discriminate].
  set (mask := fun r0 : row =>
         str_eqb (_clean_num (clean_cell r0 Kundennummer)) (_clean_num (c :: k))).
  destruct (filter verband_ok (filter mask (rows df))) as [|first rest] eqn:Esub;
    [discriminate|].
  destruct (has_column df Adressnummer) eqn:HA.
  - destruct (filter adressnummer_is_zero (first :: rest)) as [|zero zs] eqn:Ez.
    + intros _. right. intros _ x Hx Hv Hm.
      apply (filter_nil_false _ _ x Ez). rewrite <- Esub.
      apply filter_In. split; [|assumption]. apply filter_In. now split.
    + intros H. injection H as <-. left. simpl.
      apply filter_head_true in Ez as [_ Hz].
      unfold adressnummer_is_zero, clean_cell in Hz. apply str_eqb_eq in Hz.
      unfold get_str. now rewrite HA.
  - intros _. right. discriminate.
Qed.

Lemma plz_prefilter_incl df plz subset : incl (plz_prefilter df plz subset) subset.
Proof.
  unfold plz_prefilter. destruct (truthy plz && has_column df Postleitzahl);
    [|apply incl_refl].
  destruct (filter (plz_equal plz) subset) eqn:E; [apply incl_refl|].
  rewrite <- E. apply filter_incl'.
Qed.

Lemma address_candidates_incl fuzz df addr_clean plz subset :
  incl (address_candidates fuzz df addr_clean plz subset) subset.
Proof.
  unfold address_candidates.
  destruct (strict_candidates df addr_clean subset) eqn:E.
  - destruct fuzz; [apply filter_incl' | intros x []].
  - rewrite <- E. apply filter_incl'.
Qed.

Lemma address_subset_rows df plz subset x :
  address_subset df plz = Ok (Some subset) -> In x subset ->
  has_column df Adressnummer = true /\ has_column df Verband = true
  /\ In x (rows df) /\ verband_ok x = true /\ adressnummer_is_zero x = true.
Proof.
  unfold address_subset.
  destruct (has_column df Adressnummer); simpl; [|discriminate].
  destruct (has_column df Verband); simpl; [|discriminate].
  intros H Hx. injection H as <-.
  apply plz_prefilter_incl in Hx. apply filter_In in Hx as [Hx Hv].
  apply filter_In in Hx as [Hx Hz]. auto.
Qed.

Lemma list_max_attained (l : list nat) : 0 < list_max l -> In (list_max l) l.
Proof.
  induction l as [|x l IH]; simpl; [lia|]. intros H.
  destruct (Nat.max_spec x (list_max l)) as [[Hlt ->]|[Hle ->]].
  - right. apply IH. lia.
  - now left.
Qed.

Lemma narrow_by_score_nonempty (score : row -> nat) (rs : list row) :
  rs <> [] -> narrow_by_score score rs <> [].
Proof.
  intros Hne. unfold narrow_by_score.
  destruct (Nat.ltb_spec 0 (list_max (map score rs))) as [Hpos|_]; [|assumption].
  apply list_max_attained, in_map_iff in Hpos as (r & Hr & Hin).
  intros Hnil.
  assert (H : In r (filter (fun r0 => Nat.eqb (score r0) (list_max (map score rs))) rs))
    by (apply filter_In; split; [assumption | now apply Nat.eqb_eq]).
  rewrite Hnil in H. destruct H.
Qed.

Lemma prefer_nonempty (rs preferred : list row) : rs <> [] -> prefer rs preferred <> [].
Proof. intros H. destruct preferred; simpl; [assumption | discriminate]. Qed.

(** No stage of the cascade discards every candidate. *)
Lemma tie_break_cascade_nonempty df frame ic ifh hint kom joop cands :
  has_column df Name2 = true -> cands <> [] ->
  exists final, tie_break_cascade df frame ic ifh hint kom joop cands = Ok final
                /\ final <> [].
Proof.
  intros HN Hne. unfold tie_break_cascade.
  assert (H1 : company_step df frame ic cands <> []).
  { unfold company_step. destruct (truthy ic && more_than_one cands); [|assumption].
    destruct (_company_tokens (or_empty ic)); [assumption|].
    now apply narrow_by_score_nonempty. }
  set (c1 := company_step df frame ic cands) in *.
  assert (H2 : filiale_step df frame ifh c1 <> []).
  { unfold filiale_step.
    destruct (truthy ifh && negb (str_eqb (strip (or_empty ifh)) []) && more_than_one c1);
      [|assumption].
    destruct (dedup (get_tokens (strip (or_empty ifh)))); [assumption|].
    now apply narrow_by_score_nonempty. }
  set (c2 := filiale_step df frame ifh c1) in *.
  assert (H3 : hint_step df frame hint kom c2 <> []).
  { unfold hint_step. destruct (strip (join (lit " ") [hint; or_empty kom]));
      [assumption | now apply narrow_by_score_nonempty]. }
  set (c3 := hint_step df frame hint kom c2) in *.
  assert (H4 : joop_step df frame joop c3 <> []).
  { unfold joop_step. destruct joop; now apply prefer_nonempty. }
  set (c4 := joop_step df frame joop c3) in *.
  unfold einrichtungshaus_step. rewrite HN.
  destruct (more_than_one c4); eexists; split; try reflexivity; try assumption.
  now apply prefer_nonempty.
Qed.

(** Putting ".0" after a text does not change what is left of it when
    every ".0" is removed. *)
Lemma replace_dot0_app_go (s : pystr) :
  forall skip, skip <= length s ->
    replace_go (lit ".0") [] skip (s ++ lit ".0") = replace_go (lit ".0") [] skip s.
Proof.
  induction s as [|c s IH]; intros skip Hskip.
  - destruct skip; [reflexivity|simpl in Hskip; lia].
  - destruct skip as [|k].
    + change (lit ".0") with [46%N; 48%N] in *. cbn [app replace_go].
      destruct s as [|y s].
      * cbn [app startswith length Nat.sub].
        destruct (N.eqb 46 c); simpl; reflexivity.
      * cbn [app startswith length Nat.sub].
        destruct (N.eqb 46 c && (N.eqb 48 y && true)).
        -- cbn [app]. apply (IH 1). simpl. lia.
        -- f_equal. apply (IH 0). lia.
    + cbn [app replace_go]. apply IH. simpl in Hskip. lia.
Qed.

Lemma replace_dot0_app (s : pystr) :
  replace (lit ".0") [] (s ++ lit ".0") = replace (lit ".0") [] s.
Proof. unfold replace. apply replace_dot0_app_go. lia. Qed.

(** An [Adressnummer] that is cleaned to "0" is cleaned to "0" in the frame
    of the candidates as well. *)
Lemma frame_adressnummer_zero (frame : list row) (x : row) :
  adressnummer_is_zero x = true ->
  strip (replace (lit ".0") [] (frame_cell_str frame x Adressnummer)) = lit "0".
Proof.
  unfold adressnummer_is_zero, clean_cell. intros H. apply str_eqb_eq in H.
  unfold frame_cell_str.
  destruct (float_column frame Adressnummer && cell_is_int (x Adressnummer));
    [|exact H].
  unfold float_text. rewrite H.
  change (Nat.leb (length (lit "0")) 15) with true.
  cbv iota. now rewrite replace_dot0_app.
Qed.

(** The selection from a non-empty list of [Adressnummer] 0 rows of a table
    that has its columns gives a match, built from one of them. *)
Lemma select_match_gives df plz ic ifh hint kom joop warnings cands :
  cands <> [] ->
  (forall x, In x cands -> adressnummer_is_zero x = true) ->
  has_column df Adressnummer = true ->
  has_column df Kundennummer = true -> has_column df Tour = true ->
  has_column df Name2 = true -> has_column df Postleitzahl = true ->
  exists r best,
    fst (select_match df plz ic ifh hint kom joop warnings cands) = Ok (Some r)
    /\ In best cands /\ r = frame_result cands best.
Proof.
  intros Hne Hzero HA HK HT HN HP. unfold select_match.
  assert (Hplz : exists l, plz_step df cands plz cands = Ok l
                           /\ l <> [] /\ incl l cands).
  { unfold plz_step. rewrite HP. destruct cands as [|c cs]; [congruence|].
    destruct (truthy plz); eexists; split; try reflexivity.
    - split; [apply prefer_nonempty; discriminate|].
      exact (prefer_incl (c :: cs) (filter (frame_plz_equal (c :: cs) plz) (c :: cs))
               (filter_incl' _ _)).
    - split; [discriminate | apply incl_refl]. }
  destruct Hplz as (l & -> & Hl & Hincl).
  destruct (tie_break_cascade_nonempty df cands ic ifh hint kom joop l HN Hl)
    as (final & Hc & Hf).
  rewrite Hc. apply tie_break_cascade_incl in Hc.
  destruct final as [|b bs]; [congruence|].
  assert (Hb : In b cands) by (apply Hincl, Hc; now left).
  unfold final_selection, frame_get_str. rewrite HA, HK, HT.
  rewrite (frame_adressnummer_zero cands b (Hzero b Hb)), str_eqb_refl. simpl.
  exists (frame_result cands b), b. repeat split. exact Hb.
Qed.

(** C1 (amended).  A match returned by [find_customer_by_address] has an
    [adressnummer] that is "0" once surrounding white space is stripped,
    unless it is the answer of the customer-number-hint fallback for a
    customer that has no eligible row with [Adressnummer] 0. *)
Theorem address_number_zero_unless_hint_fallback
    fuzz (odf : option DataFrame) address_str kundennummer kom_name is_joop
    client_hint iln_company iln_filiale_hint warnings r :
  fst (find_customer_by_address fuzz odf address_str kundennummer kom_name is_joop
         client_hint iln_company iln_filiale_hint warnings) = Ok (Some r) ->
  strip (adressnummer r) = lit "0"
  \/ exists df,
       odf = Some df /\ hint_fallback df kundennummer = Some r
       /\ (has_column df Adressnummer = true ->
           forall x, In x (rows df) -> verband_ok x = true ->
             str_eqb (_clean_num (clean_cell x Kundennummer))
                     (_clean_num (or_empty kundennummer)) = true ->
             adressnummer_is_zero x = false).
Proof.
  unfold find_customer_by_address. destruct odf as [df|]; [|discriminate].
  assert (Hfb : forall r, Ok (hint_fallback df kundennummer) = Ok (Some r) ->
                strip (adressnummer r) = lit "0"
                \/ exists df0, Some df = Some df0 /\ hint_fallback df0 kundennummer = Some r
                     /\ (has_column df0 Adressnummer = true ->
                         forall x, In x (rows df0) -> verband_ok x = true ->
                           str_eqb (_clean_num (clean_cell x Kundennummer))
                                   (_clean_num (or_empty kundennummer)) = true ->
                           adressnummer_is_zero x = false)).
  { intros r0 H. injection H as H.
    destruct (hint_fallback_address_number df kundennummer r0 H) as [H0|H0];
      [now left | right; exists df; auto]. }
  destruct (strip address_str) as [|a addr]; [apply Hfb|].
  destruct (address_subset df (plz_of_address (a :: addr))) as [[subset|]|e];
    try discriminate.
  destruct (address_candidates fuzz df (address_clean (a :: addr) iln_company)
              (plz_of_address (a :: addr)) subset) as [|c cs]; [apply Hfb|].
  intros H. apply select_match_Some in H as (best & _ & _ & H0). now left.
Qed.

(** C3.  When the strict street-and-city pass finds a candidate, the result
    is what the postal-code re-ranking and the tie-break cascade select from
    the strict candidates; the scorer of the fuzzy fallback does not occur
    in it, whichever one is installed. *)
Theorem strict_candidates_take_precedence
    fuzz df address_str kundennummer kom_name is_joop client_hint iln_company
    iln_filiale_hint warnings subset :
  strip address_str <> [] ->
  address_subset df (plz_of_address (strip address_str)) = Ok (Some subset) ->
  strict_candidates df (address_clean (strip address_str) iln_company) subset <> [] ->
  find_customer_by_address fuzz (Some df) address_str kundennummer kom_name is_joop
    client_hint iln_company iln_filiale_hint warnings
  = select_match df (plz_of_address (strip address_str)) iln_company iln_filiale_hint
      client_hint kom_name is_joop warnings
      (strict_candidates df (address_clean (strip address_str) iln_company) subset).
Proof.
  intros Haddr Hsub Hstrict. unfold find_customer_by_address.
  destruct (strip address_str) as [|a addr]; [congruence|].
  rewrite Hsub. unfold address_candidates.
  destruct (strict_candidates df (address_clean (a :: addr) iln_company) subset)
    as [|c cs]; [congruence|].
  destruct fuzz; reflexivity.
Qed.

(** C10.  Without [rapidfuzz] the fuzzy stage is skipped: the function
    selects from the strict candidates, or, when there are none, answers
    with the customer-number-hint fallback.  A returned match is the
    fallback's or is read, in the frame of the strict candidates, from a row
    whose street and city are contained in the address; and when there is a
    strict candidate and the table has its columns, such a match is
    returned. *)
Theorem no_fuzzy_stage_without_rapidfuzz
    df address_str kundennummer kom_name is_joop client_hint iln_company
    iln_filiale_hint warnings :
  let call := find_customer_by_address None (Some df) address_str kundennummer kom_name
                is_joop client_hint iln_company iln_filiale_hint warnings in
  let plz := plz_of_address (strip address_str) in
  let addr_clean := address_clean (strip address_str) iln_company in
  (forall subset,
      strip address_str <> [] ->
      address_subset df plz = Ok (Some subset) ->
      call = match strict_candidates df addr_clean subset with
             | [] => (Ok (hint_fallback df kundennummer), warnings)
             | strict => select_match df plz iln_company iln_filiale_hint client_hint
                           kom_name is_joop warnings strict
             end)
  /\ (forall r,
      fst call = Ok (Some r) ->
      hint_fallback df kundennummer = Some r
      \/ exists subset best,
           address_subset df plz = Ok (Some subset)
           /\ In best subset /\ strict_match df addr_clean best = true
           /\ r = frame_result (strict_candidates df addr_clean subset) best)
  /\ (forall subset,
      strip address_str <> [] ->
      address_subset df plz = Ok (Some subset) ->
      strict_candidates df addr_clean subset <> [] ->
      has_column df Kundennummer = true -> has_column df Tour = true ->
      has_column df Name2 = true -> has_column df Postleitzahl = true ->
      exists r best,
        fst call = Ok (Some r)
        /\ In best subset /\ strict_match df addr_clean best = true
        /\ r = frame_result (strict_candidates df addr_clean subset) best).
Proof.
  cbv zeta. unfold find_customer_by_address, address_candidates. repeat split.
  - intros subset Haddr Hsub.
    destruct (strip address_str) as [|a addr]; [congruence|].
    rewrite Hsub.
    destruct (strict_candidates df (address_clean (a :: addr) iln_company) subset);
      reflexivity.
  - intros r.
    destruct (strip address_str) as [|a addr].
    { intros H. left. now injection H. }
    destruct (address_subset df (plz_of_address (a :: addr))) as [[subset|]|e];
      try discriminate.
    destruct (strict_candidates df (address_clean (a :: addr) iln_company) subset)
      as [|c cs] eqn:Es.
    { intros H. left. now injection H. }
    intros H. apply select_match_Some in H as (best & Hin & Hr & _).
    right. exists subset, best. rewrite Es. split; [reflexivity|].
    rewrite <- Es in Hin. apply filter_In in Hin as [Hin Hstrict]. auto.
  - intros subset Haddr Hsub Hstrict HK HT HN HP.
    destruct (strip address_str) as [|a addr]; [congruence|].
    rewrite Hsub.
    destruct (strict_candidates df (address_clean (a :: addr) iln_company) subset)
      as [|c cs] eqn:Es; [congruence|].
    assert (Hrows : forall x, In x (c :: cs) ->
                      In x subset
                      /\ strict_match df (address_clean (a :: addr) iln_company) x = true).
    { intros x Hx. rewrite <- Es in Hx. now apply filter_In in Hx. }
    assert (HA : has_column df Adressnummer = true).
    { destruct (Hrows c (or_introl eq_refl)) as [Hc _].
      now destruct (address_subset_rows _ _ _ _ Hsub Hc). }
    assert (Hzero : forall x, In x (c :: cs) -> adressnummer_is_zero x = true).
    { intros x Hx. destruct (Hrows x Hx) as [Hx' _].
      now destruct (address_subset_rows _ _ _ _ Hsub Hx') as (_ & _ & _ & _ & Hz). }
    assert (Hne : c :: cs <> []) by discriminate.
    destruct (select_match_gives df (plz_of_address (a :: addr)) iln_company
                iln_filiale_hint client_hint kom_name is_joop warnings (c :: cs)
                Hne Hzero HA HK HT HN HP)
      as (r & best & Hr & Hin & Heq).
    exists r, best. destruct (Hrows best Hin). auto.
Qed.

End GeneralMatcher.

(** ** The region-restricted matcher *)

Section RegionMatcher.

Context {rt : PyRuntime}.

Lemma insert_sorted_In (x y : candidate) (l : list candidate) :
  In y (insert_sorted x l) <-> y = x \/ In y l.
Proof.
  induction l as [|z l IH]; simpl.
  - intuition.
  - destruct (key_le x z); simpl; [intuition|]. rewrite IH. intuition.
Qed.

(** Sorting keeps the candidates. *)
Lemma sort_candidates_In (y : candidate) (l : list candidate) :
  In y (sort_candidates l) <-> In y l.
Proof.
  unfold sort_candidates. induction l as [|x l IH]; simpl; [tauto|].
  rewrite insert_sorted_In, IH. intuition.
Qed.

Lemma momax_candidate_row fuzz df address_str r c :
  momax_candidate fuzz df address_str r = Some c -> cand_row c = r.
Proof.
  unfold momax_candidate.
  repeat match goal with
         | |- (if ?b then _ else _) = _ -> _ => destruct b; [discriminate|]
         | |- (if ?b then _ else _) = _ -> _ => destruct b; [|discriminate]
         end.
  intros H. injection H as <-. reflexivity.
Qed.

Lemma momax_candidates_In fuzz df address_str rs c :
  In c (momax_candidates fuzz df address_str rs) ->
  In (cand_row c) rs /\ momax_candidate fuzz df address_str (cand_row c) = Some c.
Proof.
  unfold momax_candidates. rewrite in_flat_map. intros (r & Hr & Hc).
  destruct (momax_candidate fuzz df address_str r) as [c'|] eqn:E; [|destruct Hc].
  destruct Hc as [<-|[]].
  rewrite (momax_candidate_row _ _ _ _ _ E). now split.
Qed.

(** The cleaned allowlist is the allowlist, where the decimal digits are not
    white space. *)
Lemma cleaned_allowlist :
  (forall c, in_range 48 57 c = true -> is_space c = false) ->
  map _clean_kdnr MOMAX_BG_ALLOWED_KUNDENNUMMERN = MOMAX_BG_ALLOWED_KUNDENNUMMERN.
Proof.
  intros Hd.
  assert (H6 : is_space 54 = false) by now apply Hd.
  assert (H5 : is_space 53 = false) by now apply Hd.
  assert (H7 : is_space 55 = false) by now apply Hd.
  assert (H8 : is_space 56 = false) by now apply Hd.
  assert (H9 : is_space 57 = false) by now apply Hd.
  assert (H1 : is_space 49 = false) by now apply Hd.
  cbv [MOMAX_BG_ALLOWED_KUNDENNUMMERN map _clean_kdnr strip strip_by rstrip_by].
  cbn. rewrite H6. cbn. rewrite H5, H6, H7, H8, H9, H1. reflexivity.
Qed.

(** C4.  The region-restricted matcher returns only customer numbers whose
    cleaned form is in the allowlist, and returns [None] when the
    allowlist-filtered subset is empty; the general matcher takes no part in
    it. *)
Theorem momax_result_in_allowlist fuzz (odf : option DataFrame) address_str :
  (forall c, in_range 48 57 c = true -> is_space c = false) ->
  (forall r,
      find_momax_bg_customer_by_address fuzz odf address_str = Some r ->
      In (_clean_kdnr (kundennummer r)) MOMAX_BG_ALLOWED_KUNDENNUMMERN)
  /\ (forall df,
      odf = Some df -> momax_subset df = Some [] ->
      find_momax_bg_customer_by_address fuzz odf address_str = None).
Proof.
  intros Hd. split.
  - intros r. unfold find_momax_bg_customer_by_address.
    destruct odf as [df|]; [|discriminate].
    destruct (strip address_str) as [|a addr]; [discriminate|].
    destruct (momax_subset df) as [subset|] eqn:Esub; [|discriminate].
    destruct (sort_candidates (momax_candidates fuzz df (a :: addr) subset))
      as [|best rest] eqn:Es; [discriminate|].
    intros H. injection H as <-. simpl.
    assert (Hb : In best (sort_candidates (momax_candidates fuzz df (a :: addr) subset)))
      by (rewrite Es; now left).
    apply sort_candidates_In, momax_candidates_In in Hb as [Hrow _].
    unfold momax_subset in Esub.
    destruct (has_column df Adressnummer); simpl in Esub; [|discriminate].
    destruct (has_column df Kundennummer) eqn:HK; simpl in Esub; [|discriminate].
    destruct (has_column df Verband); simpl in Esub; [|discriminate].
    injection Esub as <-. apply filter_In in Hrow as [_ Hall].
    unfold momax_allowed in Hall. apply str_in_In in Hall.
    rewrite (cleaned_allowlist Hd) in Hall.
    unfold get_str. rewrite HK. exact Hall.
  - intros df -> Hsub. unfold find_momax_bg_customer_by_address.
    destruct (strip address_str); [reflexivity|]. now rewrite Hsub.
Qed.

(** C8 (amended).  A row admitted without a strict street match and without
    fuzzy acceptance has a token-coverage score of at least 0.75, and either
    one of its house-number tokens is among those of the input or its street
    has no house-number token. *)
Theorem token_acceptance_conditions fuzz df address_str r c :
  momax_candidate fuzz df address_str r = Some c ->
  momax_street_matches df address_str r = false ->
  momax_fuzzy_accept fuzz df address_str r = false ->
  (75 # 100 <= momax_token_coverage df address_str r)%Q
  /\ (momax_house_match df address_str r = true
      \/ momax_row_house_tokens df r = []).
Proof.
  unfold momax_candidate. intros H Hs Hf. rewrite Hs, Hf in H. simpl in H.
  destruct (Nat.ltb (length (get_str df r Strasse)) 3
            || Nat.ltb (length (get_str df r Ort)) 3); [discriminate|].
  match type of H with (if ?b then _ else _) = _ => destruct b; [discriminate|] end.
  destruct (momax_token_accept df address_str r) eqn:Et; [|discriminate].
  unfold momax_token_accept in Et. rewrite Hs in Et. simpl in Et.
  apply andb_true_iff in Et as [Hcov Hhouse]. split.
  - now apply Qle_bool_iff.
  - apply orb_true_iff in Hhouse as [Hh|Hh]; [now left|right].
    destruct (momax_row_house_tokens df r); [reflexivity | discriminate].
Qed.

End RegionMatcher.

(** ** The ILN derivation *)

Section IlnDerivation.

Context {rt : PyRuntime}.

Lemma iln_candidate_Some iln candidate :
  iln_candidate iln = Some candidate ->
  candidate = slice_last 5 (iln_digits iln) /\ 4 <= length (iln_digits iln).
Proof.
  unfold iln_candidate, iln_digits. destruct iln as [|c iln]; [discriminate|].
  set (clean := replace (lit ".0") [] (strip (c :: iln))).
  destruct clean eqn:Ec; [discriminate|]. rewrite <- Ec. clear Ec.
  set (digits := re_sub re_non_digit (fun _ => []) clean).
  destruct (Nat.ltb_spec (length digits) 4); [discriminate|].
  intros H0. injection H0 as <-. split; [|assumption].
  unfold slice_last.
  destruct (length digits) as [|[|[|[|[|m]]]]]; try lia; reflexivity.
Qed.

Lemma iln_candidate_None iln :
  length (iln_digits iln) < 4 -> iln_candidate iln = None.
Proof.
  unfold iln_candidate, iln_digits. intros H. destruct iln as [|c iln]; [reflexivity|].
  destruct (replace (lit ".0") [] (strip (c :: iln))); [reflexivity|].
  apply Nat.ltb_lt in H. now rewrite H.
Qed.

(** C6.  [find_kundennummer_by_iln] returns a customer number only when the
    candidate, the last five digits of the identifier, equals after cleaning
    the customer number of a row with an eligible [Verband], and it is the
    number of such a row that it returns; when no such row exists, and in
    particular when the identifier has fewer than four digits, it returns
    [None]. *)
Theorem iln_customer_number_is_verified (odf : option DataFrame) iln :
  (forall k,
      find_kundennummer_by_iln odf iln = Some k ->
      exists df x,
        odf = Some df /\ 4 <= length (iln_digits iln)
        /\ has_column df Verband = true
        /\ In x (rows df) /\ verband_ok x = true
        /\ _clean_num (clean_cell x Kundennummer)
           = _clean_num (slice_last 5 (iln_digits iln))
        /\ k = clean_cell x Kundennummer)
  /\ ((forall df x,
         odf = Some df -> In x (rows df) -> verband_ok x = true ->
         _clean_num (clean_cell x Kundennummer)
         <> _clean_num (slice_last 5 (iln_digits iln))) ->
      find_kundennummer_by_iln odf iln = None)
  /\ (length (iln_digits iln) < 4 -> find_kundennummer_by_iln odf iln = None).
Proof.
  unfold find_kundennummer_by_iln. destruct odf as [df|];
    [|repeat split; intros; try reflexivity; discriminate].
  destruct (iln_candidate iln) as [candidate|] eqn:Ec.
  2:{ repeat split; intros; try reflexivity; discriminate. }
  apply iln_candidate_Some in Ec as [-> Hlen].
  set (candidate := slice_last 5 (iln_digits iln)).
  destruct (or_str (lstrip_by (N.eqb 48) candidate) candidate);
    [repeat split; intros; try reflexivity; discriminate|].
  destruct (has_column df Kundennummer) eqn:HK; simpl;
    [|repeat split; intros; try reflexivity; discriminate].
  destruct (has_column df Verband) eqn:HV; simpl;
    [|repeat split; intros; try reflexivity; discriminate].
  set (mask := fun r : row =>
         str_eqb (_clean_num (clean_cell r Kundennummer)) (_clean_num candidate)).
  destruct (filter verband_ok (filter mask (rows df))) as [|first rest] eqn:Ef.
  { repeat split; intros; try reflexivity; discriminate. }
  apply filter_head_true in Ef as [Hin Hv]. apply filter_In in Hin as [Hin Hm].
  unfold mask in Hm. apply str_eqb_eq in Hm.
  repeat split.
  - intros k Hk. exists df, first.
    destruct (strip (replace (lit ".0") [] (get_str df first Kundennummer))) eqn:Ek;
      [discriminate|].
    injection Hk as <-. rewrite <- Ek. unfold get_str. rewrite HK.
    repeat split; auto.
  - intros Hno. exfalso. now apply (Hno df first).
  - intros Hshort. lia.
Qed.

End IlnDerivation.

(** ** The delivery week *)

Section DeliveryWeek.

Context {rt : PyRuntime}.

Lemma min_week_spec (w : Z) (l : list Z) :
  In (min_week w l) (w :: l) /\ forall x, In x (w :: l) -> (min_week w l <= x)%Z.
Proof.
  revert w; induction l as [|y l IH]; intros w; simpl.
  - split; [now left | intros x [<-|[]]; lia].
  - destruct (IH (Z.min w y)) as [Hin Hle]. split.
    + destruct Hin as [Hin|Hin]; [|now right; right].
      rewrite <- Hin. destruct (Z.min_spec w y) as [[_ ->]|[_ ->]]; auto.
    + intros x [<-|[<-|Hx]].
      * specialize (Hle (Z.min w y) (or_introl eq_refl)). lia.
      * specialize (Hle (Z.min w y) (or_introl eq_refl)). lia.
      * apply Hle. now right.
Qed.

(** Without a requested week the choice is the least valid week from the
    earliest possible one on. *)
Lemma choose_week_no_request (valid : list Z) (ep m : Z) :
  In m valid -> (ep <= m)%Z ->
  (forall w, In w valid -> (ep <= w)%Z -> (m <= w)%Z) ->
  choose_week valid ep None = Some m.
Proof.
  intros Hin Hep Hleast. unfold choose_week, candidate_weeks. simpl.
  assert (Hm : In m (filter (fun w => Z.leb ep w) valid))
    by (apply filter_In; split; [assumption | now apply Z.leb_le]).
  destruct (filter (fun w => Z.leb ep w) valid) as [|w ws] eqn:Ef; [destruct Hm|].
  destruct (min_week_spec w ws) as [Hmin Hle]. f_equal.
  assert (Hf : In (min_week w ws) (filter (fun w => Z.leb ep w) valid))
    by now rewrite Ef.
  apply filter_In in Hf as [Hv Hge]. apply Z.leb_le in Hge.
  specialize (Hle m Hm). specialize (Hleast _ Hv Hge). lia.
Qed.

(** What the choice satisfies when a week is requested: it is a valid week
    in the window from [max(earliest, requested - 5)] to [requested + 1],
    or no valid week is in the window and it is the least valid week after
    [requested + 1]. *)
Lemma choose_week_with_request (valid : list Z) (ep req_w req_y m : Z) :
  choose_week valid ep (Some (req_w, req_y)) = Some m ->
  In m valid
  /\ ((Z.max ep (req_w - 5) <= m <= req_w + 1)%Z
      \/ ((forall w, In w valid ->
             ~ (Z.max ep (req_w - 5) <= w <= req_w + 1)%Z)
          /\ (req_w + 1 < m)%Z
          /\ forall w, In w valid -> (req_w + 1 < w)%Z -> (m <= w)%Z)).
Proof.
  unfold choose_week, candidate_weeks. simpl.
  set (inw := fun w => Z.leb (Z.max ep (req_w - 5)) w && Z.leb w (req_w + 1)).
  destruct (filter inw valid) as [|w ws] eqn:Ew.
  - set (after := fun w => Z.ltb (req_w + 1) w).
    destruct (filter after valid) as [|a rest] eqn:Ea; [discriminate|].
    intros H. injection H as <-.
    destruct (min_week_spec a rest) as [Hmin Hle]. rewrite <- Ea in Hmin, Hle.
    apply filter_In in Hmin as [Hv Hgt]. apply Z.ltb_lt in Hgt.
    split; [assumption|]. right. repeat split; [|assumption|].
    + intros x Hx Hwin.
      assert (inw x = false) by (apply (filter_nil_false inw valid); assumption).
      unfold inw in H. apply andb_false_iff in H as [H|H]; apply Z.leb_gt in H; lia.
    + intros x Hx Hgx. apply Hle. apply filter_In. split; [assumption|].
      now apply Z.ltb_lt.
  - intros H. injection H as <-.
    destruct (min_week_spec w ws) as [Hmin _]. rewrite <- Ew in Hmin.
    apply filter_In in Hmin as [Hv Hwin]. split; [assumption|]. left.
    unfold inw in Hwin. apply andb_true_iff in Hwin as [H1 H2].
    apply Z.leb_le in H1. apply Z.leb_le in H2. lia.
Qed.

(** C9.  A requested-week text from which no (week, year) pair is extracted
    changes nothing: the call returns what it returns without a requested
    week.  That is the text made of the year of the order, " Week - " and
    the two-digit number of the least valid tour week from the earliest
    possible week on; it is not the empty text. *)
Theorem unparsed_request_is_ignored tables order_date_str tour_name text :
  (forall y w, parse_isocalendar order_date_str = Some (y, w) ->
               _extract_week_year text (Some y) = Ok None) ->
  calculate_delivery_week tables order_date_str tour_name (Some text)
  = calculate_delivery_week tables order_date_str tour_name None
  /\ forall t y w col ep code m,
       tables = Some t -> order_date_str <> [] -> tour_name <> [] ->
       parse_isocalendar order_date_str = Some (y, w) ->
       resolve_tour_column t (strip tour_name) = Some col ->
       earliest_possible_week t w col = Some ep ->
       _get_schedule_code_for_tour t (strip tour_name) = Some code -> code <> [] ->
       In m (_get_valid_tour_weeks t code) -> (ep <= m)%Z ->
       (forall w', In w' (_get_valid_tour_weeks t code) -> (ep <= w')%Z -> (m <= w')%Z) ->
       calculate_delivery_week tables order_date_str tour_name (Some text)
       = Ok (str_of_Z y ++ lit " Week - "
             ++ (if (Z.leb 0 m && Z.ltb m 10)%bool
                 then lit "0" ++ str_of_Z m else str_of_Z m))
       /\ calculate_delivery_week tables order_date_str tour_name (Some text) <> Ok [].
Proof.
  intros Hreq.
  assert (Heq : calculate_delivery_week tables order_date_str tour_name (Some text)
                = calculate_delivery_week tables order_date_str tour_name None).
  { unfold calculate_delivery_week, delivery_decision.
    destruct order_date_str as [|d ds]; [reflexivity|].
    destruct tour_name as [|c cs]; [reflexivity|].
    destruct tables as [t|]; [|reflexivity].
    destruct (parse_isocalendar (d :: ds)) as [[y w]|] eqn:Ep; [|reflexivity].
    destruct (resolve_tour_column t (strip (c :: cs))); [|reflexivity].
    destruct (earliest_possible_week t w p); [|reflexivity].
    destruct (_get_schedule_code_for_tour t (strip (c :: cs))) as [[|k ks]|];
      try reflexivity.
    destruct (_get_valid_tour_weeks t (k :: ks)); [reflexivity|].
    simpl truthy. simpl or_empty.
    destruct text as [|x xs]; [reflexivity|]. cbv iota.
    now rewrite (Hreq y w eq_refl). }
  split; [exact Heq|].
  intros t y w col ep code m -> Hod Htour Hp Hcol Hep Hcode Hne Hin Hge Hleast.
  rewrite Heq. unfold calculate_delivery_week, delivery_decision.
  destruct order_date_str as [|d ds]; [congruence|].
  destruct tour_name as [|c cs]; [congruence|].
  rewrite Hp, Hcol, Hep, Hcode.
  destruct code as [|k ks]; [congruence|].
  destruct (_get_valid_tour_weeks t (k :: ks)) as [|v vs] eqn:Ev; [destruct Hin|].
  simpl truthy. cbv iota.
  rewrite (choose_week_no_request (v :: vs) ep m Hin Hge Hleast).
  split; [reflexivity|].
  unfold format_week. intros H. injection H as H.
  apply (f_equal (@length N)) in H. rewrite !length_app in H.
  change (length (lit " Week - ")) with 8 in H. simpl in H. lia.
Qed.

End DeliveryWeek.

(** ** The confidence-gated write-back *)

(** C5.  When the external call raises, or the parsed answer has a
    confidence below 0.7 or an empty customer number, the header and the
    warnings are left as they were. *)
Theorem no_write_back_below_threshold {rt : PyRuntime}
    (build_user_text : pydict -> result pystr)
    (complete_text : pystr -> pystr -> result pystr) (system_prompt : pystr)
    (header : pydict) (warnings : list pystr) :
  (forall user_text,
      build_user_text header = Ok user_text ->
      rejected_outcome (complete_text system_prompt user_text)) ->
  snd (try_ai_customer_match build_user_text complete_text system_prompt header warnings)
  = (header, warnings).
Proof.
  intros Hrej. unfold try_ai_customer_match.
  destruct (should_try_ai_customer_match header warnings) as [[|]|e]; try reflexivity.
  destruct (build_user_text header) as [user_text|e] eqn:Eb; [|reflexivity].
  specialize (Hrej user_text eq_refl). unfold _call_ai_match.
  destruct (complete_text system_prompt user_text) as [text|e]; [|reflexivity].
  destruct Hrej as (r & -> & [Hlow|Hempty]).
  - now rewrite Hlow.
  - rewrite Hempty. now destruct (float_lt (ai_confidence r) _CONFIDENCE_THRESHOLD).
Qed.

(** C5, an instance: the answer with confidence 0.69 leaves the header
    without a customer number as it is. *)
Lemma no_write_back_witness :
  (forall user_text,
      context_only header_without_customer = Ok user_text ->
      @rejected_outcome R (always_answers (answer_text "0.69") [] user_text))
  /\ snd (@try_ai_customer_match R context_only (always_answers (answer_text "0.69")) []
            header_without_customer [])
     = (header_without_customer, []).
Proof.
  assert (H : forall user_text,
             context_only header_without_customer = Ok user_text ->
             @rejected_outcome R (always_answers (answer_text "0.69") [] user_text)).
  { intros user_text _. simpl. eexists. split; [vm_compute; reflexivity|].
    left. vm_compute. reflexivity. }
  split; [exact H|].
  exact (@no_write_back_below_threshold R context_only
           (always_answers (answer_text "0.69")) [] header_without_customer [] H).
Defined.

(** At the threshold itself the answer is written back. *)
Example write_back_at_threshold :
  exists header',
    @try_ai_customer_match R context_only (always_answers (answer_text "0.7")) []
      header_without_customer []
    = (Ok tt, (header', [ai_warning]))
    /\ dict_get header' (lit "kundennummer")
       = Some (derived_entry (lit "4711") (FNum float_0_7)).
Proof. eexists. split; vm_compute; reflexivity. Qed.

(** ** Instances and counterexamples *)

#[local] Existing Instance R.

Lemma latin_digits_not_space (c : N) : in_range 48 57 c = true -> @is_space R c = false.
Proof.
  intros H. change (@is_space R c) with (latin_is_space c). unfold latin_is_space.
  destruct (in_range 9 13 c || in_range 28 32 c || N.eqb c 133 || N.eqb c 160) eqn:E;
    [|reflexivity].
  exfalso. range_cases; try lia;
    match goal with H : N.eqb _ _ = true |- _ => apply N.eqb_eq in H; lia end.
Qed.

(** C1 as stated fails: for an address no row matches and the hint 4712,
    the fallback answers with the only row of that customer, whose
    [Adressnummer] is 5. *)
Lemma hint_fallback_returns_sub_address :
  exists r,
    fst (@find_customer_by_address R None (Some customers) addr_unknown
           (Some (lit "4712")) None false [] None None None) = Ok (Some r)
    /\ adressnummer r = lit "5"
    /\ adressnummer r <> lit "0".
Proof.
  eexists. split; [vm_compute; reflexivity|]. split; [reflexivity|].
  vm_compute. discriminate.
Qed.

(** C1, an instance of the amended statement: "Hauptstraße 5, 80331 München"
    is matched to the main address of customer 4711. *)
Lemma address_number_zero_witness :
  fst (@find_customer_by_address R None (Some customers) addr_hauptstrasse
         None None false [] None None None) = Ok (Some (match_of_row row_4711))
  /\ (@strip R (adressnummer (match_of_row row_4711)) = lit "0"
      \/ exists df : @DataFrame R,
           Some customers = Some df /\ hint_fallback df None = Some (match_of_row row_4711)
           /\ (has_column df Adressnummer = true ->
               forall x, In x (rows df) -> verband_ok x = true ->
                 str_eqb (_clean_num (clean_cell x Kundennummer))
                         (_clean_num (or_empty None)) = true ->
                 adressnummer_is_zero x = false)).
Proof.
  split; [vm_compute; reflexivity|].
  apply (@address_number_zero_unless_hint_fallback R None (Some customers)
           addr_hauptstrasse None None false [] None None None).
  vm_compute. reflexivity.
Defined.

(** C3, an instance: with a scorer installed that would accept every row,
    the strict candidate for "Hauptstraße 5, 80331 München" decides. *)
Lemma strict_candidates_witness :
  (@strip R addr_hauptstrasse <> []
   /\ address_subset customers (plz_of_address (@strip R addr_hauptstrasse))
      = Ok (Some [row_4711])
   /\ strict_candidates customers (address_clean (@strip R addr_hauptstrasse) None)
        [row_4711] <> [])
  /\ @find_customer_by_address R eager_fuzz (Some customers) addr_hauptstrasse
       None None false [] None None None
     = select_match customers (plz_of_address (@strip R addr_hauptstrasse)) None None
         [] None false None
         (strict_candidates customers (address_clean (@strip R addr_hauptstrasse) None)
            [row_4711]).
Proof.
  assert (H1 : @strip R addr_hauptstrasse <> []) by (vm_compute; discriminate).
  assert (H2 : address_subset customers (plz_of_address (@strip R addr_hauptstrasse))
               = Ok (Some [row_4711])) by (vm_compute; reflexivity).
  assert (H3 : strict_candidates customers
                 (address_clean (@strip R addr_hauptstrasse) None) [row_4711] <> [])
    by (vm_compute; discriminate).
  split; [repeat split; assumption|].
  exact (@strict_candidates_take_precedence R eager_fuzz customers addr_hauptstrasse
           None None false [] None None None [row_4711] H1 H2 H3).
Defined.

(** C10, two instances without [rapidfuzz].  "Hauptstraße 5, 80331 München"
    has the strict candidate of customer 4711, which is returned; the
    unknown address with the hint 4712 is answered by the fallback. *)
Lemma no_fuzzy_stage_witness :
  ((@strip R addr_hauptstrasse <> []
    /\ address_subset customers (plz_of_address (@strip R addr_hauptstrasse))
       = Ok (Some [row_4711])
    /\ strict_candidates customers (address_clean (@strip R addr_hauptstrasse) None)
         [row_4711] <> [])
   /\ exists r best,
        fst (@find_customer_by_address R None (Some customers) addr_hauptstrasse
               None None false [] None None None) = Ok (Some r)
        /\ In best [row_4711]
        /\ strict_match customers (address_clean (@strip R addr_hauptstrasse) None) best
           = true
        /\ r = frame_result
                 (strict_candidates customers
                    (address_clean (@strip R addr_hauptstrasse) None) [row_4711])
                 best)
  /\ (fst (@find_customer_by_address R None (Some customers) addr_unknown
             (Some (lit "4712")) None false [] None None None)
      = Ok (Some {| kundennummer := lit "4712"; adressnummer := lit "5";
                    tour := lit "W1" |})
      /\ (hint_fallback customers (Some (lit "4712"))
          = Some {| kundennummer := lit "4712"; adressnummer := lit "5";
                    tour := lit "W1" |}
          \/ exists subset best,
               address_subset customers (plz_of_address (@strip R addr_unknown))
               = Ok (Some subset)
               /\ In best subset
               /\ strict_match customers (address_clean (@strip R addr_unknown) None) best
                  = true
               /\ {| kundennummer := lit "4712"; adressnummer := lit "5";
                     tour := lit "W1" |}
                  = frame_result
                      (strict_candidates customers
                         (address_clean (@strip R addr_unknown) None) subset)
                      best)).
Proof.
  assert (H1 : @strip R addr_hauptstrasse <> []) by (vm_compute; discriminate).
  assert (H2 : address_subset customers (plz_of_address (@strip R addr_hauptstrasse))
               = Ok (Some [row_4711])) by (vm_compute; reflexivity).
  assert (H3 : strict_candidates customers
                 (address_clean (@strip R addr_hauptstrasse) None) [row_4711] <> [])
    by (vm_compute; discriminate).
  assert (H4 : fst (@find_customer_by_address R None (Some customers) addr_unknown
                      (Some (lit "4712")) None false [] None None None)
               = Ok (Some {| kundennummer := lit "4712"; adressnummer := lit "5";
                             tour := lit "W1" |})) by (vm_compute; reflexivity).
  split.
  - split; [repeat split; assumption|].
    exact (proj2 (proj2 (@no_fuzzy_stage_without_rapidfuzz R customers addr_hauptstrasse
                           None None false [] None None None))
             [row_4711] H1 H2 H3 eq_refl eq_refl eq_refl eq_refl).
  - split; [exact H4|].
    exact (proj1 (proj2 (@no_fuzzy_stage_without_rapidfuzz R customers addr_unknown
                           (Some (lit "4712")) None false [] None None None)) _ H4).
Defined.

(** C4, an instance: the allowlisted customer 68935 is returned. *)
Lemma momax_result_witness :
  @find_momax_bg_customer_by_address R None (Some momax_customers) addr_vitosha
  = Some {| kundennummer := lit "68935"; adressnummer := lit "0"; tour := lit "B1" |}
  /\ In (@_clean_kdnr R (lit "68935")) MOMAX_BG_ALLOWED_KUNDENNUMMERN.
Proof.
  split; [vm_compute; reflexivity|].
  apply (proj1 (@momax_result_in_allowlist R None (Some momax_customers) addr_vitosha
                  latin_digits_not_space)
           {| kundennummer := lit "68935"; adressnummer := lit "0"; tour := lit "B1" |}).
  vm_compute. reflexivity.
Defined.

(** C8 as stated fails: "Vitosha blvd" is admitted for "Vitosha bulevard 12,
    1000 Sofia" by token coverage alone, without any house-number token in
    common. *)
Lemma token_acceptance_without_house_number :
  momax_candidate None momax_customers addr_vitosha row_68935 = Some cand_68935
  /\ momax_street_matches momax_customers addr_vitosha row_68935 = false
  /\ momax_fuzzy_accept None momax_customers addr_vitosha row_68935 = false
  /\ momax_house_match momax_customers addr_vitosha row_68935 = false.
Proof. repeat split; vm_compute; reflexivity. Qed.

(** C8, an instance of the amended statement. *)
Lemma token_acceptance_witness :
  (momax_candidate None momax_customers addr_vitosha row_68935 = Some cand_68935
   /\ momax_street_matches momax_customers addr_vitosha row_68935 = false
   /\ momax_fuzzy_accept None momax_customers addr_vitosha row_68935 = false)
  /\ ((75 # 100 <= momax_token_coverage momax_customers addr_vitosha row_68935)%Q
      /\ (momax_house_match momax_customers addr_vitosha row_68935 = true
          \/ momax_row_house_tokens momax_customers row_68935 = [])).
Proof.
  assert (H1 : momax_candidate None momax_customers addr_vitosha row_68935
               = Some cand_68935) by (vm_compute; reflexivity).
  assert (H2 : momax_street_matches momax_customers addr_vitosha row_68935 = false)
    by (vm_compute; reflexivity).
  assert (H3 : momax_fuzzy_accept None momax_customers addr_vitosha row_68935 = false)
    by (vm_compute; reflexivity).
  split; [repeat split; assumption|].
  exact (@token_acceptance_conditions R None momax_customers addr_vitosha row_68935
           cand_68935 H1 H2 H3).
Defined.

(** C6, an instance: the identifier 4006592004711 gives the candidate 04711,
    which is customer 4711 of the table. *)
Lemma iln_customer_number_witness :
  @find_kundennummer_by_iln R (Some customers) (lit "4006592004711") = Some (lit "4711")
  /\ exists (df : @DataFrame R) x,
       Some customers = Some df /\ 4 <= length (@iln_digits R (lit "4006592004711"))
       /\ has_column df Verband = true
       /\ In x (rows df) /\ verband_ok x = true
       /\ _clean_num (clean_cell x Kundennummer)
          = _clean_num (slice_last 5 (@iln_digits R (lit "4006592004711")))
       /\ lit "4711" = clean_cell x Kundennummer.
Proof.
  split; [vm_compute; reflexivity|].
  apply (proj1 (@iln_customer_number_is_verified R (Some customers) (lit "4006592004711"))).
  vm_compute. reflexivity.
Defined.

(** C9, an instance: "asap" is no week, and the order of 14 January 2026 for
    tour G2 is answered as without a request, with "2026 Week - 08". *)
Lemma unparsed_request_witness :
  (forall y w, @parse_isocalendar R (lit "14.01.2026") = Some (y, w) ->
               @_extract_week_year R (lit "asap") (Some y) = Ok None)
  /\ @calculate_delivery_week R (Some schedule_g2) (lit "14.01.2026") (lit "G2")
       (Some (lit "asap"))
     = @calculate_delivery_week R (Some schedule_g2) (lit "14.01.2026") (lit "G2") None
  /\ @calculate_delivery_week R (Some schedule_g2) (lit "14.01.2026") (lit "G2")
       (Some (lit "asap"))
     = Ok (lit "2026 Week - 08")
  /\ @calculate_delivery_week R (Some schedule_g2) (lit "14.01.2026") (lit "G2")
       (Some (lit "asap"))
     <> Ok [].
Proof.
  assert (H : forall y w, @parse_isocalendar R (lit "14.01.2026") = Some (y, w) ->
                          @_extract_week_year R (lit "asap") (Some y) = Ok None).
  { intros y w Hp. vm_compute in Hp. injection Hp as <- <-. vm_compute. reflexivity. }
  assert (Hleast : forall w', In w' (@_get_valid_tour_weeks R schedule_g2 (lit "2.2")) ->
                              (8 <= w')%Z -> (8 <= w')%Z) by (intros w' _ Hw; exact Hw).
  assert (Hin : In 8%Z (@_get_valid_tour_weeks R schedule_g2 (lit "2.2")))
    by (vm_compute; tauto).
  assert (Hod : lit "14.01.2026" <> []) by discriminate.
  assert (Htour : lit "G2" <> []) by discriminate.
  assert (Hcode : lit "2.2" <> []) by discriminate.
  split; [exact H|].
  split;
    [exact (proj1 (@unparsed_request_is_ignored R (Some schedule_g2) (lit "14.01.2026")
                     (lit "G2") (lit "asap") H))|].
  exact (proj2 (@unparsed_request_is_ignored R (Some schedule_g2) (lit "14.01.2026")
                  (lit "G2") (lit "asap") H)
           schedule_g2 2026%Z 3%Z (lit "G2") 8%Z (lit "2.2") 8%Z
           eq_refl Hod Htour eq_refl eq_refl eq_refl eq_refl Hcode Hin
           (Z.le_refl 8) Hleast).
Defined.

(** C2 fails on the code.  The order of week 3 can be delivered in week 8 at
    the earliest and the tour runs in the weeks 5, 8, 10 and 12; with the
    requested week 3 the window from 8 to 4 is empty and the function
    returns week 5, the first run after week 4, which is before week 8. *)
Theorem delivery_week_before_earliest_possible :
  @parse_isocalendar R (lit "14.01.2026") = Some (2026%Z, 3%Z)
  /\ earliest_possible_week schedule_g2 3 (lit "G2") = Some 8%Z
  /\ _get_valid_tour_weeks schedule_g2 (lit "2.2") = [5; 8; 10; 12]%Z
  /\ @_extract_week_year R (lit "KW03/2026") (Some 2026%Z) = Ok (Some (3%Z, 2026%Z))
  /\ delivery_decision (Some schedule_g2) (lit "14.01.2026") (lit "G2")
       (Some (lit "KW03/2026")) = Ok (Some (2026%Z, 5%Z))
  /\ calculate_delivery_week (Some schedule_g2) (lit "14.01.2026") (lit "G2")
       (Some (lit "KW03/2026")) = Ok (lit "2026 Week - 05").
Proof. repeat split; vm_compute; reflexivity. Qed.

(** The two scenarios of the specification: requested "KW09/2026", and no
    requested week. *)
Example scenario_requested_week_9 :
  calculate_delivery_week (Some schedule_g2) (lit "14.01.2026") (lit "G2")
    (Some (lit "KW09/2026")) = Ok (lit "2026 Week - 08").
Proof. vm_compute. reflexivity. Qed.

Example scenario_no_requested_week :
  calculate_delivery_week (Some schedule_g2) (lit "14.01.2026") (lit "G2") None
  = Ok (lit "2026 Week - 08").
Proof. vm_compute. reflexivity. Qed.

(** * Further properties of the three modules *)

(** ** Normalizers and tokens *)

Section NormalizerFacts.

Context {rt : PyRuntime}.

Ltac lit_absent :=
  unfold absent; cbv [lit map list_ascii_of_string N_of_ascii N_of_digits];
  repeat (apply Forall_cons; [discriminate|]); apply Forall_nil.

(** A normalized street token contains no space, hyphen or slash and no
    umlaut or sharp s, whatever the input and the runtime. *)
Theorem normalized_token_alphabet (s : pystr) :
  let t := _normalize_address_token s in
  absent 32%N t /\ absent 45%N t /\ absent 47%N t
  /\ absent cp_a_uml t /\ absent cp_o_uml t /\ absent cp_u_uml t
  /\ absent cp_eszett t.
Proof.
  cbv zeta. unfold _normalize_address_token.
  set (x := str_lower (_fix_mojibake s)).
  destruct (remove_separators_absent (collapse_street_words (map_umlauts x)))
    as (H1 & H2 & H3).
  destruct (map_umlauts_absent x) as (Ha & Ho & Hu & He).
  repeat split; try assumption;
    apply remove_separators_Forall, collapse_Forall; try assumption; lit_absent.
Qed.

Lemma dedup_In (x : pystr) (l : list pystr) : In x (dedup l) <-> In x l.
Proof.
  induction l as [|y l IH]; simpl; [tauto|].
  destruct (str_in y l) eqn:E.
  - rewrite IH. split; [auto|]. intros [<-|H]; [|assumption].
    now apply str_in_In.
  - simpl. rewrite IH. tauto.
Qed.

Lemma dedup_NoDup (l : list pystr) : NoDup (dedup l).
Proof.
  induction l as [|y l IH]; simpl; [constructor|].
  destruct (str_in y l) eqn:E; [assumption|].
  constructor; [|assumption].
  rewrite dedup_In. intros H. apply str_in_In in H. congruence.
Qed.

(** The city tokens are distinct, have at least two characters and are no
    stop words. *)
Theorem city_tokens_significant (s : pystr) :
  NoDup (_city_tokens s)
  /\ forall t, In t (_city_tokens s) ->
       2 <= length t /\ ~ In t _CITY_STOPWORDS.
Proof.
  unfold _city_tokens. destruct (strip s) as [|c cs]; [split; [constructor | intros t []]|].
  split; [apply dedup_NoDup|].
  intros t Ht. apply dedup_In, in_flat_map in Ht as (p & _ & Ht).
  match type of Ht with In _ (if ?b then _ else _) => destruct b eqn:E end;
    [|destruct Ht].
  destruct Ht as [<-|[]]. apply andb_true_iff in E as [E1 E2].
  split; [now apply Nat.leb_le|].
  intros H. apply str_in_In in H. rewrite H in E2. discriminate.
Qed.

Lemma best_similarity_present (rtok : pystr) (input_tokens : list pystr) (best : Q) :
  In rtok input_tokens -> best_similarity rtok input_tokens best = 1%Q.
Proof.
  revert best. induction input_tokens as [|it its IH]; intros best H; [destruct H|].
  simpl. destruct (str_eqb rtok it) eqn:E; [reflexivity|].
  destruct H as [->|H]; [now rewrite str_eqb_refl in E | now apply IH].
Qed.

Lemma Zpos_of_nat (n : nat) : 0 < n -> Z.pos (Pos.of_nat n) = Z.of_nat n.
Proof.
  destruct n as [|n]; [lia|]. intros _. rewrite <- Pos.of_nat_succ.
  now rewrite Zpos_P_of_succ_nat, Nat2Z.inj_succ.
Qed.

Lemma coverage_fraction (matched len : nat) :
  matched <= len -> 0 < len ->
  (0 <= Z.of_nat matched # Pos.of_nat len)%Q
  /\ (Z.of_nat matched # Pos.of_nat len <= 1)%Q.
Proof.
  intros Hle Hpos. unfold Qle. simpl.
  rewrite Z.mul_1_r. split; [lia|].
  rewrite Zpos_of_nat by assumption. lia.
Qed.

(** The token-coverage score is a fraction between 0 and 1, and it is 1 when
    every token of the table's street is a token of the input, whatever the
    similarity of unequal tokens. *)
Theorem token_coverage_bounds (row_tokens input_tokens : list pystr) :
  (0 <= _token_coverage_score row_tokens input_tokens)%Q
  /\ (_token_coverage_score row_tokens input_tokens <= 1)%Q
  /\ (row_tokens <> [] -> incl row_tokens input_tokens ->
      (_token_coverage_score row_tokens input_tokens == 1)%Q).
Proof.
  unfold _token_coverage_score.
  destruct row_tokens as [|r rs]; [repeat split; try discriminate; congruence|].
  destruct input_tokens as [|i its].
  { repeat split; try discriminate. intros _ H. destruct (H r (or_introl eq_refl)). }
  set (rows := r :: rs). set (inp := i :: its).
  set (hit := fun rtok => Qle_bool (84 # 100) (best_similarity rtok inp 0%Q)).
  assert (Hlen : length (filter hit rows) <= length rows) by apply filter_length_le.
  assert (Hpos : 0 < length rows) by (simpl; lia).
  destruct (coverage_fraction _ _ Hlen Hpos) as [H0 H1].
  repeat split; try assumption.
  intros _ Hincl.
  assert (Hall : filter hit rows = rows).
  { apply forallb_filter_id. apply forallb_forall. intros x Hx. unfold hit.
    now rewrite (best_similarity_present x inp 0%Q (Hincl x Hx)). }
  rewrite Hall. unfold Qeq. cbn [Qnum Qden].
  rewrite Zpos_of_nat by assumption. lia.
Qed.

End NormalizerFacts.

(** ** More on the general matcher *)

Section MatcherFacts.

Context {rt : PyRuntime}.

Lemma hint_fallback_row df k r :
  hint_fallback df k = Some r ->
  exists x, In x (rows df) /\ verband_ok x = true
            /\ _clean_num (clean_cell x Kundennummer) = _clean_num (or_empty k)
            /\ r = row_result df x.
Proof.
  unfold hint_fallback. destruct k as [[|c k]|]; try discriminate.
  unfold _match_by_kundennummer_fallback, or_empty.
  destruct (has_column df Kundennummer); simpl; [|discriminate].
  destruct (has_column df Verband); simpl; [|discriminate].
  set (mask := fun r0 : row =>
         str_eqb (_clean_num (clean_cell r0 Kundennummer)) (_clean_num (c :: k))).
  destruct (filter verband_ok (filter mask (rows df))) as [|first rest] eqn:Esub;
    [discriminate|].
  assert (Hall : forall x, In x (first :: rest) ->
            In x (rows df) /\ verband_ok x = true
            /\ _clean_num (clean_cell x Kundennummer) = _clean_num (c :: k)).
  { intros x Hx. rewrite <- Esub in Hx. apply filter_In in Hx as [Hx Hv].
    apply filter_In in Hx as [Hx Hm]. apply str_eqb_eq in Hm. auto. }
  assert (Hbest : forall best, In best (first :: rest) ->
            Some (row_result df best) = Some r ->
            exists x, In x (rows df) /\ verband_ok x = true
              /\ _clean_num (clean_cell x Kundennummer) = _clean_num (c :: k)
              /\ r = row_result df x).
  { intros best Hb Hr. injection Hr as <-. exists best.
    destruct (Hall best Hb) as (H1 & H2 & H3). auto. }
  destruct (has_column df Adressnummer).
  - destruct (filter adressnummer_is_zero (first :: rest)) as [|zero zs] eqn:Ez.
    + apply Hbest. now left.
    + apply Hbest. apply filter_head_true in Ez as [Hin _]. exact Hin.
  - apply Hbest. now left.
Qed.

(** Every match the general matcher returns is read from a row of the table
    whose [Verband] is eligible.  The customer-number-hint fallback reads
    the row itself; a match for an address is read from the frame of the
    candidates, of which the row is one.  A match for an empty address is
    the fallback's, for a row of the hinted customer. *)
Theorem match_is_an_eligible_row
    fuzz df address_str kundennummer kom_name is_joop client_hint iln_company
    iln_filiale_hint warnings r :
  fst (find_customer_by_address fuzz (Some df) address_str kundennummer kom_name
         is_joop client_hint iln_company iln_filiale_hint warnings) = Ok (Some r) ->
  exists x,
    In x (rows df) /\ verband_ok x = true
    /\ (r = row_result df x
        \/ exists subset,
             let plz := plz_of_address (strip address_str) in
             let cands := address_candidates fuzz df
                            (address_clean (strip address_str) iln_company) plz subset in
             address_subset df plz = Ok (Some subset)
             /\ In x cands /\ adressnummer_is_zero x = true
             /\ r = frame_result cands x)
    /\ (strip address_str = [] ->
        r = row_result df x
        /\ _clean_num (clean_cell x Kundennummer) = _clean_num (or_empty kundennummer)).
Proof.
  unfold find_customer_by_address.
  assert (Hfb : forall (P : Prop) (Q : row -> Prop),
            Ok (hint_fallback df kundennummer) = Ok (Some r) ->
            exists x, In x (rows df) /\ verband_ok x = true
                      /\ (r = row_result df x \/ Q x)
                      /\ (P -> r = row_result df x
                               /\ _clean_num (clean_cell x Kundennummer)
                                  = _clean_num (or_empty kundennummer))).
  { intros P Q H. injection H as H.
    apply hint_fallback_row in H as (x & H1 & H2 & H3 & H4). exists x. auto. }
  destruct (strip address_str) as [|a addr] eqn:Ea; [apply Hfb|].
  destruct (address_subset df (plz_of_address (a :: addr))) as [[subset|]|e] eqn:Es;
    try discriminate.
  destruct (address_candidates fuzz df (address_clean (a :: addr) iln_company)
              (plz_of_address (a :: addr)) subset) as [|c cs] eqn:Ec; [apply Hfb|].
  intros H. apply select_match_Some in H as (best & Hin & Hr & _).
  assert (Hsub : In best subset)
    by (apply (address_candidates_incl fuzz df (address_clean (a :: addr) iln_company)
                 (plz_of_address (a :: addr)) subset); now rewrite Ec).
  destruct (address_subset_rows _ _ _ _ Es Hsub) as (_ & _ & Hrow & Hv & Hz).
  exists best. split; [assumption|]. split; [assumption|]. split; [|discriminate].
  right. exists subset. cbv zeta. rewrite Ec. auto.
Qed.


(** Once the candidate loops have found a row, a table that has its columns
    always gets a match: the cascade keeps at least one candidate and the
    closing check of its [Adressnummer] cannot fail, because only
    [Adressnummer] 0 rows were candidates. *)
Theorem candidates_always_give_a_match
    fuzz df address_str kundennummer kom_name is_joop client_hint iln_company
    iln_filiale_hint warnings subset :
  strip address_str <> [] ->
  address_subset df (plz_of_address (strip address_str)) = Ok (Some subset) ->
  address_candidates fuzz df (address_clean (strip address_str) iln_company)
    (plz_of_address (strip address_str)) subset <> [] ->
  has_column df Kundennummer = true -> has_column df Tour = true ->
  has_column df Name2 = true -> has_column df Postleitzahl = true ->
  exists r,
    fst (find_customer_by_address fuzz (Some df) address_str kundennummer kom_name
           is_joop client_hint iln_company iln_filiale_hint warnings) = Ok (Some r).
Proof.
  intros Haddr Hsub Hcand HK HT HN HP. unfold find_customer_by_address.
  destruct (strip address_str) as [|a addr]; [congruence|].
  rewrite Hsub.
  remember (address_candidates fuzz df (address_clean (a :: addr) iln_company)
              (plz_of_address (a :: addr)) subset) as cands eqn:Ec.
  assert (Hsubset : incl cands subset)
    by (rewrite Ec; apply address_candidates_incl).
  clear Ec. destruct cands as [|c cs]; [congruence|].
  assert (Hzero : forall x, In x (c :: cs) -> adressnummer_is_zero x = true).
  { intros x Hx.
    now destruct (address_subset_rows _ _ _ _ Hsub (Hsubset x Hx))
      as (_ & _ & _ & _ & Hz). }
  assert (HA : has_column df Adressnummer = true).
  { now destruct (address_subset_rows _ _ _ _ Hsub (Hsubset c (or_introl eq_refl))). }
  assert (Hne : c :: cs <> []) by discriminate.
  destruct (select_match_gives df (plz_of_address (a :: addr)) iln_company
              iln_filiale_hint client_hint kom_name is_joop warnings (c :: cs)
              Hne Hzero HA HK HT HN HP) as (r & _ & Hr & _).
  now exists r.
Qed.

(** On the caller's ILN fallback ([_enrich_from_excel]): a customer number
    that [find_kundennummer_by_iln] has verified is always found again by
    the lookup by customer number that follows, on the same table. *)
Theorem iln_number_is_found_by_the_lookup
    fuzz df iln k kom_name is_joop client_hint iln_company iln_filiale_hint warnings :
  find_kundennummer_by_iln (Some df) iln = Some k ->
  exists r,
    fst (find_customer_by_address fuzz (Some df) [] (Some k) kom_name is_joop
           client_hint iln_company iln_filiale_hint warnings) = Ok (Some r)
    /\ exists x, In x (rows df) /\ verband_ok x = true /\ r = row_result df x
                 /\ _clean_num (clean_cell x Kundennummer) = _clean_num k.
Proof.
  intros Hk.
  assert (Hrow : k <> [] /\ has_column df Kundennummer = true
                 /\ has_column df Verband = true
                 /\ exists x, In x (rows df) /\ verband_ok x = true
                              /\ k = clean_cell x Kundennummer).
  { unfold find_kundennummer_by_iln in Hk.
    destruct (iln_candidate iln) as [candidate|]; [|discriminate].
    destruct (or_str (lstrip_by (N.eqb 48) candidate) candidate); [discriminate|].
    destruct (has_column df Kundennummer) eqn:HK; simpl in Hk; [|discriminate].
    destruct (has_column df Verband) eqn:HV; simpl in Hk; [|discriminate].
    match type of Hk with
    | match filter verband_ok (filter ?m (rows df)) with _ => _ end = _ =>
        destruct (filter verband_ok (filter m (rows df))) as [|first rest] eqn:Ef
    end; [discriminate|].
    apply filter_head_true in Ef as [Hin Hv]. apply filter_In in Hin as [Hin _].
    unfold get_str in Hk. rewrite HK in Hk.
    destruct (strip (replace (lit ".0") [] (cell_str (first Kundennummer)))) eqn:Ek;
      [discriminate|].
    injection Hk as <-. repeat split; try discriminate.
    exists first. repeat split; try assumption. unfold clean_cell. now rewrite Ek. }
  destruct Hrow as (Hne & HK & HV & x & Hin & Hv & Hkx).
  assert (Hsome : exists r, hint_fallback df (Some k) = Some r).
  { unfold hint_fallback. destruct k as [|c k']; [congruence|].
    unfold _match_by_kundennummer_fallback. rewrite HK. simpl. rewrite HV.
    set (mask := fun r0 : row =>
           str_eqb (_clean_num (clean_cell r0 Kundennummer)) (_clean_num (c :: k'))).
    assert (Hx : In x (filter verband_ok (filter mask (rows df)))).
    { apply filter_In. split; [|assumption]. apply filter_In. split; [assumption|].
      unfold mask. rewrite Hkx. apply str_eqb_refl. }
    destruct (filter verband_ok (filter mask (rows df))) as [|first rest];
      [destruct Hx|].
    eexists. reflexivity. }
  destruct Hsome as (r & Hr). exists r.
  assert (Hcall : fst (find_customer_by_address fuzz (Some df) [] (Some k) kom_name
                         is_joop client_hint iln_company iln_filiale_hint warnings)
                  = Ok (Some r)).
  { unfold find_customer_by_address.
    change (strip []) with (@nil N). cbv iota. cbn [fst]. now rewrite Hr. }
  split; [exact Hcall|].
  apply hint_fallback_row in Hr as (y & H1 & H2 & H3 & H4). exists y. auto.
Qed.

End MatcherFacts.

(** ** More on the region-restricted matcher and the table filters *)

Section RegionFacts.

Context {rt : PyRuntime}.

(** A match of the region-restricted matcher has [adressnummer] "0" and is
    read from a row with an eligible [Verband] and an allowlisted customer
    number. *)
Theorem momax_match_is_a_main_address fuzz df address_str r :
  find_momax_bg_customer_by_address fuzz (Some df) address_str = Some r ->
  adressnummer r = lit "0"
  /\ exists x, In x (rows df) /\ verband_ok x = true /\ momax_allowed x = true
               /\ kundennummer r = clean_cell x Kundennummer
               /\ tour r = strip (get_str df x Tour).
Proof.
  unfold find_momax_bg_customer_by_address.
  destruct (strip address_str) as [|a addr]; [discriminate|].
  destruct (momax_subset df) as [subset|] eqn:Esub; [|discriminate].
  destruct (sort_candidates (momax_candidates fuzz df (a :: addr) subset))
    as [|best rest] eqn:Es; [discriminate|].
  intros H. injection H as <-. simpl.
  assert (Hb : In best (sort_candidates (momax_candidates fuzz df (a :: addr) subset)))
    by (rewrite Es; now left).
  apply sort_candidates_In, momax_candidates_In in Hb as [Hrow _].
  unfold momax_subset in Esub.
  destruct (has_column df Adressnummer) eqn:HA; simpl in Esub; [|discriminate].
  destruct (has_column df Kundennummer) eqn:HK; simpl in Esub; [|discriminate].
  destruct (has_column df Verband); simpl in Esub; [|discriminate].
  injection Esub as <-. apply filter_In in Hrow as [Hrow Hall].
  apply filter_In in Hrow as [Hrow Hv]. apply filter_In in Hrow as [Hrow Hz].
  unfold get_str at 1 2. rewrite HA, HK. split.
  - unfold adressnummer_is_zero, clean_cell in Hz. now apply str_eqb_eq in Hz.
  - exists (cand_row best). repeat split; assumption.
Qed.

Lemma sort_candidates_nil (l : list candidate) : sort_candidates l = [] -> l = [].
Proof.
  destruct l as [|c l]; [reflexivity|]. intros H.
  assert (Hin : In c (sort_candidates (c :: l))) by (apply sort_candidates_In; now left).
  rewrite H in Hin. destruct Hin.
Qed.

(** When one of the candidates matches the street strictly, the first
    candidate after sorting does. *)
Lemma sorted_head_is_strict (l : list candidate) (h : candidate) (t : list candidate) :
  (exists c, In c l /\ cand_strict c = true) ->
  sort_candidates l = h :: t -> cand_strict h = true.
Proof.
  revert h t. induction l as [|x l IH]; intros h t (c & Hc & Hs) Hsort;
    [destruct Hc|].
  change (sort_candidates (x :: l)) with (insert_sorted x (sort_candidates l)) in Hsort.
  destruct (sort_candidates l) as [|y ys] eqn:El.
  - apply sort_candidates_nil in El. subst l. simpl in Hsort. injection Hsort as <- _.
    destruct Hc as [->|[]]. exact Hs.
  - simpl in Hsort.
    assert (Hy : (exists c0, In c0 l /\ cand_strict c0 = true) -> cand_strict y = true)
      by (intros H; now apply (IH y ys)).
    destruct (key_le x y) eqn:Ek; injection Hsort as <- _.
    + destruct (cand_strict x) eqn:Ex; [reflexivity|].
      destruct Hc as [->|Hc]; [congruence|].
      assert (Hys : cand_strict y = true) by (apply Hy; now exists c).
      unfold key_le, key_compare in Ek. rewrite Ex, Hys in Ek. discriminate.
    + destruct (cand_strict y) eqn:Ey; [reflexivity|].
      destruct Hc as [->|Hc];
        [|assert (false = true) by (apply Hy; now exists c); discriminate].
      unfold key_le, key_compare in Ek. rewrite Hs, Ey in Ek. discriminate.
Qed.

(** A strict street match wins: when a row of the allowlisted subset passes
    the city filter and contains the street strictly, the returned customer
    is such a row, whatever the scores of the typo-tolerant candidates. *)
Theorem momax_strict_match_wins fuzz df address_str subset x c r :
  momax_subset df = Some subset ->
  In x subset ->
  momax_candidate fuzz df (strip address_str) x = Some c ->
  momax_street_matches df (strip address_str) x = true ->
  find_momax_bg_customer_by_address fuzz (Some df) address_str = Some r ->
  exists best,
    In best subset /\ momax_street_matches df (strip address_str) best = true
    /\ kundennummer r = clean_cell best Kundennummer.
Proof.
  intros Hsub Hx Hc Hs. unfold find_momax_bg_customer_by_address.
  destruct (strip address_str) as [|a addr]; [discriminate|].
  rewrite Hsub.
  destruct (sort_candidates (momax_candidates fuzz df (a :: addr) subset))
    as [|best rest] eqn:Es; [discriminate|].
  intros H. injection H as <-. simpl.
  assert (Hcs : cand_strict c = true).
  { unfold momax_candidate in Hc.
    repeat match type of Hc with
           | (if ?b then _ else _) = _ => destruct b; try discriminate
           end; injection Hc as <-; exact Hs. }
  assert (Hin : In c (momax_candidates fuzz df (a :: addr) subset)).
  { unfold momax_candidates. apply in_flat_map. exists x. split; [assumption|].
    rewrite Hc. now left. }
  assert (Hbs : cand_strict best = true).
  { apply (sorted_head_is_strict _ best rest) in Es; [assumption|]. now exists c. }
  assert (Hb : In best (sort_candidates (momax_candidates fuzz df (a :: addr) subset)))
    by (rewrite Es; now left).
  apply sort_candidates_In, momax_candidates_In in Hb as [Hrow Hcand].
  exists (cand_row best). split; [assumption|]. split.
  - unfold momax_candidate in Hcand.
    repeat match type of Hcand with
           | (if ?b then _ else _) = _ => destruct b; try discriminate
           end; injection Hcand as Hbest; rewrite <- Hbest in Hbs; exact Hbs.
  - unfold momax_subset in Hsub.
    destruct (has_column df Adressnummer); simpl in Hsub; [|discriminate].
    destruct (has_column df Kundennummer) eqn:HK; simpl in Hsub; [|discriminate].
    unfold get_str, clean_cell. now rewrite HK.
Qed.

Lemma filter_comm {A} (f g : A -> bool) (l : list A) :
  filter f (filter g l) = filter g (filter f l).
Proof.
  induction l as [|x l IH]; simpl; [reflexivity|].
  destruct (f x) eqn:Ef, (g x) eqn:Eg; simpl; rewrite ?Ef, ?Eg, IH; reflexivity.
Qed.

Lemma filter_idem {A} (f : A -> bool) (l : list A) : filter f (filter f l) = filter f l.
Proof.
  induction l as [|x l IH]; simpl; [reflexivity|].
  destruct (f x) eqn:Ef; simpl; rewrite ?Ef, IH; reflexivity.
Qed.

Lemma verband_ok_iff (x : row) :
  verband_ok x = true
  <-> exists v, cell_numeric (x Verband) = Some v
                /\ (v == 27750 \/ v == 29000 \/ v == 30000)%Q.
Proof.
  unfold verband_ok, VERBAND_FILTER. split.
  - destruct (cell_numeric (x Verband)) as [v|]; [|discriminate].
    simpl. rewrite orb_false_r. intros Hv. exists v. split; [reflexivity|].
    apply orb_true_iff in Hv as [Hv|Hv]; [left; now apply Qeq_bool_iff|].
    apply orb_true_iff in Hv as [Hv|Hv]; [right; left | right; right];
      now apply Qeq_bool_iff.
  - intros (v & -> & Hv). simpl. rewrite orb_false_r.
    destruct Hv as [Hv|[Hv|Hv]]; apply Qeq_bool_iff in Hv; rewrite Hv;
      rewrite ?orb_true_r; reflexivity.
Qed.

(** The [Verband] filter answers exactly when the table has the column,
    and then with the same columns and, in their order, exactly the rows
    whose [Verband] is the number 27750, 29000 or 30000: every such row of
    the table is kept and no other.  Filtering twice changes nothing, and it
    does not matter whether another row filter is applied before or after
    it, the two orders the matchers use. *)
Theorem verband_filter_laws (df : DataFrame) (f : row -> bool) :
  let eligible (x : row) : Prop :=
    exists v, cell_numeric (x Verband) = Some v
              /\ (v == 27750 \/ v == 29000 \/ v == 30000)%Q in
  (has_column df Verband = true <-> exists out, _filter_by_verband (Some df) = Some out)
  /\ (forall out, _filter_by_verband (Some df) = Some out ->
        has_column out = has_column df
        /\ (exists keep, (forall x, keep x = true <-> eligible x)
                         /\ rows out = filter keep (rows df))
        /\ (forall x, In x (rows out) <-> In x (rows df) /\ eligible x))
  /\ _filter_by_verband (_filter_by_verband (Some df)) = _filter_by_verband (Some df)
  /\ option_map (@rows rt) (_filter_by_verband (Some (with_rows df (filter f (rows df)))))
     = option_map (fun out => filter f (rows out)) (_filter_by_verband (Some df)).
Proof.
  cbv zeta. unfold _filter_by_verband. simpl.
  destruct (has_column df Verband) eqn:HV; simpl; rewrite ?HV.
  - split; [split; [intros _; eexists; reflexivity | reflexivity]|].
    split.
    { intros out H. injection H as <-. simpl. split; [reflexivity|]. split.
      - exists verband_ok. split; [apply verband_ok_iff | reflexivity].
      - intros x. rewrite filter_In, verband_ok_iff. reflexivity. }
    split.
    + unfold with_rows. simpl. now rewrite filter_idem.
    + f_equal. apply filter_comm.
  - split; [split; [discriminate | intros [out H]; discriminate]|].
    split; [intros out H; discriminate|]. split; reflexivity.
Qed.

Lemma lstrip_by_head_false (p : N -> bool) (s : pystr) :
  (forall c, hd_error s = Some c -> p c = false) -> lstrip_by p s = s.
Proof.
  destruct s as [|c s]; [reflexivity|]. intros H. simpl.
  now rewrite (H c eq_refl).
Qed.

Lemma strip_by_none (p : N -> bool) (s : pystr) :
  Forall (fun c => p c = false) s -> strip_by p s = s.
Proof.
  intros H. unfold strip_by, rstrip_by.
  assert (Hl : lstrip_by p s = s).
  { apply lstrip_by_head_false. intros c Hc. destruct s; [discriminate|].
    injection Hc as <-. now inversion H. }
  rewrite Hl.
  assert (Hr : lstrip_by p (rev s) = rev s).
  { apply lstrip_by_head_false. intros c Hc.
    assert (Hin : In c (rev s)) by (destruct (rev s); [discriminate|];
      injection Hc as <-; now left).
    apply in_rev in Hin. rewrite Forall_forall in H. now apply H. }
  rewrite Hr. apply rev_involutive.
Qed.

Lemma lstrip_zeros (n : nat) (d : pystr) :
  lstrip_by (N.eqb 48) (repeat 48%N n ++ d) = lstrip_by (N.eqb 48) d.
Proof. induction n as [|n IH]; simpl; [reflexivity | exact IH]. Qed.

Lemma clean_kdnr_digits (d : pystr) :
  (forall c, in_range 48 57 c = true -> is_space c = false) ->
  Forall (fun c => in_range 48 57 c = true) d ->
  _clean_kdnr d = or_str (lstrip_by (N.eqb 48) d) d.
Proof.
  intros Hd Hdig. unfold _clean_kdnr.
  assert (Hdot : replace (lit ".0") [] d = d).
  { apply replace_absent. apply (contains_absent 46%N).
    unfold absent. rewrite Forall_forall in *. intros c Hc ->.
    specialize (Hdig _ Hc). discriminate. }
  rewrite Hdot. unfold strip. rewrite strip_by_none; [reflexivity|].
  rewrite Forall_forall in *. intros c Hc. now apply Hd, Hdig.
Qed.

(** Leading zeros do not count when customer numbers are compared: a string
    of decimal digits with a digit other than 0 is cleaned to the same text
    with any number of zeros put before it, and the cleaned text does not
    begin with a zero. *)
Theorem leading_zeros_are_ignored (n : nat) (d : pystr) :
  (forall c, in_range 48 57 c = true -> is_space c = false) ->
  Forall (fun c => in_range 48 57 c = true) d ->
  lstrip_by (N.eqb 48) d <> [] ->
  _clean_kdnr (repeat 48%N n ++ d) = _clean_kdnr d
  /\ hd_error (_clean_kdnr d) <> Some 48%N.
Proof.
  intros Hd Hdig Hnz.
  assert (Hall : Forall (fun c => in_range 48 57 c = true) (repeat 48%N n ++ d)).
  { apply Forall_app. split; [|assumption]. apply Forall_forall.
    intros c Hc. apply repeat_spec in Hc. now subst c. }
  rewrite (clean_kdnr_digits _ Hd Hall), (clean_kdnr_digits _ Hd Hdig), lstrip_zeros.
  destruct (lstrip_by (N.eqb 48) d) as [|c t] eqn:E; [congruence|].
  split; [reflexivity|]. simpl. intros H. injection H as ->.
  clear - E. induction d as [|x d IH]; [discriminate|].
  cbn [lstrip_by] in E. destruct (N.eqb 48 x) eqn:Ex; [exact (IH E)|].
  injection E as Hx _. subst x. now rewrite N.eqb_refl in Ex.
Qed.

End RegionFacts.

(** ** More on the delivery week *)

Section DeliveryFacts.

Context {rt : PyRuntime}.

Lemma insert_week_In (x w : Z) (l : list Z) :
  In x (insert_week w l) <-> x = w \/ In x l.
Proof.
  induction l as [|y l IH]; simpl; [intuition|].
  destruct (Z.ltb_spec w y); simpl; [intuition|].
  destruct (Z.eqb_spec w y); simpl; [subst; intuition|].
  rewrite IH. intuition.
Qed.

Lemma sorted_set_In (x : Z) (l : list Z) : In x (sorted_set l) <-> In x l.
Proof.
  unfold sorted_set. induction l as [|y l IH]; simpl; [tauto|].
  rewrite insert_week_In, IH. intuition.
Qed.

Lemma insert_week_sorted (w : Z) (l : list Z) :
  StronglySorted Z.lt l -> StronglySorted Z.lt (insert_week w l).
Proof.
  induction 1 as [|y l Hs IH Hall]; simpl.
  - repeat constructor.
  - destruct (Z.ltb_spec w y).
    + constructor; [now constructor|]. constructor; [assumption|].
      rewrite Forall_forall in *. intros z Hz. specialize (Hall z Hz). lia.
    + destruct (Z.eqb_spec w y); [now constructor|].
      constructor; [assumption|].
      apply Forall_forall. intros z Hz. apply insert_week_In in Hz as [->|Hz];
        [lia|]. rewrite Forall_forall in Hall. now apply Hall.
Qed.

Lemma sorted_set_sorted (l : list Z) : StronglySorted Z.lt (sorted_set l).
Proof.
  unfold sorted_set. induction l as [|y l IH]; simpl; [constructor|].
  now apply insert_week_sorted.
Qed.

Lemma valid_tour_weeks_In (t : ScheduleTables) (schedule_col : pystr) (w : Z) :
  In w (_get_valid_tour_weeks t schedule_col)
  <-> (In schedule_col (run_columns t)
       /\ exists cells, In (w, cells) (run_rows t)
                        /\ tour_runs (cells schedule_col) = true).
Proof.
  unfold _get_valid_tour_weeks. destruct (str_in schedule_col (run_columns t)) eqn:E.
  - apply str_in_In in E. rewrite sorted_set_In, in_map_iff. split.
    + intros ([w' cells] & Hw & Hin). simpl in Hw. subst w'.
      apply filter_In in Hin as [Hin Hr]. split; [assumption|]. now exists cells.
    + intros (_ & cells & Hin & Hr). exists (w, cells). split; [reflexivity|].
      apply filter_In. now split.
  - split; [intros []|].
    intros (Hin & _). apply str_in_In in Hin. congruence.
Qed.

(** The valid tour weeks are strictly increasing, and they are exactly the
    index weeks of the run calendar whose cell under the schedule code says
    that the tour runs. *)
Theorem valid_tour_weeks_sorted (t : ScheduleTables) (schedule_col : pystr) :
  StronglySorted Z.lt (_get_valid_tour_weeks t schedule_col)
  /\ forall w,
       In w (_get_valid_tour_weeks t schedule_col)
       <-> (In schedule_col (run_columns t)
            /\ exists cells, In (w, cells) (run_rows t)
                             /\ tour_runs (cells schedule_col) = true).
Proof.
  split; [|apply valid_tour_weeks_In].
  unfold _get_valid_tour_weeks.
  destruct (str_in schedule_col (run_columns t)); [apply sorted_set_sorted|constructor].
Qed.

Lemma choose_week_None_Some (valid : list Z) (ep m : Z) :
  choose_week valid ep None = Some m -> In m valid /\ (ep <= m)%Z.
Proof.
  unfold choose_week, candidate_weeks. simpl.
  destruct (filter (fun w => Z.leb ep w) valid) as [|w ws] eqn:Ef; [discriminate|].
  intros H. injection H as <-.
  destruct (min_week_spec w ws) as [Hmin _]. rewrite <- Ef in Hmin.
  apply filter_In in Hmin as [Hv Hge]. apply Z.leb_le in Hge. now split.
Qed.

(** What [delivery_decision] has looked up when it returns a week. *)
Lemma delivery_decision_Some tables od tour_name req y w :
  delivery_decision tables od tour_name req = Ok (Some (y, w)) ->
  exists t y_order w_order col ep code r,
    tables = Some t
    /\ parse_isocalendar od = Some (y_order, w_order)
    /\ resolve_tour_column t (strip tour_name) = Some col
    /\ earliest_possible_week t w_order col = Some ep
    /\ _get_schedule_code_for_tour t (strip tour_name) = Some code /\ code <> []
    /\ (if truthy req then _extract_week_year (or_empty req) (Some y_order)
        else Ok None) = Ok r
    /\ choose_week (_get_valid_tour_weeks t code) ep r = Some w
    /\ y = match r with Some (_, req_y) => req_y | None => y_order end.
Proof.
  unfold delivery_decision.
  destruct od as [|d ds]; [discriminate|].
  destruct tour_name as [|c cs]; [discriminate|].
  destruct tables as [t|]; [|discriminate].
  destruct (parse_isocalendar (d :: ds)) as [[y_order w_order]|] eqn:Ep;
    [|discriminate].
  destruct (resolve_tour_column t (strip (c :: cs))) as [col|] eqn:Ecol;
    [|discriminate].
  destruct (earliest_possible_week t w_order col) as [ep|] eqn:Eep; [|discriminate].
  destruct (_get_schedule_code_for_tour t (strip (c :: cs))) as [[|k ks]|] eqn:Ecode;
    try discriminate.
  destruct (_get_valid_tour_weeks t (k :: ks)) as [|v vs] eqn:Ev; [discriminate|].
  destruct (if truthy req then _extract_week_year (or_empty req) (Some y_order)
            else Ok None) as [r|e] eqn:Er; [|discriminate].
  destruct (choose_week (v :: vs) ep r) as [final_w|] eqn:Ec; [|discriminate].
  intros H. injection H as <- <-.
  exists t, y_order, w_order, col, ep, (k :: ks), r. rewrite Ev.
  repeat split; try reflexivity; try assumption. discriminate.
Qed.

(** A returned delivery week is a week in which the tour runs: the run
    calendar has a row of that week whose cell under the tour's schedule code
    is a positive number. *)
Theorem delivery_week_is_a_run_week tables od tour_name req y w :
  delivery_decision tables od tour_name req = Ok (Some (y, w)) ->
  exists t code cells,
    tables = Some t
    /\ _get_schedule_code_for_tour t (strip tour_name) = Some code
    /\ In (w, cells) (run_rows t) /\ tour_runs (cells code) = true.
Proof.
  intros H.
  apply delivery_decision_Some in H
    as (t & yo & wo & col & ep & code & r & -> & _ & _ & _ & Hcode & _ & _ & Hc & _).
  assert (Hin : In w (_get_valid_tour_weeks t code)).
  { destruct r as [[rw ry]|].
    - now apply choose_week_with_request in Hc as [Hin _].
    - now apply choose_week_None_Some in Hc as [Hin _]. }
  apply valid_tour_weeks_In in Hin as (_ & cells & Hrow & Hruns).
  exists t, code, cells. auto.
Qed.

(** The year and the bounds of a returned delivery week.  Without an
    extracted requested week it is of the order's year and not before the
    earliest possible week.  With one it is of the requested year, at most
    five weeks before the requested week, and not before the earliest
    possible week whenever it is at most one week after the requested
    one. *)
Theorem delivery_week_bounds t od tour_name req y_order w_order col ep y w :
  parse_isocalendar od = Some (y_order, w_order) ->
  resolve_tour_column t (strip tour_name) = Some col ->
  earliest_possible_week t w_order col = Some ep ->
  delivery_decision (Some t) od tour_name req = Ok (Some (y, w)) ->
  match (if truthy req then _extract_week_year (or_empty req) (Some y_order)
         else Ok None) with
  | Ok (Some (req_w, req_y)) =>
      y = req_y /\ (req_w - 5 <= w)%Z /\ ((w <= req_w + 1)%Z -> (ep <= w)%Z)
  | Ok None => y = y_order /\ (ep <= w)%Z
  | Raise _ => False
  end.
Proof.
  intros Hp Hcol Hep H.
  apply delivery_decision_Some in H
    as (t' & yo & wo & col' & ep' & code & r & Ht & Hp' & Hcol' & Hep' & _ & _ & Hr
        & Hc & Hy).
  injection Ht as <-. rewrite Hp in Hp'. injection Hp' as <- <-.
  rewrite Hcol in Hcol'. injection Hcol' as <-.
  rewrite Hep in Hep'. injection Hep' as <-.
  rewrite Hr. destruct r as [[rw ry]|].
  - split; [assumption|].
    apply choose_week_with_request in Hc as [_ [Hwin|(_ & Hgt & _)]]; lia.
  - split; [assumption|]. now apply choose_week_None_Some in Hc.
Qed.

(** On the two calls of the callers ([_enrich_from_excel] and the pipeline):
    a tour for which [calculate_delivery_week] finds a week passes
    [is_tour_valid]. *)
Theorem scheduled_tour_is_valid tables od tour_name req y w :
  delivery_decision tables od tour_name req = Ok (Some (y, w)) ->
  is_tour_valid tables tour_name = true.
Proof.
  intros H.
  apply delivery_decision_Some in H
    as (t & _ & _ & col & _ & _ & _ & -> & _ & Hcol & _).
  unfold is_tour_valid, resolve_tour_column in *.
  destruct (dict_get (tour_map t) (strip tour_name)) as [v|] eqn:Em; [reflexivity|].
  assert (Hmap : match tour_map t with
                 | [] => None
                 | _ :: _ => match @None pystr with
                             | Some (_ :: _) => None
                             | _ => None
                             end
                 end = @None pystr) by (destruct (tour_map t); reflexivity).
  rewrite Hmap in Hcol.
  destruct (str_in (strip tour_name) (matrix_columns t)) eqn:Ein; [reflexivity|].
  simpl in Hcol.
  destruct (find (fun c => str_eqb (strip_numeric_suffix c) (strip tour_name))
                 (matrix_columns t)) as [c|] eqn:Ef; [|discriminate].
  apply find_some in Ef as [Hin Heq].
  assert (Hex : existsb (fun c0 => str_eqb (strip_numeric_suffix c0) (strip tour_name))
                        (matrix_columns t) = true)
    by (apply existsb_exists; now exists c).
  now rewrite Hex.
Qed.

Lemma week_year_loop_valid patterns text w y :
  week_year_loop patterns text = Ok (Some (w, y)) -> valid_week w = true.
Proof.
  induction patterns as [|p ps IH]; simpl; [discriminate|].
  destruct (re_search p text) as [[m caps]|]; [|exact IH].
  destruct (int_group 1 caps) as [week|]; [|discriminate].
  destruct (int_group 2 caps) as [year|]; [|discriminate].
  destruct (valid_week week) eqn:E; [|exact IH].
  intros H. now injection H as <- <-.
Qed.

Lemma week_only_loop_valid patterns text dy w y :
  week_only_loop patterns text dy = Ok (Some (w, y)) ->
  valid_week w = true /\ y = dy.
Proof.
  induction patterns as [|p ps IH]; simpl; [discriminate|].
  destruct (re_search p text) as [[m caps]|]; [|exact IH].
  destruct (int_group 1 caps) as [week|]; [|discriminate].
  destruct (valid_week week) eqn:E; [|exact IH].
  intros H. injection H as <- <-. now split.
Qed.

(** A week extracted from a requested-week text lies between 1 and 53,
    provided the ISO weeks of parsed dates do. *)
Theorem extracted_week_in_range text default_year w y :
  (forall yy ww, parse_isocalendar text = Some (yy, ww) -> (1 <= ww <= 53)%Z) ->
  _extract_week_year text default_year = Ok (Some (w, y)) ->
  (1 <= w <= 53)%Z.
Proof.
  intros Hiso. unfold _extract_week_year. destruct text as [|c cs]; [discriminate|].
  assert (Hv : forall w0, valid_week w0 = true -> (1 <= w0 <= 53)%Z).
  { intros w0 H. unfold valid_week in H. apply andb_true_iff in H as [H1 H2].
    apply Z.leb_le in H1. apply Z.leb_le in H2. lia. }
  assert (Hdate : match parse_isocalendar (c :: cs) with
                  | Some (y0, w0) => Ok (Some (w0, y0))
                  | None => Ok None
                  end = Ok (Some (w, y)) -> (1 <= w <= 53)%Z).
  { destruct (parse_isocalendar (c :: cs)) as [[y0 w0]|] eqn:Ep; [|discriminate].
    intros H. injection H as <- <-. now apply (Hiso y0). }
  destruct (week_year_loop [re_week_year_1; re_week_year_2; re_week_year_3] (c :: cs))
    as [[[w1 y1]|]|e] eqn:E1; [| |discriminate].
  - intros H. injection H as <- <-. apply Hv. now apply week_year_loop_valid in E1.
  - destruct default_year as [dy|]; [|exact Hdate].
    destruct (Z.eqb dy 0); [exact Hdate|].
    destruct (week_only_loop [re_week_only_1; re_week_only_2] (c :: cs) dy)
      as [[[w2 y2]|]|e] eqn:E2; [| |discriminate].
    + intros H. injection H as <- <-. apply Hv.
      now apply week_only_loop_valid in E2 as [E2 _].
    + exact Hdate.
Qed.

End DeliveryFacts.

(** ** The ILN found by address *)

Section IlnByAddress.

Context {rt : PyRuntime}.

Lemma insert_scored_In {A} (x y : nat * A) (l : list (nat * A)) :
  In y (insert_scored x l) <-> y = x \/ In y l.
Proof.
  induction l as [|z l IH]; simpl; [intuition|].
  destruct (Nat.leb (fst z) (fst x)); simpl; [intuition|].
  rewrite IH. intuition.
Qed.

Lemma sort_scored_desc_In {A} (y : nat * A) (l : list (nat * A)) :
  In y (sort_scored_desc l) <-> In y l.
Proof.
  unfold sort_scored_desc. induction l as [|x l IH]; simpl; [tauto|].
  rewrite insert_scored_In, IH. intuition.
Qed.

Lemma sort_scored_desc_head {A} (l : list (nat * A)) (h : nat * A) rest :
  sort_scored_desc l = h :: rest ->
  forall y, In y l -> fst y <= fst h.
Proof.
  revert h rest. induction l as [|x l IH]; intros h rest; [discriminate|].
  change (sort_scored_desc (x :: l)) with (insert_scored x (sort_scored_desc l)).
  destruct (sort_scored_desc l) as [|h' rest'] eqn:Es.
  - simpl. intros H y [<-|Hy]; [injection H as <- _; lia|].
    apply sort_scored_desc_In in Hy. rewrite Es in Hy. destruct Hy.
  - specialize (IH h' rest' eq_refl). simpl.
    destruct (Nat.leb_spec (fst h') (fst x)) as [Hle|Hlt]; intros H;
      injection H as <- _; intros y [<-|Hy]; try lia; specialize (IH y Hy); lia.
Qed.

(** The ILN that [find_iln_by_address] returns is read, with a final ".0"
    removed, from a row of the ILN table whose street is part of the address
    and whose city or postal code agrees with it; no row of the table has a
    higher score. *)
Theorem iln_by_address_best_row (t : IlnFrame) (address_str iln : pystr) :
  find_iln_by_address (Some t) address_str = Some iln ->
  let addr_clean := _normalize_address_token (strip address_str) in
  let plz := first_plz_of_address (strip address_str) in
  exists r,
    In r (iln_rows t)
    /\ iln = (let v := iln_get_str t r IlnNumber in
              if endswith (lit ".0") v then firstn (length v - 2) v else v)
    /\ iln_street_hit t addr_clean r = true
    /\ (iln_city_hit t addr_clean r = true \/ iln_plz_hit t plz r = true)
    /\ forall r', In r' (iln_rows t) ->
                  iln_score t addr_clean plz r' <= iln_score t addr_clean plz r.
Proof.
  unfold find_iln_by_address. destruct address_str as [|c cs]; [discriminate|].
  set (addr_clean := _normalize_address_token (strip (c :: cs))).
  set (plz := first_plz_of_address (strip (c :: cs))).
  intros H.
  set (scored := flat_map (fun r => let score := iln_score t addr_clean plz r in
                                    if Nat.leb 60 score then [(score, r)] else [])
                          (iln_rows t)) in *.
  destruct (sort_scored_desc scored) as [|[s best] rest] eqn:Es; [discriminate|].
  injection H as <-.
  assert (Hin : In (s, best) scored)
    by (apply sort_scored_desc_In; rewrite Es; now left).
  apply in_flat_map in Hin as (r & Hr & Hsr).
  cbv beta zeta in Hsr.
  destruct (Nat.leb_spec 60 (iln_score t addr_clean plz r)) as [Hge|]; [|destruct Hsr].
  destruct Hsr as [Hsr|[]]. injection Hsr as <- <-.
  exists r. split; [assumption|]. split; [reflexivity|].
  assert (Hmax : forall r', In r' (iln_rows t) ->
                 iln_score t addr_clean plz r' <= iln_score t addr_clean plz r).
  { intros r' Hr'.
    destruct (Nat.leb_spec 60 (iln_score t addr_clean plz r')) as [Hge'|]; [|lia].
    apply (sort_scored_desc_head scored _ _ Es (iln_score t addr_clean plz r', r')).
    apply in_flat_map. exists r'. split; [assumption|]. cbv beta zeta.
    destruct (Nat.leb_spec 60 (iln_score t addr_clean plz r')); [now left|lia]. }
  unfold iln_score in Hge.
  destruct (iln_street_hit t addr_clean r), (iln_city_hit t addr_clean r),
    (iln_plz_hit t plz r); simpl in Hge; try lia; auto.
Qed.

End IlnByAddress.

(** ** What an accepted answer writes *)

Section AiFacts.

Context {rt : PyRuntime}.

Lemma dict_get_set_same {V} (d : list (pystr * V)) (key : pystr) (v : V) :
  dict_get (dict_set d key v) key = Some v.
Proof.
  induction d as [|[k v'] d IH]; simpl.
  - now rewrite str_eqb_refl.
  - destruct (str_eqb k key) eqn:E; simpl; now rewrite E.
Qed.

Lemma dict_get_set_other {V} (d : list (pystr * V)) (key key' : pystr) (v : V) :
  str_eqb key key' = false ->
  dict_get (dict_set d key v) key' = dict_get d key'.
Proof.
  intros Hne. induction d as [|[k v'] d IH]; simpl.
  - now rewrite Hne.
  - destruct (str_eqb k key) eqn:E; simpl.
    + apply str_eqb_eq in E. subst k. now rewrite Hne.
    + now rewrite IH.
Qed.

Lemma find_char_app (c : N) (pre rest : pystr) :
  absent c pre -> find_char c (pre ++ c :: rest) = Some (length pre).
Proof.
  induction 1 as [|x pre Hx _ IH]; simpl.
  - now rewrite N.eqb_refl.
  - destruct (N.eqb_spec x c); [contradiction|]. now rewrite IH.
Qed.

Lemma absent_rev (c : N) (s : pystr) : absent c s -> absent c (rev s).
Proof.
  unfold absent. rewrite !Forall_forall. intros H x Hx. apply H.
  now apply in_rev.
Qed.

(** An answer that is a JSON object inside other text is decoded from its
    first opening brace to its last closing brace. *)
Theorem answer_in_prose_is_decoded (pre body post : pystr) :
  json_loads (strip (pre ++ 123%N :: body ++ 125%N :: post)) = None ->
  absent 123 pre -> absent 125 post ->
  decode_answer (pre ++ 123%N :: body ++ 125%N :: post)
  = json_loads (123%N :: body ++ [125%N]).
Proof.
  intros Hwhole Hpre Hpost. unfold decode_answer. rewrite Hwhole.
  rewrite (find_char_app 123 pre _ Hpre).
  unfold rfind_char.
  assert (Hrev : rev (pre ++ 123%N :: body ++ 125%N :: post)
                 = rev post ++ 125%N :: rev (pre ++ 123%N :: body)).
  { change (pre ++ 123%N :: body ++ 125%N :: post)
      with (pre ++ (123%N :: body) ++ 125%N :: post).
    rewrite app_assoc, rev_app_distr. simpl rev at 1. now rewrite <- app_assoc. }
  rewrite Hrev, (find_char_app 125 (rev post) _ (absent_rev _ _ Hpost)).
  simpl option_map. cbv iota.
  rewrite length_rev.
  assert (Hlen : length (pre ++ 123%N :: body ++ 125%N :: post) - 1 - length post
                 = length pre + S (length body)).
  { rewrite length_app. simpl. rewrite length_app. simpl. lia. }
  rewrite Hlen.
  destruct (Nat.ltb_spec (length pre) (length pre + S (length body))); [|lia].
  replace (length pre + S (length body) + 1 - length pre) with (S (S (length body)))
    by lia.
  rewrite skipn_app, Nat.sub_diag, skipn_all. simpl app at 1. simpl skipn.
  f_equal. rewrite firstn_cons. f_equal.
  rewrite firstn_app, Nat.sub_succ_l, Nat.sub_diag by lia.
  rewrite firstn_all2 by lia. reflexivity.
Qed.

Section WriteBack.

Variable build_user_text : pydict -> result pystr.
Variable complete_text : pystr -> pystr -> result pystr.
Variable system_prompt : pystr.

(** A call either leaves the header and the warnings as they were or has
    accepted an answer of the model.  Then the answer's confidence is not
    below the threshold and its customer number is not empty; the header
    holds a derived entry of that confidence under "kundennummer",
    "adressnummer" and "tour", and under "iln" when the answer names one;
    every other key keeps its value, and exactly one warning is appended. *)
Theorem accepted_answer_is_written (header : pydict) (warnings : list pystr) :
  let out := try_ai_customer_match build_user_text complete_text system_prompt
               header warnings in
  snd out = (header, warnings)
  \/ exists user_text response_text r,
       build_user_text header = Ok user_text
       /\ complete_text system_prompt user_text = Ok response_text
       /\ _parse_ai_match_response response_text = Ok (Some r)
       /\ float_lt (ai_confidence r) _CONFIDENCE_THRESHOLD = false
       /\ ai_kundennummer r <> []
       /\ fst out = Ok tt
       /\ snd (snd out) = warnings ++ [ai_warning]
       /\ let h := fst (snd out) in
          let c := ai_confidence r in
          dict_get h (lit "kundennummer") = Some (derived_entry (ai_kundennummer r) c)
          /\ dict_get h (lit "adressnummer") = Some (derived_entry (ai_adressnummer r) c)
          /\ dict_get h (lit "tour") = Some (derived_entry (ai_tour r) c)
          /\ dict_get h (lit "iln")
             = match ai_iln r with
               | [] => dict_get header (lit "iln")
               | iln => Some (derived_entry iln c)
               end
          /\ forall key,
               str_in key [lit "kundennummer"; lit "adressnummer"; lit "tour"; lit "iln"]
               = false ->
               dict_get h key = dict_get header key.
Proof.
  unfold try_ai_customer_match.
  destruct (should_try_ai_customer_match header warnings) as [[|]|e];
    try (left; reflexivity).
  destruct (build_user_text header) as [user_text|e] eqn:Eb; [|left; reflexivity].
  unfold _call_ai_match.
  destruct (complete_text system_prompt user_text) as [response_text|e] eqn:Ec;
    [|left; reflexivity].
  destruct (_parse_ai_match_response response_text) as [[r|]|e] eqn:Ep;
    try (left; reflexivity).
  destruct (float_lt (ai_confidence r) _CONFIDENCE_THRESHOLD) eqn:Elt;
    [left; reflexivity|].
  destruct (ai_kundennummer r) as [|k ks] eqn:Ek; [left; reflexivity|].
  right. exists user_text, response_text, r.
  rewrite Ek. repeat (split; [first [reflexivity | assumption | discriminate]|]).
  unfold write_back. rewrite Ek. cbn [fst snd].
  set (c := ai_confidence r).
  set (h1 := dict_set header (lit "kundennummer") (derived_entry (k :: ks) c)).
  set (h2 := dict_set h1 (lit "adressnummer") (derived_entry (ai_adressnummer r) c)).
  set (h3 := dict_set h2 (lit "tour") (derived_entry (ai_tour r) c)).
  assert (H1 : dict_get h3 (lit "kundennummer") = Some (derived_entry (k :: ks) c)).
  { unfold h3, h2. rewrite !dict_get_set_other by reflexivity.
    apply dict_get_set_same. }
  assert (H2 : dict_get h3 (lit "adressnummer")
               = Some (derived_entry (ai_adressnummer r) c)).
  { unfold h3. rewrite dict_get_set_other by reflexivity. apply dict_get_set_same. }
  assert (H3 : dict_get h3 (lit "tour") = Some (derived_entry (ai_tour r) c))
    by apply dict_get_set_same.
  assert (H4 : dict_get h3 (lit "iln") = dict_get header (lit "iln")).
  { unfold h3, h2, h1. now rewrite !dict_get_set_other by reflexivity. }
  assert (H5 : forall key,
             str_in key [lit "kundennummer"; lit "adressnummer"; lit "tour"]
             = false -> dict_get h3 key = dict_get header key).
  { intros key Hkey. simpl in Hkey.
    apply orb_false_iff in Hkey as [Hk1 Hkey].
    apply orb_false_iff in Hkey as [Hk2 Hkey].
    apply orb_false_iff in Hkey as [Hk3 _].
    unfold h3, h2, h1.
    rewrite !dict_get_set_other; [reflexivity| | |].
    - destruct (str_eqb (lit "kundennummer") key) eqn:E; [|reflexivity].
      apply str_eqb_eq in E. subst key. now rewrite str_eqb_refl in Hk1.
    - destruct (str_eqb (lit "adressnummer") key) eqn:E; [|reflexivity].
      apply str_eqb_eq in E. subst key. now rewrite str_eqb_refl in Hk2.
    - destruct (str_eqb (lit "tour") key) eqn:E; [|reflexivity].
      apply str_eqb_eq in E. subst key. now rewrite str_eqb_refl in Hk3. }
  assert (Hsplit : forall key,
             str_in key [lit "kundennummer"; lit "adressnummer"; lit "tour"; lit "iln"]
             = false ->
             str_in key [lit "kundennummer"; lit "adressnummer"; lit "tour"] = false
             /\ str_eqb (lit "iln") key = false).
  { intros key Hkey. simpl in Hkey.
    apply orb_false_iff in Hkey as [Hk1 Hkey].
    apply orb_false_iff in Hkey as [Hk2 Hkey].
    apply orb_false_iff in Hkey as [Hk3 Hkey].
    apply orb_false_iff in Hkey as [Hk4 _].
    split; [simpl; now rewrite Hk1, Hk2, Hk3|].
    destruct (str_eqb (lit "iln") key) eqn:E; [|reflexivity].
    apply str_eqb_eq in E. subst key. now rewrite str_eqb_refl in Hk4. }
  destruct (ai_iln r) as [|i its].
  - repeat (split; [assumption|]). intros key Hkey. apply H5.
    now apply Hsplit in Hkey as [Hkey _].
  - rewrite !dict_get_set_other by reflexivity.
    repeat (split; [assumption|]). split; [apply dict_get_set_same|].
    intros key Hkey. apply Hsplit in Hkey as [Hkey Hiln].
    rewrite dict_get_set_other by assumption. now apply H5.
Qed.

End WriteBack.

End AiFacts.

(** ** The tokens of the region-restricted matcher *)

Section TokenFacts.

Context {rt : PyRuntime}.

Lemma rep_go_plus (p : N -> bool) (s : pystr) :
  forall lo prev s1 (caps : captures),
    rep_go p lo None prev s (fun _ s' => Some (s', @nil (nat * pystr))) = Some (s1, caps) ->
    exists t, s = t ++ s1 /\ Forall (fun c => p c = true) t /\ lo <= length t.
Proof.
  induction s as [|c s IH]; intros lo prev s1 caps; simpl.
  - destruct lo; [|discriminate]. intros H. injection H as <- _.
    exists []. repeat split; [constructor|simpl; lia].
  - assert (Hstop : match lo with
                    | O => Some (c :: s, @nil (nat * pystr))
                    | S _ => None
                    end = Some (s1, caps) ->
                    exists t, c :: s = t ++ s1 /\ Forall (fun c => p c = true) t
                              /\ lo <= length t).
    { destruct lo; [|discriminate]. intros H. injection H as <- _.
      exists []. repeat split; [constructor|simpl; lia]. }
    destruct (p c) eqn:Ec; simpl; [|exact Hstop].
    destruct (rep_go p (pred lo) None (Some c) s
                (fun _ s' => Some (s', @nil (nat * pystr)))) as [[s2 caps2]|] eqn:Er;
      simpl; [|exact Hstop].
    intros H. injection H as <- <-.
    apply IH in Er as (t & -> & Hall & Hlen).
    exists (c :: t). repeat split; [now constructor|simpl; lia].
Qed.

Lemma scan_hits (r : regex) (P : pystr -> Prop) :
  (forall prev s s1 caps n,
      match_here r prev s = Some (s1, caps) ->
      length s - length s1 = S n -> P (firstn (S n) s)) ->
  forall s skip prev t caps, In (Hit t caps) (scan r skip prev s) -> P t.
Proof.
  intros Hm. induction s as [|c s IH]; intros skip prev t caps; [intros []|].
  destruct skip as [|k]; [|exact (IH k (Some c) t caps)].
  cbn [scan].
  destruct (match_here r prev (c :: s)) as [[s1 caps1]|] eqn:E.
  - destruct (length (c :: s) - length s1) as [|n] eqn:En.
    + intros [H|H]; [discriminate|]. now apply IH in H.
    + intros [H|H]; [|now apply IH in H]. injection H as <- <-.
      exact (Hm prev (c :: s) s1 caps1 n E En).
  - intros [H|H]; [discriminate|]. now apply IH in H.
Qed.

Lemma hits_In (l : list chunk) (t : pystr) :
  In t (map fst (hits l)) -> exists caps, In (Hit t caps) l.
Proof.
  induction l as [|[c|t' caps'] l IH]; simpl; [intros []| |].
  - intros H. apply IH in H as [caps H]. exists caps. now right.
  - intros [<-|H]; [exists caps'; now left|].
    apply IH in H as [caps H]. exists caps. now right.
Qed.

Lemma findall_plus (p : N -> bool) (s t : pystr) :
  In t (re_findall (rplus p) s) -> t <> [] /\ Forall (fun c => p c = true) t.
Proof.
  intros H. apply hits_In in H as [caps H].
  revert H. apply (scan_hits (rplus p) (fun t => t <> [] /\ Forall (fun c => p c = true) t)).
  intros prev s0 s1 caps0 n Hm Hn.
  unfold match_here, rplus in Hm. simpl rmatch in Hm.
  apply rep_go_plus in Hm as (u & -> & Hall & Hlen).
  rewrite length_app in Hn.
  assert (Hu : length u = S n) by lia.
  rewrite <- Hu, firstn_app, Nat.sub_diag, firstn_all. simpl. rewrite app_nil_r.
  split; [|assumption]. intros ->. discriminate.
Qed.

Lemma join_Forall (P : N -> Prop) (sep : pystr) (parts : list pystr) :
  Forall P sep -> Forall (Forall P) parts -> Forall P (join sep parts).
Proof.
  intros Hsep. induction 1 as [|x parts Hx Hparts IH]; simpl; [constructor|].
  destruct parts as [|y parts]; [assumption|].
  apply Forall_app. split; [assumption|]. apply Forall_app. now split.
Qed.

(** The street tokens are words of at least three characters over a-z and
    0-9 that are not stop words, and the loosely normalized text is written
    with a-z, 0-9 and the space only. *)
Theorem loose_tokens_alphabet (text : pystr) :
  (forall t, In t (_street_tokens text) ->
             Forall (fun c => is_az09 c = true) t
             /\ 3 <= length t /\ str_in t street_stop = false)
  /\ Forall (fun c => is_az09 c = true \/ c = 32%N) (_normalize_loose_alnum text).
Proof.
  split.
  - intros t Ht. unfold _street_tokens in Ht. apply filter_In in Ht as [Hin Hf].
    apply andb_true_iff in Hf as [Hlen Hstop].
    apply findall_plus in Hin as [_ Hall].
    split; [assumption|]. split; [now apply Nat.leb_le|].
    now apply negb_true_iff.
  - unfold _normalize_loose_alnum. apply join_Forall.
    + change (lit " ") with [32%N]. constructor; [now right|constructor].
    + apply Forall_forall. intros t Ht. apply findall_plus in Ht as [_ Hall].
      eapply Forall_impl; [|exact Hall]. intros c Hc. now left.
Qed.

End TokenFacts.

(** ** The postal code of an address, mojibake and the parsed answer *)

Section ShapeFacts.

Context {rt : PyRuntime}.

Lemma rep_go_inv {A} (p : N -> bool) (s : pystr) :
  forall lo hi prev (k : option N -> pystr -> option A) a,
    rep_go p lo hi prev s k = Some a ->
    exists t s1 prev',
      s = t ++ s1 /\ Forall (fun c => p c = true) t /\ lo <= length t
      /\ (forall h, hi = Some h -> length t <= h) /\ k prev' s1 = Some a.
Proof.
  induction s as [|c s IH]; intros lo hi prev k a.
  - simpl. destruct lo; [|discriminate]. intros H.
    exists [], [], prev. repeat split; try assumption; try constructor.
    intros h _. simpl. lia.
  - assert (Hstop : match lo with O => k prev (c :: s) | S _ => None end = Some a ->
                    exists t s1 prev',
                      c :: s = t ++ s1 /\ Forall (fun c => p c = true) t
                      /\ lo <= length t
                      /\ (forall h, hi = Some h -> length t <= h)
                      /\ k prev' s1 = Some a).
    { destruct lo; [|discriminate]. intros H.
      exists [], (c :: s), prev. repeat split; try assumption; try constructor.
      intros h _. simpl. lia. }
    cbn [rep_go]. destruct (p c && hi_allows hi) eqn:Ec; [|exact Hstop].
    destruct (rep_go p (pred lo) (hi_pred hi) (Some c) s k) as [a'|] eqn:Er;
      [|exact Hstop].
    simpl. intros H. injection H as <-.
    apply andb_true_iff in Ec as [Hc Hhi].
    apply IH in Er as (t & s1 & prev' & -> & Hall & Hlo & Hbound & Hk).
    exists (c :: t), s1, prev'. repeat split; try assumption.
    + now constructor.
    + simpl. lia.
    + intros h ->. destruct h as [|h]; [discriminate|].
      specialize (Hbound h eq_refl). simpl. lia.
Qed.

Lemma plz_tail_inv (prev : option N) (s s2 : pystr) (caps : captures) :
  rmatch (RSeq (RGroup 1 (RRep is_digit 4 (Some 5))) (RWordB is_word)) prev s []
         (fun _ s1 caps1 => Some (s1, caps1)) = Some (s2, caps) ->
  digits_4_5 (group_or_empty 1 caps).
Proof.
  cbn [rmatch]. intros H.
  apply rep_go_inv in H as (t & s1 & prev' & -> & Hall & Hlo & Hbound & Hk).
  destruct (xorb (is_word_opt is_word prev') (is_word_opt is_word (hd_error s1)));
    [|discriminate].
  injection Hk as _ <-. unfold group_or_empty. simpl group.
  rewrite length_app, Nat.add_sub, firstn_app, Nat.sub_diag, firstn_all. simpl.
  rewrite app_nil_r. split; [assumption|]. split; [assumption|]. now apply Hbound.
Qed.

Lemma plz_bare_inv (prev : option N) (s s2 : pystr) (caps : captures) :
  match_here re_plz_bare prev s = Some (s2, caps) ->
  digits_4_5 (group_or_empty 1 caps).
Proof.
  unfold match_here, re_plz_bare. simpl rseq.
  change (rmatch (RSeq (RWordB is_word) ?r) prev s [] ?k)
    with (if xorb (is_word_opt is_word prev) (is_word_opt is_word (hd_error s))
          then rmatch r prev s [] k else None).
  destruct (xorb (is_word_opt is_word prev) (is_word_opt is_word (hd_error s)));
    [|discriminate].
  apply plz_tail_inv.
Qed.

Lemma plz_country_inv (prev : option N) (s s2 : pystr) (caps : captures) :
  match_here re_plz_country prev s = Some (s2, caps) ->
  digits_4_5 (group_or_empty 1 caps).
Proof.
  unfold match_here, re_plz_country, rplus, rstar. simpl rseq.
  set (tail := RSeq (RGroup 1 (RRep is_digit 4 (Some 5))) (RWordB is_word)).
  cbn [rmatch]. intros H.
  apply rep_go_inv in H as (t & s1 & prev' & _ & _ & _ & _ & H).
  destruct s1 as [|c s1]; [discriminate|].
  destruct (N.eqb 45 c); [|discriminate].
  apply rep_go_inv in H as (t2 & s3 & prev3 & _ & _ & _ & _ & H).
  now apply plz_tail_inv in H.
Qed.

Lemma scan_hits_caps (r : regex) (P : captures -> Prop) :
  (forall prev s s1 caps, match_here r prev s = Some (s1, caps) -> P caps) ->
  forall s skip prev t caps, In (Hit t caps) (scan r skip prev s) -> P caps.
Proof.
  intros Hm. induction s as [|c s IH]; intros skip prev t caps; [intros []|].
  destruct skip as [|k]; [|exact (IH k (Some c) t caps)].
  cbn [scan].
  destruct (match_here r prev (c :: s)) as [[s1 caps1]|] eqn:E.
  - destruct (length (c :: s) - length s1) as [|n] eqn:En.
    + intros [H|H]; [discriminate|]. now apply IH in H.
    + intros [H|H]; [|now apply IH in H]. injection H as _ <-.
      exact (Hm prev (c :: s) s1 caps1 E).
  - intros [H|H]; [discriminate|]. now apply IH in H.
Qed.

Lemma first_hit_In (l : list chunk) (t : pystr) (caps : captures) :
  first_hit l = Some (t, caps) -> In (Hit t caps) l.
Proof.
  induction l as [|[c|t' caps'] l IH]; simpl; [discriminate| |].
  - intros H. right. now apply IH.
  - intros H. injection H as <- <-. now left.
Qed.

Lemma hits_In_caps (l : list chunk) (h : pystr * captures) :
  In h (hits l) -> In (Hit (fst h) (snd h)) l.
Proof.
  induction l as [|[c|t' caps'] l IH]; simpl; [intros []| |].
  - intros H. right. now apply IH.
  - intros [<-|H]; [now left|]. right. now apply IH.
Qed.

Lemma max_first_In {A} (lt : A -> A -> bool) (l : list A) :
  forall best, max_first lt best l = best \/ In (max_first lt best l) l.
Proof.
  induction l as [|x l IH]; intros best; simpl; [now left|].
  destruct (IH (if lt best x then x else best)) as [H|H]; [|now right; right].
  rewrite H. destruct (lt best x); [right; now left|now left].
Qed.

Lemma plz_of_address_digits (address_str p : pystr) :
  plz_of_address address_str = Some p -> digits_4_5 p.
Proof.
  unfold plz_of_address.
  destruct (re_search re_plz_country address_str) as [[m caps]|] eqn:Ec.
  - intros H. injection H as <-. apply first_hit_In in Ec.
    revert Ec.
    apply (scan_hits_caps re_plz_country
             (fun caps0 => digits_4_5 (group_or_empty 1 caps0))).
    intros prev s s1 caps0. apply plz_country_inv.
  - assert (Hall : forall q, In q (re_findall_group re_plz_bare address_str) ->
                             digits_4_5 q).
    { intros q Hq. unfold re_findall_group in Hq. apply in_map_iff in Hq
        as (h & <- & Hh). apply hits_In_caps in Hh. revert Hh.
      apply (scan_hits_caps re_plz_bare
               (fun caps0 => digits_4_5 (group_or_empty 1 caps0))).
      intros prev s s1 caps0. apply plz_bare_inv. }
    destruct (re_findall_group re_plz_bare address_str) as [|m ms]; [discriminate|].
    intros H. injection H as <-.
    destruct (max_first_In plz_key_lt ms m) as [->|Hin]; apply Hall;
      [now left|now right].
Qed.

(** The postal code read from an address is empty or consists of four or
    five decimal digits. *)
Theorem extracted_plz_is_four_or_five_digits (address_str : pystr) :
  let plz := _extract_plz_from_address address_str in
  plz = []
  \/ (Forall (fun c => is_digit c = true) plz /\ 4 <= length plz <= 5).
Proof.
  unfold _extract_plz_from_address. destruct address_str as [|c cs]; [now left|].
  destruct (plz_of_address (c :: cs)) as [p|] eqn:E; [|now left].
  right. exact (plz_of_address_digits _ _ E).
Qed.

(** Text without U+00C3 and without the replacement character U+FFFD is
    left as it is by [_fix_mojibake], and its result never contains
    U+FFFD. *)
Theorem clean_text_is_not_repaired (s : pystr) :
  (absent cp_A_tilde s -> absent cp_replacement s -> _fix_mojibake s = s)
  /\ absent cp_replacement (_fix_mojibake s).
Proof.
  split.
  - intros HA HR. unfold _fix_mojibake.
    rewrite !(replace_absent (cp_A_tilde :: _) _ s) by now apply contains_absent.
    now rewrite (contains_absent cp_replacement [] s HR).
  - unfold _fix_mojibake. cbv zeta.
    match goal with
    | |- absent _ (if contains _ ?t then _ else _) =>
        destruct (contains [cp_replacement] t) eqn:E
    end.
    + apply replace_single_absent. repeat constructor; discriminate.
    + now apply contains_single_false.
Qed.

Lemma lstrip_by_twice (p : N -> bool) (s : pystr) :
  lstrip_by p (lstrip_by p s) = lstrip_by p s.
Proof.
  induction s as [|c s IH]; simpl; [reflexivity|].
  destruct (p c) eqn:E; [exact IH|]. simpl. now rewrite E.
Qed.

Lemma lstrip_by_suffix (p : N -> bool) (s : pystr) :
  exists pre, s = pre ++ lstrip_by p s.
Proof.
  induction s as [|c s [pre IH]]; simpl; [now exists []|].
  destruct (p c); [|now exists []].
  exists (c :: pre). simpl. now rewrite <- IH.
Qed.

Lemma lstrip_by_fixed_app (p : N -> bool) (t u : pystr) :
  t <> [] -> lstrip_by p (t ++ u) = t ++ u -> lstrip_by p t = t.
Proof.
  destruct t as [|c t]; [congruence|]. intros _. simpl.
  destruct (p c) eqn:E; [|reflexivity].
  intros H. exfalso.
  destruct (lstrip_by_suffix p (t ++ u)) as [pre Hpre].
  assert (Hlen : length (t ++ u) = length pre + length (lstrip_by p (t ++ u)))
    by (rewrite Hpre at 1; apply length_app).
  rewrite H in Hlen. simpl in Hlen. lia.
Qed.

Lemma strip_by_twice (p : N -> bool) (s : pystr) :
  strip_by p (strip_by p s) = strip_by p s.
Proof.
  unfold strip_by, rstrip_by.
  set (u := lstrip_by p s).
  set (w := lstrip_by p (rev u)).
  assert (Hu : lstrip_by p u = u) by apply lstrip_by_twice.
  assert (Hw : lstrip_by p w = w) by apply lstrip_by_twice.
  assert (Ht : lstrip_by p (rev w) = rev w).
  { destruct (lstrip_by_suffix p (rev u)) as [pre Hpre]. fold w in Hpre.
    assert (Hsplit : u = rev w ++ rev pre).
    { rewrite <- (rev_involutive u), Hpre. apply rev_app_distr. }
    destruct (rev w) as [|c t] eqn:Erw; [reflexivity|].
    apply (lstrip_by_fixed_app p (c :: t) (rev pre)); [discriminate|].
    now rewrite <- Hsplit. }
  now rewrite Ht, rev_involutive, Hw.
Qed.

(** The fields of a parsed answer carry no white space around them:
    stripping them again changes nothing. *)
Theorem parsed_answer_is_stripped (text : pystr) (r : AiAnswer) :
  _parse_ai_match_response text = Ok (Some r) ->
  strip (ai_kundennummer r) = ai_kundennummer r
  /\ strip (ai_adressnummer r) = ai_adressnummer r
  /\ strip (ai_tour r) = ai_tour r
  /\ strip (ai_iln r) = ai_iln r.
Proof.
  assert (Htext : forall d key, strip (text_or_empty d key) = text_or_empty d key).
  { intros d key. unfold text_or_empty.
    destruct (dict_get d key) as [v|]; [|reflexivity].
    destruct (py_truthy v); [apply strip_by_twice|reflexivity]. }
  unfold _parse_ai_match_response.
  destruct (strip text); [discriminate|].
  destruct (decode_answer text) as [[| | | | | |data]|]; try discriminate.
  destruct (confidence_of (dict_get data (lit "confidence"))) as [c|e]; [|discriminate].
  intros H. injection H as <-. cbn [ai_kundennummer ai_adressnummer ai_tour ai_iln].
  repeat split; try apply Htext.
  destruct (dict_get data (lit "kundennummer")) as [v|]; [|reflexivity].
  destruct v; try apply strip_by_twice. reflexivity.
Qed.

Lemma house_number_inv (prev : option N) (s s2 : pystr) (caps : captures) :
  match_here re_house_number prev s = Some (s2, caps) ->
  exists d l,
    s = (d ++ l) ++ s2
    /\ Forall (fun c => is_digit c = true) d /\ 1 <= length d <= 4
    /\ Forall (fun c => in_range 97 122 c = true) l /\ length l <= 1.
Proof.
  unfold match_here, re_house_number. simpl rseq.
  change (rmatch (RSeq (RWordB is_word) ?r) prev s [] ?k)
    with (if xorb (is_word_opt is_word prev) (is_word_opt is_word (hd_error s))
          then rmatch r prev s [] k else None).
  destruct (xorb (is_word_opt is_word prev) (is_word_opt is_word (hd_error s)));
    [|discriminate].
  cbn [rmatch]. intros H.
  apply rep_go_inv in H as (d & s1 & prev1 & -> & Hd & Hlo & Hhi & H).
  apply rep_go_inv in H as (l & s3 & prev3 & -> & Hl & _ & Hhi' & H).
  destruct (xorb (is_word_opt is_word prev3) (is_word_opt is_word (hd_error s3)));
    [|discriminate].
  injection H as <- _.
  exists d, l. rewrite <- app_assoc. repeat split; try assumption.
  - now apply Hhi.
  - now apply Hhi'.
Qed.

(** The house-number tokens are distinct, and each is one to four decimal
    digits followed by at most one letter a-z. *)
Theorem house_number_tokens_shape (text : pystr) :
  NoDup (_extract_house_number_tokens text)
  /\ forall tok, In tok (_extract_house_number_tokens text) ->
       exists d l,
         tok = d ++ l
         /\ Forall (fun c => is_digit c = true) d /\ 1 <= length d <= 4
         /\ Forall (fun c => in_range 97 122 c = true) l /\ length l <= 1.
Proof.
  unfold _extract_house_number_tokens. split; [apply dedup_NoDup|].
  intros tok Htok. apply (proj1 (dedup_In _ _)) in Htok.
  apply hits_In in Htok as [caps Htok].
  revert Htok.
  apply (scan_hits re_house_number
           (fun tok => exists d l,
                tok = d ++ l
                /\ Forall (fun c => is_digit c = true) d /\ 1 <= length d <= 4
                /\ Forall (fun c => in_range 97 122 c = true) l /\ length l <= 1)).
  intros prev s s1 caps0 n Hm Hn.
  apply house_number_inv in Hm as (d & l & -> & Hd & Hdl & Hl & Hll).
  exists d, l. split; [|auto].
  rewrite length_app, Nat.add_sub in Hn.
  now rewrite <- Hn, firstn_app, Nat.sub_diag, firstn_all, app_nil_r.
Qed.

Lemma scan_char (p : N -> bool) (s : pystr) :
  forall prev,
    scan (RChar p) 0 prev s
    = map (fun c => if p c then Hit [c] [] else Gap c) s.
Proof.
  induction s as [|c s IH]; intros prev; [reflexivity|].
  cbn [scan map]. unfold match_here. cbn [rmatch].
  destruct (p c); [|now rewrite IH].
  replace (length (c :: s) - length s) with 1 by (cbn [length]; lia).
  cbn [firstn]. now rewrite IH.
Qed.

Lemma re_sub_char_delete (p : N -> bool) (s : pystr) :
  re_sub (RChar p) (fun _ => []) s = filter (fun c => negb (p c)) s.
Proof.
  unfold re_sub. rewrite scan_char.
  induction s as [|c s IH]; [reflexivity|]. simpl.
  destruct (p c); simpl; now rewrite IH.
Qed.

(** The digits-only postal code consists of decimal digits, unless the
    stripped value without ".0" has no digit at all: then it is that value. *)
Theorem plz_digits_only_shape (plz_val : pystr) :
  let p := _plz_digits_only plz_val in
  Forall (fun c => is_digit c = true) p
  \/ (p = replace (lit ".0") [] (strip plz_val)
      /\ Forall (fun c => is_digit c = false) p).
Proof.
  unfold _plz_digits_only. destruct plz_val as [|c cs]; [left; constructor|].
  set (s := replace (lit ".0") [] (strip (c :: cs))).
  destruct (re_search re_plz_country s) as [[m caps]|] eqn:Ec.
  - left. apply first_hit_In in Ec.
    enough (H : digits_4_5 (group_or_empty 1 caps)) by apply H.
    revert Ec.
    apply (scan_hits_caps re_plz_country
             (fun caps0 => digits_4_5 (group_or_empty 1 caps0))).
    intros prev s0 s1 caps0. apply plz_country_inv.
  - unfold re_non_digit. rewrite re_sub_char_delete.
    destruct (filter (fun c0 => negb (negb (is_digit c0))) s) as [|x xs] eqn:Ef.
    + right. split; [reflexivity|]. simpl. apply Forall_forall. intros y Hy.
      destruct (is_digit y) eqn:Ey; [|reflexivity].
      assert (Hin : In y (filter (fun c0 => negb (negb (is_digit c0))) s))
        by (apply filter_In; split; [assumption|now rewrite Ey]).
      rewrite Ef in Hin. destruct Hin.
    + left. simpl. rewrite <- Ef. apply Forall_forall. intros y Hy.
      apply filter_In in Hy as [_ Hy]. now rewrite negb_involutive in Hy.
Qed.

End ShapeFacts.

(** ** Instances of the further properties *)

Ltac all_chars := vm_compute; repeat (apply Forall_cons; [first [reflexivity | discriminate]|]);
                  apply Forall_nil.

(** Both customers at "Hauptstraße 5, 80331 München" are candidates, so the
    [Tour] column of their frame is a float column: the match is read from
    the row of customer 4713, with its tour 5 as "5.0". *)
Lemma eligible_row_witness :
  fst (@find_customer_by_address R None (Some tour_customers) addr_hauptstrasse
         None None false [] None None None)
  = Ok (Some {| kundennummer := lit "4713"; adressnummer := lit "0";
                tour := lit "5.0" |})
  /\ exists x,
       In x (rows tour_customers) /\ verband_ok x = true
       /\ ({| kundennummer := lit "4713"; adressnummer := lit "0"; tour := lit "5.0" |}
           = row_result tour_customers x
           \/ exists subset,
                let plz := plz_of_address (@strip R addr_hauptstrasse) in
                let cands := address_candidates None tour_customers
                               (address_clean (@strip R addr_hauptstrasse) None) plz
                               subset in
                address_subset tour_customers plz = Ok (Some subset)
                /\ In x cands /\ adressnummer_is_zero x = true
                /\ {| kundennummer := lit "4713"; adressnummer := lit "0";
                      tour := lit "5.0" |} = frame_result cands x)
       /\ (@strip R addr_hauptstrasse = [] ->
           {| kundennummer := lit "4713"; adressnummer := lit "0"; tour := lit "5.0" |}
           = row_result tour_customers x
           /\ _clean_num (clean_cell x Kundennummer) = _clean_num (or_empty None)).
Proof.
  assert (H : fst (@find_customer_by_address R None (Some tour_customers)
                     addr_hauptstrasse None None false [] None None None)
              = Ok (Some {| kundennummer := lit "4713"; adressnummer := lit "0";
                            tour := lit "5.0" |})) by (vm_compute; reflexivity).
  split; [exact H|].
  exact (@match_is_an_eligible_row R None tour_customers addr_hauptstrasse None None
           false [] None None None _ H).
Defined.

(** The candidate for "Hauptstraße 5, 80331 München" gives a match. *)
Lemma candidates_give_a_match_witness :
  (@strip R addr_hauptstrasse <> []
   /\ address_subset customers (plz_of_address (@strip R addr_hauptstrasse))
      = Ok (Some [row_4711])
   /\ address_candidates eager_fuzz customers
        (address_clean (@strip R addr_hauptstrasse) None)
        (plz_of_address (@strip R addr_hauptstrasse)) [row_4711] <> [])
  /\ exists r,
       fst (@find_customer_by_address R eager_fuzz (Some customers) addr_hauptstrasse
              None None false [] None None None) = Ok (Some r).
Proof.
  assert (H1 : @strip R addr_hauptstrasse <> []) by (vm_compute; discriminate).
  assert (H2 : address_subset customers (plz_of_address (@strip R addr_hauptstrasse))
               = Ok (Some [row_4711])) by (vm_compute; reflexivity).
  assert (H3 : address_candidates eager_fuzz customers
                 (address_clean (@strip R addr_hauptstrasse) None)
                 (plz_of_address (@strip R addr_hauptstrasse)) [row_4711] <> [])
    by (vm_compute; discriminate).
  split; [repeat split; assumption|].
  exact (@candidates_always_give_a_match R eager_fuzz customers addr_hauptstrasse
           None None false [] None None None [row_4711] H1 H2 H3
           eq_refl eq_refl eq_refl eq_refl).
Defined.

(** The customer number 4711 that the identifier 4006592004711 gives is
    found by the lookup by customer number. *)
Lemma iln_number_lookup_witness :
  @find_kundennummer_by_iln R (Some customers) (lit "4006592004711") = Some (lit "4711")
  /\ exists r,
       fst (@find_customer_by_address R None (Some customers) [] (Some (lit "4711"))
              None false [] None None None) = Ok (Some r)
       /\ exists x, In x (rows customers) /\ verband_ok x = true
                    /\ r = row_result customers x
                    /\ _clean_num (clean_cell x Kundennummer) = _clean_num (lit "4711").
Proof.
  assert (H : @find_kundennummer_by_iln R (Some customers) (lit "4006592004711")
              = Some (lit "4711")) by (vm_compute; reflexivity).
  split; [exact H|].
  exact (@iln_number_is_found_by_the_lookup R None customers (lit "4006592004711")
           (lit "4711") None false [] None None None H).
Defined.

(** The match for "Vitosha bulevard 12, 1000 Sofia" is the main address of
    the allowlisted customer 68935. *)
Lemma momax_main_address_witness :
  @find_momax_bg_customer_by_address R None (Some momax_customers) addr_vitosha
  = Some {| kundennummer := lit "68935"; adressnummer := lit "0"; tour := lit "B1" |}
  /\ lit "0" = lit "0"
  /\ exists x, In x (rows momax_customers) /\ verband_ok x = true
               /\ momax_allowed x = true
               /\ lit "68935" = clean_cell x Kundennummer
               /\ lit "B1" = @strip R (get_str momax_customers x Tour).
Proof.
  assert (H : @find_momax_bg_customer_by_address R None (Some momax_customers)
                addr_vitosha
              = Some {| kundennummer := lit "68935"; adressnummer := lit "0";
                        tour := lit "B1" |}) by (vm_compute; reflexivity).
  split; [exact H|].
  exact (@momax_match_is_a_main_address R None momax_customers addr_vitosha _ H).
Defined.

(** "Vitosha blvd 12, 1000 Sofia" contains the street of the table, and
    customer 68935 is returned although a scorer that accepts every row is
    installed. *)
Lemma momax_strict_match_witness :
  (momax_subset momax_customers = Some [row_68935]
   /\ In row_68935 [row_68935]
   /\ momax_candidate eager_fuzz momax_customers (@strip R addr_vitosha_blvd) row_68935
      = Some cand_68935_strict
   /\ momax_street_matches momax_customers (@strip R addr_vitosha_blvd) row_68935 = true
   /\ @find_momax_bg_customer_by_address R eager_fuzz (Some momax_customers)
        addr_vitosha_blvd
      = Some {| kundennummer := lit "68935"; adressnummer := lit "0"; tour := lit "B1" |})
  /\ exists best,
       In best [row_68935]
       /\ momax_street_matches momax_customers (@strip R addr_vitosha_blvd) best = true
       /\ lit "68935" = clean_cell best Kundennummer.
Proof.
  assert (H1 : momax_subset momax_customers = Some [row_68935])
    by (vm_compute; reflexivity).
  assert (H2 : In row_68935 [row_68935]) by (now left).
  assert (H3 : momax_candidate eager_fuzz momax_customers (@strip R addr_vitosha_blvd)
                 row_68935 = Some cand_68935_strict) by (vm_compute; reflexivity).
  assert (H4 : momax_street_matches momax_customers (@strip R addr_vitosha_blvd)
                 row_68935 = true) by (vm_compute; reflexivity).
  assert (H5 : @find_momax_bg_customer_by_address R eager_fuzz (Some momax_customers)
                 addr_vitosha_blvd
               = Some {| kundennummer := lit "68935"; adressnummer := lit "0";
                         tour := lit "B1" |}) by (vm_compute; reflexivity).
  split; [repeat split; assumption|].
  exact (@momax_strict_match_wins R eager_fuzz momax_customers addr_vitosha_blvd
           [row_68935] row_68935 cand_68935_strict _ H1 H2 H3 H4 H5).
Defined.

(** "004711" and "4711" are cleaned to the same text. *)
Lemma leading_zeros_witness :
  ((forall c, in_range 48 57 c = true -> @is_space R c = false)
   /\ Forall (fun c => in_range 48 57 c = true) (lit "4711")
   /\ lstrip_by (N.eqb 48) (lit "4711") <> [])
  /\ @_clean_kdnr R (repeat 48%N 2 ++ lit "4711") = @_clean_kdnr R (lit "4711")
  /\ hd_error (@_clean_kdnr R (lit "4711")) <> Some 48%N.
Proof.
  assert (H2 : Forall (fun c => in_range 48 57 c = true) (lit "4711")) by all_chars.
  assert (H3 : lstrip_by (N.eqb 48) (lit "4711") <> []) by (vm_compute; discriminate).
  split; [repeat split; [exact latin_digits_not_space | exact H2 | exact H3]|].
  exact (@leading_zeros_are_ignored R 2 (lit "4711") latin_digits_not_space H2 H3).
Defined.

(** The order of 14 January 2026 for tour G2 is delivered in week 8, in
    which the tour runs under its schedule code 2.2. *)
Lemma run_week_witness :
  @delivery_decision R (Some schedule_g2) (lit "14.01.2026") (lit "G2") None
  = Ok (Some (2026%Z, 8%Z))
  /\ exists t code cells,
       Some schedule_g2 = Some t
       /\ _get_schedule_code_for_tour t (@strip R (lit "G2")) = Some code
       /\ In (8%Z, cells) (run_rows t) /\ tour_runs (cells code) = true.
Proof.
  assert (H : @delivery_decision R (Some schedule_g2) (lit "14.01.2026") (lit "G2") None
              = Ok (Some (2026%Z, 8%Z))) by (vm_compute; reflexivity).
  split; [exact H|].
  exact (@delivery_week_is_a_run_week R (Some schedule_g2) (lit "14.01.2026") (lit "G2")
           None 2026%Z 8%Z H).
Defined.

(** With week 10 requested, the order of week 3 is delivered in week 8 of
    2026: within five weeks before the requested week and not before the
    earliest possible week 8. *)
Lemma delivery_bounds_witness :
  (@parse_isocalendar R (lit "14.01.2026") = Some (2026%Z, 3%Z)
   /\ resolve_tour_column schedule_g2 (@strip R (lit "G2")) = Some (lit "G2")
   /\ earliest_possible_week schedule_g2 3 (lit "G2") = Some 8%Z
   /\ @delivery_decision R (Some schedule_g2) (lit "14.01.2026") (lit "G2")
        (Some (lit "KW10/2026")) = Ok (Some (2026%Z, 8%Z)))
  /\ match (if truthy (Some (lit "KW10/2026"))
            then @_extract_week_year R (or_empty (Some (lit "KW10/2026"))) (Some 2026%Z)
            else Ok None) with
     | Ok (Some (req_w, req_y)) =>
         2026%Z = req_y /\ (req_w - 5 <= 8)%Z /\ ((8 <= req_w + 1)%Z -> (8 <= 8)%Z)
     | Ok None => 2026%Z = 2026%Z /\ (8 <= 8)%Z
     | Raise _ => False
     end.
Proof.
  assert (H1 : @parse_isocalendar R (lit "14.01.2026") = Some (2026%Z, 3%Z))
    by (vm_compute; reflexivity).
  assert (H2 : resolve_tour_column schedule_g2 (@strip R (lit "G2")) = Some (lit "G2"))
    by (vm_compute; reflexivity).
  assert (H3 : earliest_possible_week schedule_g2 3 (lit "G2") = Some 8%Z)
    by (vm_compute; reflexivity).
  assert (H4 : @delivery_decision R (Some schedule_g2) (lit "14.01.2026") (lit "G2")
                 (Some (lit "KW10/2026")) = Ok (Some (2026%Z, 8%Z)))
    by (vm_compute; reflexivity).
  split; [repeat split; assumption|].
  exact (@delivery_week_bounds R schedule_g2 (lit "14.01.2026") (lit "G2")
           (Some (lit "KW10/2026")) 2026%Z 3%Z (lit "G2") 8%Z 2026%Z 8%Z H1 H2 H3 H4).
Defined.

(** Tour G2, for which a week is found, is a valid tour. *)
Lemma scheduled_tour_witness :
  @delivery_decision R (Some schedule_g2) (lit "14.01.2026") (lit "G2")
    (Some (lit "KW10/2026")) = Ok (Some (2026%Z, 8%Z))
  /\ @is_tour_valid R (Some schedule_g2) (lit "G2") = true.
Proof.
  assert (H : @delivery_decision R (Some schedule_g2) (lit "14.01.2026") (lit "G2")
                (Some (lit "KW10/2026")) = Ok (Some (2026%Z, 8%Z)))
    by (vm_compute; reflexivity).
  split; [exact H|].
  exact (@scheduled_tour_is_valid R (Some schedule_g2) (lit "14.01.2026") (lit "G2")
           (Some (lit "KW10/2026")) 2026%Z 8%Z H).
Defined.

(** "KW 12" with the default year 2026 is week 12. *)
Lemma extracted_week_witness :
  ((forall yy ww, @parse_isocalendar R (lit "KW 12") = Some (yy, ww) ->
                  (1 <= ww <= 53)%Z)
   /\ @_extract_week_year R (lit "KW 12") (Some 2026%Z) = Ok (Some (12%Z, 2026%Z)))
  /\ (1 <= 12 <= 53)%Z.
Proof.
  assert (H1 : forall yy ww, @parse_isocalendar R (lit "KW 12") = Some (yy, ww) ->
                             (1 <= ww <= 53)%Z).
  { intros yy ww Hp. vm_compute in Hp. discriminate Hp. }
  assert (H2 : @_extract_week_year R (lit "KW 12") (Some 2026%Z)
               = Ok (Some (12%Z, 2026%Z))) by (vm_compute; reflexivity).
  split; [split; assumption|].
  exact (@extracted_week_in_range R (lit "KW 12") (Some 2026%Z) 12%Z 2026%Z H1 H2).
Defined.

(** "Hauptstraße 5, 80331 München" gives the identifier of the second row of
    the ILN table, without the ".0" of the float. *)
Lemma iln_by_address_witness :
  @find_iln_by_address R (Some iln_table) addr_hauptstrasse
  = Some (lit "4006592004711")
  /\ let addr_clean := _normalize_address_token (@strip R addr_hauptstrasse) in
     let plz := first_plz_of_address (@strip R addr_hauptstrasse) in
     exists r,
       In r (iln_rows iln_table)
       /\ lit "4006592004711"
          = (let v := iln_get_str iln_table r IlnNumber in
             if endswith (lit ".0") v then firstn (length v - 2) v else v)
       /\ iln_street_hit iln_table addr_clean r = true
       /\ (iln_city_hit iln_table addr_clean r = true
           \/ iln_plz_hit iln_table plz r = true)
       /\ forall r', In r' (iln_rows iln_table) ->
                     iln_score iln_table addr_clean plz r'
                     <= iln_score iln_table addr_clean plz r.
Proof.
  assert (H : @find_iln_by_address R (Some iln_table) addr_hauptstrasse
              = Some (lit "4006592004711")) by (vm_compute; reflexivity).
  split; [exact H|].
  exact (@iln_by_address_best_row R iln_table addr_hauptstrasse (lit "4006592004711") H).
Defined.

(** The answer between "Here is the match: " and " Please verify." is
    decoded. *)
Lemma answer_in_prose_witness :
  (@json_loads R (@strip R (prose_before ++ 123%N :: answer_fields "0.7"
                              ++ 125%N :: prose_after)) = None
   /\ absent 123 prose_before /\ absent 125 prose_after)
  /\ @decode_answer R (prose_before ++ 123%N :: answer_fields "0.7"
                         ++ 125%N :: prose_after)
     = @json_loads R (123%N :: answer_fields "0.7" ++ [125%N]).
Proof.
  assert (H1 : @json_loads R (@strip R (prose_before ++ 123%N :: answer_fields "0.7"
                                          ++ 125%N :: prose_after)) = None)
    by (vm_compute; reflexivity).
  assert (H2 : absent 123 prose_before) by all_chars.
  assert (H3 : absent 125 prose_after) by all_chars.
  split; [repeat split; assumption|].
  exact (@answer_in_prose_is_decoded R prose_before (answer_fields "0.7") prose_after
           H1 H2 H3).
Defined.

(** The answer with confidence 0.7 is parsed into stripped fields. *)
Lemma parsed_answer_witness :
  @_parse_ai_match_response R (answer_text "0.7")
  = Ok (Some {| ai_kundennummer := lit "4711"; ai_adressnummer := lit "0";
                ai_tour := lit "G2"; ai_iln := [];
                ai_confidence := FNum float_0_7 |})
  /\ @strip R (lit "4711") = lit "4711"
  /\ @strip R (lit "0") = lit "0"
  /\ @strip R (lit "G2") = lit "G2"
  /\ @strip R [] = [].
Proof.
  assert (H : @_parse_ai_match_response R (answer_text "0.7")
              = Ok (Some {| ai_kundennummer := lit "4711"; ai_adressnummer := lit "0";
                            ai_tour := lit "G2"; ai_iln := [];
                            ai_confidence := FNum float_0_7 |}))
    by (vm_compute; reflexivity).
  split; [exact H|].
  exact (@parsed_answer_is_stripped R (answer_text "0.7") _ H).
Defined.
